(** * gnosis-py: signature codec and Ethereum client

    A shallow embedding of [gnosis/safe/signatures.py] and of the parts of
    [gnosis/eth/ethereum_client.py] that pack, send and decode JSON-RPC
    requests, followed by the properties established about them.

    Layout:
    - [Py]: the Python built-ins the code relies on (exceptions, [bytes],
      [int.from_bytes], indexing and slicing, [str.lower], [in], ...);
    - [Signatures]: [gnosis/safe/signatures.py];
    - [EthAbi]: the two eth_abi decoders the client calls;
    - [EthereumClient]: [gnosis/eth/ethereum_client.py], run against a
      node that is a function of the requests seen so far;
    - [Fixtures], [Spec]: concrete collaborators and the vocabulary of the
      statements;
    - [PyFacts] ... [SubmissionFacts]: the properties, one module per
      component;
    - [CodecFacts] ... [ClientMoreFacts]: further properties of the same
      code and of [EthereumClientRest]. *)

From Stdlib Require Import ZArith String Ascii List Sorted Lia.
From Stdlib Require Import HexadecimalString HexadecimalN HexadecimalPos.
From Stdlib.Strings Require Import Byte.
From stdpp Require Import base option list gmap strings fin_maps.

Set Warnings "-register-all".
Local Open Scope Z_scope.

(* ===================================================================== *)
(** * Python built-ins *)
(* ===================================================================== *)

Module Py.

(** The subclasses of [EthereumClientException] declared at the top of
    [ethereum_client.py].  All of them derive from [ValueError]. *)
Inductive client_error :=
| TransactionAlreadyImported
| ReplacementTransactionUnderpriced
| FromAddressNotFound
| InvalidNonce
| NonceTooLow
| InsufficientFunds
| SenderAccountNotFoundInNode
| UnknownAccount
| GasLimitExceeded
| ParityTraceDecodeException
| InvalidERC20Info.

(** Exceptions that the modelled code can raise.  [ValueError] carries
    [str(exc)]; [TransportError] stands for every failure of the HTTP layer
    (timeouts, connection errors), none of which derives from
    [ValueError]; [Exception] is an instance of the base class itself, as
    ethereum.utils raises on text that is no address. *)
Inductive exn :=
| IndexError
| KeyError (key : string)
| TypeError
| AssertionError (msg : string)
| OverflowError
| ValueError (msg : string)
| EthereumClientException (kind : client_error) (msg : string)
| InsufficientDataBytes
| NonEmptyPaddingBytes
| TransportError (name : string)
| Exception (msg : string).

(** The class name Python reports for an exception. *)
Definition client_error_name (k : client_error) : string :=
  match k with
  | TransactionAlreadyImported => "TransactionAlreadyImported"
  | ReplacementTransactionUnderpriced => "ReplacementTransactionUnderpriced"
  | FromAddressNotFound => "FromAddressNotFound"
  | InvalidNonce => "InvalidNonce"
  | NonceTooLow => "NonceTooLow"
  | InsufficientFunds => "InsufficientFunds"
  | SenderAccountNotFoundInNode => "SenderAccountNotFoundInNode"
  | UnknownAccount => "UnknownAccount"
  | GasLimitExceeded => "GasLimitExceeded"
  | ParityTraceDecodeException => "ParityTraceDecodeException"
  | InvalidERC20Info => "InvalidERC20Info"
  end%string.

Definition exn_name (e : exn) : string :=
  match e with
  | IndexError => "IndexError"
  | KeyError _ => "KeyError"
  | TypeError => "TypeError"
  | AssertionError _ => "AssertionError"
  | OverflowError => "OverflowError"
  | ValueError _ => "ValueError"
  | EthereumClientException k _ => client_error_name k
  | InsufficientDataBytes => "InsufficientDataBytes"
  | NonEmptyPaddingBytes => "NonEmptyPaddingBytes"
  | TransportError n => n
  | Exception _ => "Exception"
  end%string.

(** A computation that returns or raises. *)
Inductive result (A : Type) :=
| Ok (a : A)
| Raise (e : exn).
Arguments Ok {A} a.
Arguments Raise {A} e.

#[global] Instance result_ret : MRet result := @Ok.
#[global] Instance result_bind : MBind result := λ A B f m,
  match m with
  | Ok a => f a
  | Raise e => Raise e
  end.
#[global] Instance result_fmap : FMap result := λ A B f m,
  match m with
  | Ok a => Ok (f a)
  | Raise e => Raise e
  end.

(** [[f(x) for x in l]] with a body that can raise: the first failure
    aborts the comprehension. *)
Fixpoint mapR {A B} (f : A → result B) (l : list A) : result (list B) :=
  match l with
  | [] => Ok []
  | x :: l' => y ← f x; ys ← mapR f l'; Ok (y :: ys)
  end.

(** ** bytes *)

Abbreviation bytes := (list byte).

#[global] Instance byte_eq_decision : EqDecision byte := byte_eq_dec.

Definition byte_to_Z (b : byte) : Z := Z.of_N (Byte.to_N b).
Definition byte_of_Z (z : Z) : byte := default x00 (Byte.of_N (Z.to_N z)).

(** [int.from_bytes(b, 'big')] *)
Definition int_from_bytes (b : bytes) : Z :=
  fold_left (λ acc x, acc * 256 + byte_to_Z x) b 0.

(** The [len] low-order base-256 digits of [n], most significant first. *)
Fixpoint be_bytes (len : nat) (n : Z) : bytes :=
  match len with
  | O => []
  | S k => be_bytes k (n / 256) ++ [byte_of_Z (n mod 256)]
  end.

(** [n.to_bytes(len, byteorder='big')]: unsigned, so a negative [n] and an
    [n] that does not fit in [len] bytes raise [OverflowError]. *)
Definition int_to_bytes (n : Z) (len : nat) : result bytes :=
  if n <? 0 then Raise OverflowError
  else if 256 ^ Z.of_nat len <=? n then Raise OverflowError
  else Ok (be_bytes len n).

(** ** Indexing and slicing of sequences *)

(** [l[i]], with Python's negative indices. *)
Definition getitem {A} (l : list A) (i : Z) : result A :=
  let n := Z.of_nat (length l) in
  let j := if i <? 0 then i + n else i in
  if (j <? 0) || (n <=? j) then Raise IndexError
  else match l !! Z.to_nat j with
       | Some x => Ok x
       | None => Raise IndexError
       end.

(** How a slice bound is normalised: negative bounds count from the end,
    and everything is clamped to [0, len]. *)
Definition slice_bound (n i : Z) : Z :=
  if i <? 0 then Z.max (i + n) 0 else Z.min i n.

(** [l[lo:hi]] *)
Definition slice {A} (l : list A) (lo hi : Z) : list A :=
  let n := Z.of_nat (length l) in
  let a := slice_bound n lo in
  let b := slice_bound n hi in
  take (Z.to_nat (b - a)) (drop (Z.to_nat a) l).

(** ** str *)

(** Strings are sequences of code points below 256.  [str.lower] on that
    range: A-Z, and the Latin-1 capitals other than the multiplication
    sign, move up by 32. *)
Definition lower_char (c : ascii) : ascii :=
  let n := N_of_ascii c in
  if ((65 <=? n) && (n <=? 90))%N then ascii_of_N (n + 32)
  else if ((192 <=? n) && (n <=? 222) && negb (n =? 215))%N then ascii_of_N (n + 32)
  else c.

Fixpoint lower (s : string) : string :=
  match s with
  | EmptyString => EmptyString
  | String c s' => String (lower_char c) (lower s')
  end.

(** [sub in s] for two strings. *)
Fixpoint str_in (sub s : string) : bool :=
  String.prefix sub s ||
  match s with
  | EmptyString => false
  | String _ s' => str_in sub s'
  end.

(** ** Hexadecimal text *)

Definition hex_digit (n : N) : ascii :=
  if (n <? 10)%N then ascii_of_N (48 + n) else ascii_of_N (87 + n).

Definition hex_val (c : ascii) : option N :=
  let n := N_of_ascii c in
  if ((48 <=? n) && (n <=? 57))%N then Some (n - 48)%N
  else if ((97 <=? n) && (n <=? 102))%N then Some (n - 87)%N
  else if ((65 <=? n) && (n <=? 70))%N then Some (n - 55)%N
  else None.

(** [b.hex()] of plain [bytes]: two lowercase digits per byte. *)
Fixpoint bytes_hex (b : bytes) : string :=
  match b with
  | [] => EmptyString
  | x :: b' =>
      let n := Byte.to_N x in
      String (hex_digit (n / 16)) (String (hex_digit (n mod 16)) (bytes_hex b'))
  end.

(** [binascii.unhexlify]; [binascii.Error] is a [ValueError]. *)
Fixpoint unhexlify (s : string) : result bytes :=
  match s with
  | EmptyString => Ok []
  | String _ EmptyString => Raise (ValueError "Odd-length string")
  | String c1 (String c2 s') =>
      match hex_val c1, hex_val c2 with
      | Some h, Some l =>
          rest ← unhexlify s';
          Ok (byte_of_Z (Z.of_N (16 * h + l)) :: rest)
      | _, _ => Raise (ValueError "Non-hexadecimal digit found")
      end
  end.

(** [hexbytes]' conversion of a string: an optional [0x] prefix is
    dropped and an odd number of digits is padded on the left. *)
Definition hexstr_to_bytes (hexstr : string) : result bytes :=
  let non_prefixed :=
    match hexstr with
    | String "0" (String "x" s) | String "0" (String "X" s) => s
    | _ => hexstr
    end in
  let padded :=
    if Nat.odd (String.length hexstr) then String "0" non_prefixed
    else non_prefixed in
  unhexlify padded.

(** An argument typed [Union[bytes, str]]. *)
Inductive bytes_or_str :=
| Bytes (b : bytes)
| Str (s : string).

(** [HexBytes(x)] *)
Definition HexBytes (x : bytes_or_str) : result bytes :=
  match x with
  | Bytes b => Ok b
  | Str s => hexstr_to_bytes s
  end.

(** [HexBytes(...).hex()], which carries the [0x] prefix. *)
Definition HexBytes_hex (b : bytes) : string := ("0x" ++ bytes_hex b)%string.

(** ['%x' % n] *)
Definition format_x (n : Z) : string :=
  let digits := NilZero.string_of_uint (N.to_hex_uint (Z.to_N (Z.abs n))) in
  if n <? 0 then String "-" digits else digits.

(** [hex(n)] *)
Definition hex (n : Z) : string :=
  let digits := NilZero.string_of_uint (N.to_hex_uint (Z.to_N (Z.abs n))) in
  if n <? 0 then ("-0x" ++ digits)%string else ("0x" ++ digits)%string.

End Py.

Import Py.

(* ===================================================================== *)
(** * gnosis/safe/signatures.py *)
(* ===================================================================== *)

Module Signatures.

(** [signature_split(signatures, pos)] *)
Definition signature_split (signatures : bytes_or_str) (pos : Z)
  : result (Z * Z * Z) :=
  signatures ← HexBytes signatures;
  let signature_pos := 65 * pos in
  v ← getitem signatures (64 + signature_pos);
  let r := int_from_bytes (slice signatures signature_pos (32 + signature_pos)) in
  let s := int_from_bytes (slice signatures (32 + signature_pos) (64 + signature_pos)) in
  Ok (byte_to_Z v, r, s).

(** [signature_to_bytes(vrs)] *)
Definition signature_to_bytes (vrs : Z * Z * Z) : result bytes :=
  let '(v, r, s) := vrs in
  rb ← int_to_bytes r 32;
  sb ← int_to_bytes s 32;
  vb ← int_to_bytes v 1;
  Ok (rb ++ sb ++ vb).

(** [signatures_to_bytes(signatures)] *)
Definition signatures_to_bytes (signatures : list (Z * Z * Z)) : result bytes :=
  chunks ← mapR signature_to_bytes signatures;
  Ok (concat chunks).

End Signatures.

(* ===================================================================== *)
(** * eth_abi: the two decoders the client calls *)
(* ===================================================================== *)

Module EthAbi.

(** [eth_abi.decode_single('uint256', data)]: one 32-byte big-endian word
    is read from the front of [data]; fewer bytes raise
    [InsufficientDataBytes], further bytes are ignored. *)
Definition decode_uint256 (data : bytes) : result Z :=
  if (length data <? 32)%nat then Raise InsufficientDataBytes
  else Ok (int_from_bytes (take 32 data)).

(** One head word decoded as an [address]: the 12 padding bytes must be
    zero ([NonEmptyPaddingBytes] otherwise) and the value is the
    normalised (lowercase, [0x]-prefixed) hexadecimal address. *)
Definition decode_address (data : bytes) : result string :=
  if (length data <? 32)%nat then Raise InsufficientDataBytes
  else if bool_decide (take 12 data = replicate 12 x00)
       then Ok ("0x" ++ bytes_hex (take 20 (drop 12 data)))%string
       else Raise NonEmptyPaddingBytes.

(** The static types that occur in the client's [decode_abi] calls. *)
Inductive abi_type := address | uint256.

Inductive abi_value :=
| AAddress (a : string)
| AUint (n : Z).

(** [eth_abi.decode_abi(types, data)] for static types: the words are
    read one after the other. *)
Fixpoint decode_abi (types : list abi_type) (data : bytes) : result (list abi_value) :=
  match types with
  | [] => Ok []
  | t :: types' =>
      v ← match t with
          | address => AAddress <$> decode_address data
          | uint256 => AUint <$> decode_uint256 data
          end;
      vs ← decode_abi types' (drop 32 data);
      Ok (v :: vs)
  end.

End EthAbi.

(* ===================================================================== *)
(** * gnosis/eth/ethereum_client.py *)
(* ===================================================================== *)

Module EthereumClient.

(** ** Python objects exchanged with the node

    What [json()] can return (no floats), plus the [bytes] that the
    decoders put into their results.  A [dict] is a finite map: the code
    never depends on the order of its keys. *)
Inductive value :=
| VNone
| VBool (b : bool)
| VInt (n : Z)
| VStr (s : string)
| VBytes (b : bytes)
| VList (l : list value)
| VDict (d : gmap string value).

(** [bool(v)] *)
Definition truthy (v : value) : bool :=
  match v with
  | VNone => false
  | VBool b => b
  | VInt n => negb (n =? 0)
  | VStr s => negb (String.length s =? 0)%nat
  | VBytes b => negb (length b =? 0)%nat
  | VList l => negb (length l =? 0)%nat
  | VDict d => negb (size d =? 0)%nat
  end.

(** [k in v] for a string [k] *)
Definition contains (k : string) (v : value) : result bool :=
  match v with
  | VDict d => Ok (bool_decide (is_Some (d !! k)))
  | VList l =>
      Ok (existsb (λ x, match x with VStr s => String.eqb s k | _ => false end) l)
  | VStr s => Ok (str_in k s)
  | _ => Raise TypeError
  end.

(** [v[k]] for a string [k] *)
Definition getkey (v : value) (k : string) : result value :=
  match v with
  | VDict d =>
      match d !! k with
      | Some x => Ok x
      | None => Raise (KeyError k)
      end
  | _ => Raise TypeError
  end.

Fixpoint chars (s : string) : list value :=
  match s with
  | EmptyString => []
  | String c s' => VStr (String c EmptyString) :: chars s'
  end.

(** The items [for x in v] goes through. *)
Definition iter (v : value) : result (list value) :=
  match v with
  | VList l => Ok l
  | VDict d => Ok (VStr <$> (map_to_list d).*1)
  | VStr s => Ok (chars s)
  | VBytes b => Ok ((λ x, VInt (byte_to_Z x)) <$> b)
  | _ => Raise TypeError
  end.

(** [HexBytes(v)] of an object taken from a response. *)
Definition HexBytes_value (v : value) : result bytes :=
  match v with
  | VBytes b => Ok b
  | VStr s => hexstr_to_bytes s
  | VBool b => Ok [if b then x01 else x00]
  | VInt n =>
      if n <? 0 then Raise (ValueError "Cannot convert negative integer to bytes")
      else hexstr_to_bytes (hex n)
  | _ => Raise TypeError
  end.

Definition value_of_hash (h : bytes_or_str) : value :=
  match h with
  | Bytes b => VBytes b
  | Str s => VStr s
  end.

(** ** What the module imports *)

(** Constants of [gnosis/eth/constants.py]. *)
Class Constants := {
  ERC20_721_TRANSFER_TOPIC : bytes;
  GAS_CALL_DATA_BYTE : Z;
  GAS_CALL_DATA_ZERO_BYTE : Z;
}.

(** Library functions: Python's [int(s, 16)], web3's checksum transform
    and result formatters, and eth_account's signing. *)
Class Library := {
  int16 : string → result Z;
  toChecksumAddress : value → result string;
  transaction_formatter : value → result value;
  receipt_formatter : value → result value;
  block_formatter : value → result value;
  (* (rawTransaction, hash) of the signed transaction *)
  sign_transaction : gmap string value → string → result (bytes * bytes);
  private_key_to_address : string → result string;
}.

(** [int(v, 16)] *)
Definition int_16 `{Library} (v : value) : result Z :=
  match v with
  | VStr s => int16 s
  | _ => Raise TypeError
  end.

(** ** The node

    Two web3 providers exist (default and slow timeout); batched queries
    go through [requests.post].  A node answers a request, given the
    requests it has seen before, with a value or with a failure. *)
Inductive provider := Default | Slow.

Inductive request :=
| HttpPost (url : string) (payload : value)
| Rpc (p : provider) (method : string) (params : list value).

Definition node := list request → request → result value.

(** Client code runs against the log of the requests issued so far. *)
Definition M (A : Type) : Type := list request → result A * list request.

#[global] Instance M_ret : MRet M := λ A a log, (Ok a, log).
#[global] Instance M_bind : MBind M := λ A B f m log,
  match m log with
  | (Ok a, log') => f a log'
  | (Raise e, log') => (Raise e, log')
  end.

Definition raise {A} (e : exn) : M A := λ log, (Raise e, log).

Definition lift {A} (r : result A) : M A := λ log, (r, log).

(** [try: m except <handled>: ...], where [handler e] is the [except]
    body that matches [e], if there is one. *)
Definition try_except {A} (m : M A) (handler : exn → option (M A)) : M A :=
  λ log,
    match m log with
    | (Ok a, log') => (Ok a, log')
    | (Raise e, log') =>
        match handler e with
        | Some h => h log'
        | None => (Raise e, log')
        end
    end.

Definition call (nd : node) (r : request) : M value :=
  λ log, (nd log r, log ++ [r]).

(** ** tx_with_exception_handling *)

Definition error_with_exception : list (string * client_error) :=
  [ ("Transaction with the same hash was already imported", TransactionAlreadyImported);
    ("replacement transaction underpriced", ReplacementTransactionUnderpriced);
    ("There is another transaction with same nonce in the queue", ReplacementTransactionUnderpriced);
    ("from not found", FromAddressNotFound);
    ("correct nonce", InvalidNonce);
    ("nonce too low", NonceTooLow);
    ("insufficient funds", InsufficientFunds);
    ("doesn't have enough funds", InsufficientFunds);
    ("sender account not recognized", SenderAccountNotFoundInNode);
    ("unknown account", UnknownAccount);
    ("Transaction cost exceeds current gas limit", GasLimitExceeded);
    ("exceeds block gas limit", GasLimitExceeded) ]%string.

(** [str(exc)] when [exc] is caught by [except ValueError]. *)
Definition as_ValueError (exc : exn) : option string :=
  match exc with
  | ValueError msg => Some msg
  | EthereumClientException _ msg => Some msg
  | _ => None
  end.

(** The [for reason, custom_exception in error_with_exception.items()]
    loop: the first entry whose lowercased reason occurs in [str_exc]. *)
Fixpoint first_reason (str_exc : string) (table : list (string * client_error))
  : option client_error :=
  match table with
  | [] => None
  | (reason, custom_exception) :: table' =>
      if str_in (lower reason) str_exc then Some custom_exception
      else first_reason str_exc table'
  end.

Definition tx_with_exception_handling {A} (func : M A) : M A :=
  try_except func (λ exc,
    match as_ValueError exc with
    | Some msg =>
        let str_exc := lower msg in
        match first_reason str_exc error_with_exception with
        | Some custom_exception =>
            Some (raise (EthereumClientException custom_exception msg))
        | None => Some (raise exc)
        end
    | None => None
    end).

(** ** Erc20Manager *)

(** The dictionaries the log decoders return: [{'from', 'to', 'value'}]
    for ERC20 and [{'from', 'to', 'tokenId'}] for ERC721.  Both are
    non-empty, hence true in a condition. *)
Inductive transfer :=
| Erc20Transfer (from to : string) (value : Z)
| Erc721Transfer (from to : string) (tokenId : Z).

(** One entry of the list [get_balances] returns:
    [{'token_address': ..., 'balance': ...}]. *)
Record token_balance := {
  token_address : option string;
  balance : Z;
}.

(** [address.replace('0x', '')] *)
Fixpoint remove_0x (s : string) : string :=
  match s with
  | String "0" (String "x" s') => remove_0x s'
  | String c s' => String c (remove_0x s')
  | EmptyString => EmptyString
  end.

(** ['{:0>64}'.format(s)] *)
Definition pad64 (s : string) : string :=
  (string_of_list_ascii (replicate (64 - String.length s)%nat "0"%char) ++ s)%string.

Definition dict (l : list (string * value)) : gmap string value := list_to_map l.

Section Erc20Manager.
Context `{Constants} `{Library} (nd : node) (ethereum_node_url : string).

Definition TRANSFER_TOPIC : bytes := ERC20_721_TRANSFER_TOPIC.

Definition _decode_erc20_log (data : bytes_or_str) (topics : list bytes)
  : result (option transfer) :=
  match topics with
  | topic0 :: _ =>
      if bool_decide (topic0 = TRANSFER_TOPIC) && (length topics =? 3)%nat then
        data ← HexBytes data;
        value ← EthAbi.decode_uint256 data;
        addresses ← EthAbi.decode_abi [EthAbi.address; EthAbi.address]
                      (concat (drop 1 topics));
        match addresses with
        | [EthAbi.AAddress a1; EthAbi.AAddress a2] =>
            _from ← toChecksumAddress (VStr a1);
            to ← toChecksumAddress (VStr a2);
            Ok (Some (Erc20Transfer _from to value))
        | _ => Raise (ValueError "not enough values to unpack")
        end
      else Ok None
  | [] => Ok None
  end.

Definition _decode_erc721_log (topics : list bytes) : result (option transfer) :=
  match topics with
  | topic0 :: _ =>
      if bool_decide (topic0 = TRANSFER_TOPIC) && (length topics =? 4)%nat then
        decoded ← EthAbi.decode_abi [EthAbi.address; EthAbi.address; EthAbi.uint256]
                    (concat (drop 1 topics));
        match decoded with
        | [EthAbi.AAddress a1; EthAbi.AAddress a2; EthAbi.AUint token_id] =>
            _from ← toChecksumAddress (VStr a1);
            to ← toChecksumAddress (VStr a2);
            Ok (Some (Erc721Transfer _from to token_id))
        | _ => Raise (ValueError "not enough values to unpack")
        end
      else Ok None
  | [] => Ok None
  end.

Definition _decode_erc20_or_erc721_log (data : bytes_or_str) (topics : list bytes)
  : result (option transfer) :=
  decoded ← _decode_erc20_log data topics;
  match decoded with
  | Some _ => Ok decoded
  | None => _decode_erc721_log topics
  end.

(** The [eth_getBalance] query that opens the batch. *)
Definition balance_query (address : string) : value :=
  VDict (dict [("jsonrpc", VStr "2.0");
               ("method", VStr "eth_getBalance");
               ("params", VList [VStr address; VStr "latest"]);
               ("id", VInt 0)])%string.

(** The [balanceOf] query appended for the [i]-th token. *)
Definition balance_of_query (address : string) (i : nat) (erc20_address : string) : value :=
  VDict (dict [("jsonrpc", VStr "2.0");
               ("method", VStr "eth_call");
               ("params",
                VList [VDict (dict [("to", VStr erc20_address);
                                    ("data", VStr ("0x70a08231" ++ pad64 (lower (remove_0x address))))]);
                       VStr "latest"]);
               ("id", VInt (Z.of_nat i + 1))])%string.

Definition balance_queries (address : string) (erc20_addresses : list string) : list value :=
  balance_query address :: imap (balance_of_query address) erc20_addresses.

(** The body of the last loop of [get_balances]. *)
Definition get_balances_body (token_address : option string) (data : value)
  : result token_balance :=
  r ← getkey data "result";
  balance ← match r with
            | VStr "0x" => Ok 0
            | _ => int_16 r
            end;
  Ok {| token_address := token_address; balance := balance |}.

Fixpoint get_balances_loop (token_addresses : list (option string)) (datas : list value)
  : result (list token_balance) :=
  match token_addresses, datas with
  | token_address :: token_addresses', data :: datas' =>
      b ← get_balances_body token_address data;
      bs ← get_balances_loop token_addresses' datas';
      Ok (b :: bs)
  | _, _ => Ok []
  end.

Definition get_balances (address : string) (erc20_addresses : list string)
  : M (list token_balance) :=
  let queries := balance_queries address erc20_addresses in
  response ← call nd (HttpPost ethereum_node_url (VList queries));
  lift (datas ← iter response;
        get_balances_loop (None :: (Some <$> erc20_addresses)) datas).

End Erc20Manager.

(** ** ParityManager *)

Definition is_parity_decode_error (e : exn) : bool :=
  match e with
  | EthereumClientException ParityTraceDecodeException _ => true
  | _ => false
  end.

(** [d[k] = f(src[k])] when [k in src], for the decoders below. *)
Definition copy_field (src : value) (k : string) (f : value → result value)
  (decoded : gmap string value) : result (gmap string value) :=
  present ← contains k src;
  if (present : bool) then
    x ← getkey src k;
    y ← f x;
    Ok (<[k := y]> decoded)
  else Ok decoded.

Section ParityManager.
Context `{Library} (nd : node) (ethereum_node_url : string).

Definition checksum_field (v : value) : result value := VStr <$> toChecksumAddress v.
Definition int_field (v : value) : result value := VInt <$> int_16 v.
Definition bytes_field (v : value) : result value := VBytes <$> HexBytes_value v.

Definition _decode_trace_action (action : value) : result (gmap string value) :=
  let decoded : gmap string value := ∅ in
  (* CALL, DELEGATECALL, CREATE or CREATE2 *)
  decoded ← copy_field action "from" checksum_field decoded;
  decoded ← copy_field action "gas" int_field decoded;
  decoded ← copy_field action "value" int_field decoded;
  (* CALL or DELEGATECALL *)
  decoded ← copy_field action "callType" Ok decoded;
  decoded ← copy_field action "input" bytes_field decoded;
  decoded ← copy_field action "to" checksum_field decoded;
  (* CREATE or CREATE2 *)
  decoded ← copy_field action "init" bytes_field decoded;
  (* SELF-DESTRUCT *)
  decoded ← copy_field action "address" checksum_field decoded;
  decoded ← copy_field action "balance" int_field decoded;
  decoded ← copy_field action "refundAddress" checksum_field decoded;
  Ok decoded.

Definition _decode_trace_result (result : value) : Py.result (gmap string value) :=
  gas_used ← getkey result "gasUsed";
  gas_used ← int_16 gas_used;
  let decoded : gmap string value := {[ "gasUsed"%string := VInt gas_used ]} in
  (* CALL or DELEGATECALL *)
  decoded ← copy_field result "output" bytes_field decoded;
  (* CREATE or CREATE2 *)
  decoded ← copy_field result "code" bytes_field decoded;
  decoded ← copy_field result "address" checksum_field decoded;
  Ok decoded.

(** The body of the loop of [_decode_traces]; the message of the
    exception is kept without the rendering of the offending trace. *)
Definition _decode_traces_body (trace : value) : result value :=
  match trace with
  | VDict d =>
      let trace_copy := d in
      (* Txs with `error` field don't have `result` field;
         txs with `type=suicide` have a `result` field that is `None` *)
      trace_copy ←
        match d !! "result"%string with
        | Some r =>
            if truthy r then
              r' ← _decode_trace_result r;
              Ok (<["result"%string := VDict r']> trace_copy)
            else Ok trace_copy
        | None => Ok trace_copy
        end;
      action ← getkey trace "action";
      action' ← _decode_trace_action action;
      Ok (VDict (<["action"%string := VDict action']> trace_copy))
  | _ =>
      Raise (EthereumClientException ParityTraceDecodeException
               "Expected dictionary, but found unexpected trace")
  end.

Definition _decode_traces (traces : value) : result (list value) :=
  traces ← iter traces;
  mapR _decode_traces_body traces.

Definition trace_transaction_request (tx_hash : bytes_or_str) : request :=
  Rpc Slow "trace_transaction" [value_of_hash tx_hash].

Definition trace_transaction (tx_hash : bytes_or_str) : M (list value) :=
  try_except
    (raw ← call nd (trace_transaction_request tx_hash);
     lift (_decode_traces raw))
    (λ exc,
       if is_parity_decode_error exc then
         Some (raw ← call nd (trace_transaction_request tx_hash);
               lift (_decode_traces raw))
       else None).

(** The JSON-RPC envelope of the [i]-th query of a batch. *)
Definition batch_query (method : string) (i : nat) (params : list value) : value :=
  VDict (dict [("id", VInt (Z.of_nat i));
               ("jsonrpc", VStr "2.0");
               ("method", VStr method);
               ("params", VList params)])%string.

(** [[{'id': i, ..., 'params': [HexBytes(tx_hash).hex()]}
      for i, tx_hash in enumerate(tx_hashes)]] *)
Definition hash_payload (method : string) (tx_hashes : list bytes_or_str)
  : result (list value) :=
  mapR (λ '(i, tx_hash),
          h ← HexBytes tx_hash;
          Ok (batch_query method i [VStr (HexBytes_hex h)]))
       (imap pair tx_hashes).

(** The body of the loop of [trace_transactions]: the [except] branch
    decodes the same [raw_tx] again. *)
Definition trace_transactions_body (result : value) : Py.result (option (list value)) :=
  raw_tx ← getkey result "result";
  if truthy raw_tx then
    match _decode_traces raw_tx with
    | Ok decoded_traces => Ok (Some decoded_traces)
    | Raise exc =>
        if is_parity_decode_error exc then
          decoded_traces ← _decode_traces raw_tx;
          Ok (Some decoded_traces)
        else Raise exc
    end
  else Ok None.

Definition trace_transactions (tx_hashes : list bytes_or_str)
  : M (list (option (list value))) :=
  match tx_hashes with
  | [] => mret (M := M) []
  | _ =>
      payload ← lift (hash_payload "trace_transaction" tx_hashes);
      results ← call nd (HttpPost ethereum_node_url (VList payload));
      lift (results ← iter results;
            mapR trace_transactions_body results)
  end.

Definition opt_list_truthy (l : option (list string)) : bool :=
  match l with
  | Some (_ :: _) => true
  | _ => false
  end.

Definition opt_int_truthy (n : option Z) : bool :=
  match n with
  | Some n => negb (n =? 0)
  | None => false
  end.

(** The [parameters] dictionary [trace_filter] builds. *)
Definition trace_filter_parameters (from_block : Z) (to_block : option Z)
    (from_address to_address : option (list string)) (after count : option Z)
  : gmap string value :=
  let parameters : gmap string value := ∅ in
  let parameters :=
    if negb (from_block =? 0)
    then <["fromBlock"%string := VStr ("0x" ++ format_x from_block)]> parameters
    else parameters in
  let parameters :=
    if opt_int_truthy to_block
    then <["toBlock"%string := VStr ("0x" ++ format_x (default 0 to_block))]> parameters
    else parameters in
  let parameters :=
    if opt_list_truthy from_address
    then <["fromAddress"%string := VList (VStr <$> default [] from_address)]> parameters
    else parameters in
  let parameters :=
    if opt_list_truthy to_address
    then <["toAddress"%string := VList (VStr <$> default [] to_address)]> parameters
    else parameters in
  let parameters :=
    if opt_int_truthy after
    then <["after"%string := VInt (default 0 after)]> parameters
    else parameters in
  let parameters :=
    if opt_int_truthy count
    then <["count"%string := VInt (default 0 count)]> parameters
    else parameters in
  parameters.

Definition trace_filter_request (parameters : gmap string value) : request :=
  Rpc Slow "trace_filter" [VDict parameters].

(** [trace_filter]; [from_block] defaults to 1 in the source. *)
Definition trace_filter (from_block : Z) (to_block : option Z)
    (from_address to_address : option (list string)) (after count : option Z)
  : M (list value) :=
  if negb (opt_list_truthy from_address || opt_list_truthy to_address) then
    raise (AssertionError "You must provide at least `from_address` or `to_address`")
  else
    let parameters :=
      trace_filter_parameters from_block to_block from_address to_address after count in
    try_except
      (raw ← call nd (trace_filter_request parameters);
       lift (_decode_traces raw))
      (λ exc,
         if is_parity_decode_error exc then
           Some (raw ← call nd (trace_filter_request parameters);
                 lift (_decode_traces raw))
         else None).

End ParityManager.

(** ** EthereumClient *)

(** What one pass through the body of the [while] loop of
    [send_unsigned_transaction] leads to: a [return], or the next pass
    with the updated [tx] and [number_errors]. *)
Inductive iteration :=
| Done (tx_hash : value)
| Again (tx : gmap string value) (number_errors : Z).

Definition str_truthy (s : option string) : bool :=
  match s with
  | Some (String _ _) => true
  | _ => false
  end.

Definition value_of_block_identifier (block_identifier : option string) : value :=
  match block_identifier with
  | Some s => VStr s
  | None => VNone
  end.

(** [n + 1] and [max(a, b)] on integers. *)
Definition add_one (v : value) : result Z :=
  match v with
  | VInt n => Ok (n + 1)
  | _ => Raise TypeError
  end.

Definition max_with (a : Z) (v : value) : result value :=
  match v with
  | VInt b => Ok (VInt (Z.max a b))
  | _ => Raise TypeError
  end.

Section Client.
Context `{Constants} `{Library} (nd : node) (ethereum_node_url : string).

Definition estimate_data_gas (data : bytes_or_str) : result Z :=
  data ← match data with
         | Str s => HexBytes (Str s)
         | Bytes b => Ok b
         end;
  Ok (fold_left
        (λ gas byte,
           if byte_to_Z byte =? 0 then gas + GAS_CALL_DATA_ZERO_BYTE
           else gas + GAS_CALL_DATA_BYTE)
        data 0).

(** The bodies of the decoding loops of the batched accessors. *)
Definition get_transactions_body (result : value) : Py.result value :=
  raw_tx ← getkey result "result";
  if truthy raw_tx then transaction_formatter raw_tx else Ok VNone.

Definition get_transaction_receipts_body (result : value) : Py.result value :=
  tx_receipt ← getkey result "result";
  if truthy tx_receipt then
    block_number ← getkey tx_receipt "blockNumber";
    match block_number with
    | VNone => Ok VNone
    | _ => receipt_formatter tx_receipt
    end
  else Ok VNone.

Definition get_blocks_body (result : value) : Py.result value :=
  raw_block ← getkey result "result";
  if truthy raw_block then
    has_extra_data ← contains "extraData" raw_block;
    raw_block ←
      (if (has_extra_data : bool) then
         match raw_block with
         | VDict d => Ok (VDict (delete "extraData"%string d))
         | _ => Raise TypeError
         end
       else Ok raw_block);
    block_formatter raw_block
  else Ok VNone.

Definition get_transactions (tx_hashes : list bytes_or_str) : M (list value) :=
  match tx_hashes with
  | [] => mret (M := M) []
  | _ =>
      payload ← lift (hash_payload "eth_getTransactionByHash" tx_hashes);
      results ← call nd (HttpPost ethereum_node_url (VList payload));
      lift (results ← iter results;
            mapR get_transactions_body results)
  end.

Definition get_transaction_receipts (tx_hashes : list bytes_or_str) : M (list value) :=
  match tx_hashes with
  | [] => mret (M := M) []
  | _ =>
      payload ← lift (hash_payload "eth_getTransactionReceipt" tx_hashes);
      results ← call nd (HttpPost ethereum_node_url (VList payload));
      lift (results ← iter results;
            mapR get_transaction_receipts_body results)
  end.

Definition get_blocks (block_numbers : list Z) (full_transactions : bool)
  : M (list value) :=
  match block_numbers with
  | [] => mret (M := M) []
  | _ =>
      let payload :=
        imap (λ i block_number,
                batch_query "eth_getBlockByNumber" i
                  [VStr (hex block_number); VBool full_transactions])
             block_numbers in
      results ← call nd (HttpPost ethereum_node_url (VList payload));
      lift (results ← iter results;
            mapR get_blocks_body results)
  end.

Definition get_nonce_for_account (address : string) (block_identifier : option string)
  : M value :=
  call nd (Rpc Default "eth_getTransactionCount"
             [VStr address; value_of_block_identifier block_identifier]).

Definition send_transaction (transaction_dict : gmap string value) : M value :=
  tx_with_exception_handling
    (call nd (Rpc Default "eth_sendTransaction" [VDict transaction_dict])).

Definition send_raw_transaction (raw_transaction : bytes) : M value :=
  tx_with_exception_handling
    (call nd (Rpc Default "eth_sendRawTransaction" [VBytes raw_transaction])).

(** One pass through the body of [while number_errors >= 0]. *)
Definition send_iteration (private_key public_key : option string) (retry : bool)
    (block_identifier : option string) (address : string)
    (tx : gmap string value) (number_errors : Z) : M iteration :=
  (* the [tx] the [except] clauses see: the public-key branch has set
     [tx['from']] by then *)
  let tx' :=
    if str_truthy private_key then tx
    else if str_truthy public_key then <["from"%string := VStr address]> tx
    else tx in
  try_except
    (if str_truthy private_key then
       signed_tx ← lift (sign_transaction tx (default EmptyString private_key));
       (* arguments of logger.debug *)
       _ ← lift (getkey (VDict tx) "value");
       _ ← lift (getkey (VDict tx) "to");
       tx_hash ← try_except (send_raw_transaction signed_tx.1)
                   (λ e, match e with
                         | EthereumClientException TransactionAlreadyImported _ =>
                             Some (mret (VBytes signed_tx.2))
                         | _ => None
                         end);
       mret (Done tx_hash)
     else if str_truthy public_key then
       tx_hash ← send_transaction tx';
       mret (Done tx_hash)
     else mret (Again tx number_errors))
    (λ e,
       match e with
       | EthereumClientException ReplacementTransactionUnderpriced _ =>
           Some (if negb retry || (number_errors =? 0) then raise e
                 else
                   current_nonce ← lift (getkey (VDict tx') "nonce");
                   next_nonce ← lift (add_one current_nonce);
                   fresh ← get_nonce_for_account address block_identifier;
                   nonce ← lift (max_with next_nonce fresh);
                   mret (Again (<["nonce"%string := nonce]> tx') number_errors))
       | EthereumClientException InvalidNonce _ =>
           Some (if negb retry || (number_errors =? 0) then raise e
                 else
                   (* argument of logger.error *)
                   _ ← lift (getkey (VDict tx') "nonce");
                   fresh ← get_nonce_for_account address block_identifier;
                   mret (Again (<["nonce"%string := fresh]> tx') (number_errors - 1)))
       | _ => None
       end).

(** The [while] loop, run for at most [fuel] passes: [None] when the loop
    is still running after them.  A loop that ends because its condition
    fails makes the function return [None], that is [VNone]. *)
Fixpoint send_loop (fuel : nat) (private_key public_key : option string) (retry : bool)
    (block_identifier : option string) (address : string)
    (tx : gmap string value) (number_errors : Z) (log : list request)
  : option (result value * list request) :=
  match fuel with
  | O => None
  | S fuel' =>
      if number_errors >=? 0 then
        match send_iteration private_key public_key retry block_identifier
                address tx number_errors log with
        | (Ok (Done tx_hash), log') => Some (Ok tx_hash, log')
        | (Ok (Again tx' number_errors'), log') =>
            send_loop fuel' private_key public_key retry block_identifier
              address tx' number_errors' log'
        | (Raise e, log') => Some (Raise e, log')
        end
      else Some (Ok VNone, log)
  end.

Definition send_unsigned_transaction (fuel : nat) (tx : gmap string value)
    (private_key public_key : option string) (retry : bool)
    (block_identifier : option string) (log : list request)
  : option (result value * list request) :=
  let address :=
    if str_truthy private_key then private_key_to_address (default EmptyString private_key)
    else if str_truthy public_key then Ok (default EmptyString public_key)
    else Raise (ValueError "Ethereum account was not configured or unlocked in the node") in
  match address with
  | Raise e => Some (Raise e, log)
  | Ok address =>
      let with_nonce : M (gmap string value) :=
        match tx !! "nonce"%string with
        | None | Some VNone =>
            nonce ← get_nonce_for_account address block_identifier;
            mret (<["nonce"%string := nonce]> tx)
        | Some _ => mret tx
        end in
      match with_nonce log with
      | (Raise e, log') => Some (Raise e, log')
      | (Ok tx, log') =>
          send_loop fuel private_key public_key retry block_identifier
            address tx 5 log'
      end
  end.

End Client.

End EthereumClient.

(* ===================================================================== *)
(** * gnosis/eth/ethereum_client.py, continued

    The network enumeration, the transfer history, gas estimation, the
    confirmation check and [send_eth_to]. *)
(* ===================================================================== *)

Module EthereumClientRest.
Import EthereumClient.

(** ** EthereumNetwork *)

Inductive EthereumNetwork :=
| UNKNOWN
| OLYMPIC
| MAINNET
| ROPSTEN
| RINKEBY
| GOERLI
| KOVAN.

(** [network.value] *)
Definition network_value (network : EthereumNetwork) : Z :=
  match network with
  | UNKNOWN => -1
  | OLYMPIC => 0
  | MAINNET => 1
  | ROPSTEN => 3
  | RINKEBY => 4
  | GOERLI => 5
  | KOVAN => 42
  end.

Definition networks : list EthereumNetwork :=
  [UNKNOWN; OLYMPIC; MAINNET; ROPSTEN; RINKEBY; GOERLI; KOVAN].

(** [EthereumNetwork(value)]: the member that has this value, and what
    [_missing_] answers when there is none. *)
Definition EthereumNetwork_of (value : Z) : EthereumNetwork :=
  match List.find (λ network, network_value network =? value) networks with
  | Some network => network
  | None => UNKNOWN
  end.

(** ** Further imports *)

(** A log entry as the functions below read it: [data], [topics] and
    [blockNumber], the [args] the decoders attach, and the other keys. *)
Record event := {
  event_data : bytes_or_str;
  event_topics : list bytes;
  event_blockNumber : Z;
  event_args : option transfer;
  event_fields : gmap string value;
}.

(** Python's [int(x)] and [str(x)], ethereum.utils' [check_checksum]
    (which raises on text it cannot read as an address), eth_abi's
    [encode_single('address', a)] and the formatting web3 applies to each
    entry [getLogs] returns. *)
Class Imports := {
  int_of : value → result Z;
  str_of : value → string;
  check_checksum : string → result bool;
  encode_address : string → result bytes;
  log_entry_formatter : value → result event;
}.

Definition set_args (e : event) (a : option transfer) : event :=
  {| event_data := event_data e;
     event_topics := event_topics e;
     event_blockNumber := event_blockNumber e;
     event_args := a;
     event_fields := event_fields e |}.

(** [l.sort(key=lambda x: x['blockNumber'])].  Python's sort is stable:
    entries come out by increasing block number, entries of one block in
    the order they had.  Insertion from the right, each entry going in
    front of the first one that is not below it, computes that list. *)
Fixpoint insert_by_block (e : event) (l : list event) : list event :=
  match l with
  | [] => [e]
  | x :: l' =>
      if event_blockNumber e <=? event_blockNumber x then e :: l
      else x :: insert_by_block e l'
  end.

Definition sort_by_block (l : list event) : list event :=
  foldr insert_by_block [] l.

Definition is_Some_bool {A} (o : option A) : bool :=
  match o with
  | Some _ => true
  | None => false
  end.

Section Rest.
Context `{Constants} `{Library} `{Imports} (nd : node) (ethereum_node_url : string).

(** [get_network] *)
Definition get_network : M EthereumNetwork :=
  version ← call nd (Rpc Default "net_version" []);
  version ← lift (int_of version);
  mret (EthereumNetwork_of version).

(** *** Erc20Manager *)

(** The decoding step shared by [decode_logs] and
    [get_total_transfer_history]: the entry with its [args]. *)
Definition decode_event (e : event) : result event :=
  decoded ← _decode_erc20_or_erc721_log (event_data e) (event_topics e);
  Ok (set_args e decoded).

(** [decode_logs]: the copies of the logs that decode, with their [args]. *)
Definition decode_logs (logs : list event) : result (list event) :=
  decoded_logs ← mapR decode_event logs;
  Ok (List.filter (λ e, is_Some_bool (event_args e)) decoded_logs).

(** [slow_w3.eth.getLogs(parameters)] *)
Definition getLogs (parameters : gmap string value) : M (list event) :=
  reply ← call nd (Rpc Slow "eth_getLogs" [VDict parameters]);
  lift (entries ← iter reply; mapR log_entry_formatter entries).

(** The [parameters] of the two [eth_getLogs] queries, before [topics]
    is set. *)
Definition transfer_history_parameters (from_block : Z) (to_block : option Z)
    (token_address : option string) : gmap string value :=
  let parameters : gmap string value := {[ "fromBlock"%string := VInt from_block ]} in
  let parameters :=
    if opt_int_truthy to_block
    then <["toBlock"%string := VInt (default 0 to_block)]> parameters
    else parameters in
  let parameters :=
    if str_truthy token_address
    then <["address"%string := VStr (default EmptyString token_address)]> parameters
    else parameters in
  parameters.

(** [get_total_transfer_history]; [from_block] defaults to 0. *)
Definition get_total_transfer_history (addresses : list string) (from_block : Z)
    (to_block : option Z) (token_address : option string) : M (list event) :=
  let topic_0 := HexBytes_hex TRANSFER_TOPIC in
  addresses_encoded ←
    lift (mapR (λ address,
                  encoded ← encode_address address;
                  Ok (VStr (HexBytes_hex encoded)))
               addresses);
  (* Topics for transfer `to` and `from` an address *)
  let topics_from := VList [VStr topic_0; VList addresses_encoded] in
  let topics_to := VList [VStr topic_0; VNone; VList addresses_encoded] in
  let parameters := transfer_history_parameters from_block to_block token_address in
  (* Do the request to `eth_getLogs` *)
  events_to ← getLogs (<["topics"%string := topics_to]> parameters);
  events_from ← getLogs (<["topics"%string := topics_from]> parameters);
  let all_events := events_to ++ events_from in
  (* Decode events, keep the ones with [args] *)
  decoded ← lift (mapR decode_event all_events);
  let erc20_events := List.filter (λ e, is_Some_bool (event_args e)) decoded in
  mret (sort_by_block erc20_events).

(** *** EthereumClient *)

(** [estimate_gas]; [block_identifier] defaults to 'latest'. *)
Definition estimate_gas (from_ to : string) (value : Z) (data : option bytes)
    (block_identifier : option string) : M EthereumClient.value :=
  let data := default [] data in
  let params :=
    [VDict (dict [("from", VStr from_);
                  ("to", VStr to);
                  ("data", VStr (HexBytes_hex data));
                  ("value", VStr ("0x" ++ format_x value))])]
    ++ (if str_truthy block_identifier
        then [VStr (default EmptyString block_identifier)] else []) in
  let payload :=
    VDict (dict [("method", VStr "eth_estimateGas");
                 ("params", VList params);
                 ("jsonrpc", VStr "2.0");
                 ("id", VInt 1)]) in
  response_json ← call nd (HttpPost ethereum_node_url payload);
  has_error ← lift (contains "error" response_json);
  if (has_error : bool) then
    error ← lift (getkey response_json "error");
    code ← lift (getkey error "code");
    match code with
    | VInt (-32602) =>
        call nd (Rpc Default "eth_estimateGas"
                   [VDict (dict [("from", VStr from_);
                                 ("to", VStr to);
                                 ("data", VBytes data);
                                 ("value", VInt value)])])
    | _ => raise (ValueError (str_of error))
    end
  else
    r ← lift (getkey response_json "result");
    lift (VInt <$> int_16 r).

(** [get_transaction_receipt(tx_hash)], called without [timeout]: web3
    raises [TransactionNotFound] on a null answer, which the function
    turns into [None]. *)
Definition get_transaction_receipt (tx_hash : bytes_or_str) : M EthereumClient.value :=
  reply ← call nd (Rpc Default "eth_getTransactionReceipt" [value_of_hash tx_hash]);
  match reply with
  | VNone => mret (M := M) VNone
  | _ =>
      tx_receipt ← lift (receipt_formatter reply);
      (* Parity returns tx_receipt even is tx is still pending *)
      if truthy tx_receipt then
        block_number ← lift (getkey tx_receipt "blockNumber");
        match block_number with
        | VNone => mret (M := M) VNone
        | _ => mret tx_receipt
        end
      else mret VNone
  end.

(** [check_tx_with_confirmations] *)
Definition check_tx_with_confirmations (tx_hash : string) (confirmations : Z)
  : M bool :=
  tx_receipt ← get_transaction_receipt (Str tx_hash);
  if negb (truthy tx_receipt) then mret false
  else
    block_number ← lift (getkey tx_receipt "blockNumber");
    match block_number with
    | VNone => mret false
    | _ =>
        current ← call nd (Rpc Default "eth_blockNumber" []);
        match current, block_number with
        | VInt c, VInt b => mret (confirmations <=? c - b)
        | _, _ => raise TypeError
        end
    end.

(** [send_eth_to]; [gas] defaults to 22000, [nonce] to [None], [retry]
    to [False] and [block_identifier] to 'pending'. *)
Definition send_eth_to (fuel : nat) (private_key to : string)
    (gas_price value gas : Z) (nonce : option Z) (retry : bool)
    (block_identifier : option string) (log : list request)
  : option (result EthereumClient.value * list request) :=
  match check_checksum to with
  | Raise e => Some (Raise e, log)
  | Ok false => Some (Raise (AssertionError EmptyString), log)
  | Ok true =>
      let tx : gmap string EthereumClient.value :=
        dict [("to", VStr to); ("value", VInt value); ("gas", VInt gas);
              ("gasPrice", VInt gas_price)]%string in
      let tx :=
        match nonce with
        | Some nonce => <["nonce"%string := VInt nonce]> tx
        | None => tx
        end in
      send_unsigned_transaction nd fuel tx (Some private_key) None retry
        block_identifier log
  end.

End Rest.

End EthereumClientRest.

(* ===================================================================== *)
(** * Concrete collaborators

    Instances of the imported constants and library functions, and a few
    scripted nodes, on which the client can be run. *)
(* ===================================================================== *)

Module Fixtures.
Import EthereumClient.

(** keccak('Transfer(address,address,uint256)'), as recorded in the
    comment above [Erc20Manager.TRANSFER_TOPIC]. *)
Definition transfer_topic : bytes :=
  match unhexlify "ddf252ad1be2c89b69c2b068fc378daa952ba7f163c4a11628f55a4df523b3ef" with
  | Ok b => b
  | Raise _ => []
  end.

Definition constants : Constants := {|
  ERC20_721_TRANSFER_TOPIC := transfer_topic;
  GAS_CALL_DATA_BYTE := 68;
  GAS_CALL_DATA_ZERO_BYTE := 4;
|}.

Fixpoint hex_digits_value (acc : Z) (s : string) : result Z :=
  match s with
  | EmptyString => Ok acc
  | String c s' =>
      match hex_val c with
      | Some d => hex_digits_value (16 * acc + Z.of_N d) s'
      | None => Raise (ValueError "invalid literal for int() with base 16")
      end
  end.

(** [int(s, 16)] on the strings a node sends: hexadecimal digits after an
    optional [0x]. *)
Definition parse_hex (s : string) : result Z :=
  let digits :=
    match s with
    | String "0" (String "x" s') | String "0" (String "X" s') => s'
    | _ => s
    end in
  match digits with
  | EmptyString => Raise (ValueError "invalid literal for int() with base 16")
  | _ => hex_digits_value 0 digits
  end.

(** The checksum transform needs keccak, which is outside this
    development: addresses are left in the case they come in. *)
Definition library : Library := {|
  int16 := parse_hex;
  toChecksumAddress v :=
    match v with
    | VStr s => Ok s
    | _ => Raise TypeError
    end;
  transaction_formatter := Ok;
  receipt_formatter := Ok;
  block_formatter := Ok;
  sign_transaction tx private_key := Ok ([x01], [x02]);
  private_key_to_address private_key := Ok ("0x" ++ private_key)%string;
|}.

Definition url : string := "http://localhost:8545".

Definition method_of (r : request) : string :=
  match r with
  | HttpPost _ _ => "POST"
  | Rpc _ method _ => method
  end.

(** A node that accepts no transaction: every submission is answered
    with [error_message]; nonce queries are answered with 7. *)
Definition rejecting_node (error_message : string) : node :=
  λ log r,
    if String.eqb (method_of r) "eth_getTransactionCount" then Ok (VInt 7)
    else Raise (ValueError error_message).

(** The node that answers every submission with
    "replacement transaction underpriced", and the one that answers
    "correct nonce". *)
Definition underpriced_node : node := rejecting_node "replacement transaction underpriced".
Definition invalid_nonce_node : node := rejecting_node "correct nonce".

(** Parity's answer to a transaction it has already taken. *)
Definition already_imported_node : node :=
  rejecting_node "Transaction with the same hash was already imported.".

Definition pending : option string := Some "pending"%string.

(** A trace with a non-dictionary entry, and a well-formed one. *)
Definition malformed_traces : value := VList [VStr "0x"].
Definition wellformed_traces : value :=
  VList [VDict (dict [("action", VDict ∅); ("subtraces", VInt 0)])]%string.

(** A node whose first answer carries a malformed trace and whose later
    answers are well formed. *)
Definition flaky_trace_node : node :=
  λ log r,
    let traces := match log with
                  | [] => malformed_traces
                  | _ => wellformed_traces
                  end in
    match r with
    | HttpPost _ _ => Ok (VList [VDict (dict [("id", VInt 0); ("result", traces)])])
    | Rpc _ _ _ => Ok traces
    end%string.

(** A node that answers every batch with [0x] results. *)
Definition empty_balance_node : node :=
  λ log r,
    match r with
    | HttpPost _ (VList queries) =>
        Ok (VList ((λ _, VDict (dict [("result", VStr "0x")])) <$> queries))
    | _ => Raise (TransportError "ConnectionError")
    end%string.

Definition owner : string := "0x32Be343B94f860124dC4fEe278FDCBD38C102D88".
Definition token1 : string := "0xf7d0Bd47BF3214494E7F5B40E392A25cb4788620".
Definition token2 : string := "0x6631FcbB50677DfC6c02CCDcc03a8f68Db427a64".

(** Two 20-byte addresses, and the log decoder on the constants and
    library above. *)
Definition alice : bytes := replicate 20 x11.
Definition bob : bytes := replicate 20 x22.
Definition topic : bytes := @TRANSFER_TOPIC constants.
Definition decode_log : bytes_or_str → list bytes → result (option transfer) :=
  @_decode_erc20_or_erc721_log constants library.

(** The transaction [send_eth_to] builds when no nonce is given. *)
Definition eth_transfer : gmap string value :=
  dict [("to", VStr token1); ("value", VInt 1); ("gas", VInt 22000);
        ("gasPrice", VInt 1)]%string.

(** ** Collaborators of the functions of [EthereumClientRest] *)

Import EthereumClientRest.

Fixpoint decimal_digits_value (acc : Z) (s : string) : result Z :=
  match s with
  | EmptyString => Ok acc
  | String c s' =>
      match hex_val c with
      | Some d =>
          if (d <? 10)%N then decimal_digits_value (10 * acc + Z.of_N d) s'
          else Raise (ValueError "invalid literal for int() with base 10")
      | None => Raise (ValueError "invalid literal for int() with base 10")
      end
  end.

(** [int(x)] on integers, booleans and strings of decimal digits. *)
Definition parse_int (v : value) : result Z :=
  match v with
  | VInt n => Ok n
  | VBool b => Ok (if b then 1 else 0)
  | VStr EmptyString => Raise (ValueError "invalid literal for int() with base 10")
  | VStr s => decimal_digits_value 0 s
  | _ => Raise TypeError
  end.

(** A log entry out of the dictionary a node sends: [data] as text or
    bytes, [topics] as a list of byte strings, [blockNumber] as an
    integer. *)
Definition parse_log_entry (v : value) : result event :=
  data ← getkey v "data";
  data ← match data with
         | VStr s => Ok (Str s)
         | VBytes b => Ok (Bytes b)
         | _ => Raise TypeError
         end;
  topics ← getkey v "topics";
  topics ← iter topics;
  topics ← mapR (λ t, match t with
                      | VBytes b => Ok b
                      | VStr s => HexBytes (Str s)
                      | _ => Raise TypeError
                      end) topics;
  block_number ← getkey v "blockNumber";
  match block_number, v with
  | VInt n, VDict d =>
      Ok {| event_data := data; event_topics := topics; event_blockNumber := n;
            event_args := None; event_fields := d |}
  | _, _ => Raise TypeError
  end.

(** The checksum test on the texts used below.  The checksum itself
    needs keccak, which is outside this development: the two token
    addresses, which the source shows in checksummed form, pass; their
    lowercase forms fail; every other text is treated as one that
    [normalize_address] rejects with [Exception], as it does text whose
    length is not that of an address. *)
Definition check_checksum_text (s : string) : result bool :=
  if String.eqb s token1 || String.eqb s token2 then Ok true
  else if String.eqb s (lower token1) || String.eqb s (lower token2) then Ok false
  else Raise (Exception ("Invalid address format: '" ++ s ++ "'")).

(** [str] is given on strings, the text of other objects is left out.
    An address is encoded as its 20 bytes behind 12 zero bytes. *)
Definition imports : Imports := {|
  int_of := parse_int;
  str_of v := match v with VStr s => s | _ => "<object>" end;
  check_checksum := check_checksum_text;
  encode_address a :=
    b ← unhexlify (remove_0x a);
    if (length b =? 20)%nat then Ok (replicate 12 x00 ++ b)
    else Raise (ValueError "Unsupported address") ;
  log_entry_formatter := parse_log_entry;
|}.

(** An ERC20 transfer of one unit from [alice] to [bob], logged in the
    block [block_number], and a log entry without topics. *)
Definition transfer_log (block_number : Z) : value :=
  VDict (dict [("data", VBytes (replicate 31 x00 ++ [x01]));
               ("topics", VList [VBytes topic;
                                 VBytes (replicate 12 x00 ++ alice);
                                 VBytes (replicate 12 x00 ++ bob)]);
               ("blockNumber", VInt block_number)])%string.

Definition anonymous_log (block_number : Z) : value :=
  VDict (dict [("data", VStr "0x"); ("topics", VList []);
               ("blockNumber", VInt block_number)])%string.

(** A node with three transfers: its first answer to [eth_getLogs] has
    two of them, out of order, its later answers the third and an entry
    that is no transfer. *)
Definition history_node : node :=
  λ log r,
    if String.eqb (method_of r) "eth_getLogs" then
      match log with
      | [] => Ok (VList [transfer_log 7; transfer_log 3])
      | _ => Ok (VList [anonymous_log 1; transfer_log 5; transfer_log 3])
      end
    else Raise (TransportError "ConnectionError").

(** A node at block 15 that has every transaction mined in block 10, and
    a node that knows no transaction. *)
Definition mined_node : node :=
  λ log r,
    if String.eqb (method_of r) "eth_getTransactionReceipt"
    then Ok (VDict (dict [("blockNumber", VInt 10)]%string))
    else if String.eqb (method_of r) "eth_blockNumber" then Ok (VInt 15)
    else Raise (TransportError "ConnectionError").

Definition null_node : node := λ log r, Ok VNone.

(** Geth's answer to [eth_estimateGas] with a block identifier, and its
    answer through web3. *)
Definition geth_node : node :=
  λ log r,
    match r with
    | HttpPost _ _ =>
        Ok (VDict (dict [("jsonrpc", VStr "2.0"); ("id", VInt 1);
                         ("error",
                          VDict (dict [("code", VInt (-32602));
                                       ("message",
                                        VStr "too many arguments, want at most 1")]))]))
    | Rpc _ _ _ => Ok (VInt 21000)
    end%string.

End Fixtures.

(* ===================================================================== *)
(** * Vocabulary of the statements *)
(* ===================================================================== *)

Module Spec.

(** A signature [(v, r, s)] whose components fit their wire fields. *)
Definition valid_signature (vrs : Z * Z * Z) : Prop :=
  let '(v, r, s) := vrs in
  0 ≤ v ≤ 255 ∧ 0 ≤ r < 2 ^ 256 ∧ 0 ≤ s < 2 ^ 256.

(** [sub] occurs in [s]. *)
Definition occurs_in (sub s : string) : Prop :=
  ∃ pre post : string, s = (pre ++ sub ++ post)%string.

(** The 32-byte ABI word that holds a 20-byte address, and the
    normalised text the ABI decoder returns for it. *)
Definition address_word (a : bytes) : bytes := replicate 12 x00 ++ a.
Definition normalized_address (a : bytes) : string := ("0x" ++ bytes_hex a)%string.

(** The exception that [tx_with_exception_handling] raises when the
    wrapped call raises [exc]. *)
Definition classified (exc : exn) : exn :=
  match EthereumClient.as_ValueError exc with
  | Some msg =>
      match EthereumClient.first_reason (lower msg) EthereumClient.error_with_exception with
      | Some kind => EthereumClientException kind msg
      | None => exc
      end
  | None => exc
  end.

Definition is_underpriced (exc : exn) : bool :=
  match exc with
  | EthereumClientException ReplacementTransactionUnderpriced _ => true
  | _ => false
  end.

(** A node none of whose failures is classified as
    ReplacementTransactionUnderpriced. *)
Definition never_underpriced (nd : EthereumClient.node) : Prop :=
  ∀ log r exc, nd log r = Raise exc → is_underpriced (classified exc) = false.

(** What one pass of the loop of [send_unsigned_transaction] can come
    to, with the requests [extra] it issues: a transaction hash; an
    exception; a further pass with one error less; or a further pass with
    the same number of errors, which takes an underpriced failure raised by
    the signer or classified from an answer of the node. *)
Definition pass_outcome `{EthereumClient.Library} (nd : EthereumClient.node)
    (tx : gmap string EthereumClient.value) (retry : bool) (number_errors : Z)
    (r : result EthereumClient.iteration) (extra : list EthereumClient.request)
  : Prop :=
  (∃ tx_hash, r = Ok (EthereumClient.Done tx_hash) ∧ (length extra ≤ 1)%nat)
  ∨ (∃ exc, r = Raise exc
            ∧ (length extra ≤ 2)%nat
            ∧ (retry = false ∨ number_errors = 0 → (length extra ≤ 1)%nat))
  ∨ (∃ tx', r = Ok (EthereumClient.Again tx' (number_errors - 1))
            ∧ retry = true ∧ number_errors ≠ 0 ∧ (length extra ≤ 2)%nat)
  ∨ (∃ tx' exc, r = Ok (EthereumClient.Again tx' number_errors)
                ∧ retry = true ∧ number_errors ≠ 0
                ∧ is_underpriced exc = true
                ∧ ((∃ key, EthereumClient.sign_transaction tx key = Raise exc)
                   ∨ ∃ log request exc0,
                       nd log request = Raise exc0 ∧ exc = classified exc0)).

End Spec.

(* ===================================================================== *)
(** * Facts about the Python built-ins *)
(* ===================================================================== *)

Module PyFacts.

Lemma byte_to_Z_range (b : byte) : 0 ≤ byte_to_Z b < 256.
Proof.
  unfold byte_to_Z. pose proof (Byte.to_N_bounded b). lia.
Qed.

Lemma byte_to_of_Z (z : Z) : 0 ≤ z < 256 → byte_to_Z (byte_of_Z z) = z.
Proof.
  intros Hz. unfold byte_to_Z, byte_of_Z.
  destruct (Byte.of_N (Z.to_N z)) as [b|] eqn:E.
  - apply Byte.to_of_N in E. simpl. rewrite E. lia.
  - apply Byte.of_N_None_iff in E. lia.
Qed.

Lemma int_from_bytes_snoc (b : bytes) (x : byte) :
  int_from_bytes (b ++ [x]) = int_from_bytes b * 256 + byte_to_Z x.
Proof. unfold int_from_bytes. by rewrite fold_left_app. Qed.

Lemma be_bytes_length (n : nat) (z : Z) : length (be_bytes n z) = n.
Proof.
  revert z. induction n as [|n IH]; intros z; simpl; [done|].
  rewrite length_app, IH. simpl. lia.
Qed.

Lemma int_from_be_bytes (n : nat) (z : Z) :
  0 ≤ z < 256 ^ Z.of_nat n → int_from_bytes (be_bytes n z) = z.
Proof.
  revert z. induction n as [|n IH]; intros z Hz.
  - simpl in *. unfold int_from_bytes. simpl. lia.
  - simpl be_bytes. rewrite int_from_bytes_snoc.
    rewrite Nat2Z.inj_succ, Z.pow_succ_r in Hz by lia.
    rewrite IH by (split; [apply Z.div_pos; lia | apply Z.div_lt_upper_bound; lia]).
    rewrite byte_to_of_Z by (apply Z.mod_pos_bound; lia).
    pose proof (Z.div_mod z 256). lia.
Qed.

Lemma int_to_bytes_ok (n : Z) (len : nat) :
  0 ≤ n < 256 ^ Z.of_nat len → int_to_bytes n len = Ok (be_bytes len n).
Proof.
  intros Hn. unfold int_to_bytes.
  destruct (Z.ltb_spec n 0); [lia|].
  destruct (Z.leb_spec (256 ^ Z.of_nat len) n); [lia|]. done.
Qed.

Lemma getitem_middle {A} (pre post : list A) (x : A) (i : Z) :
  Z.of_nat (length pre) = i → getitem (pre ++ x :: post) i = Ok x.
Proof.
  intros Hi. unfold getitem.
  destruct (Z.ltb_spec i 0); [lia|].
  rewrite length_app. simpl length.
  destruct (Z.ltb_spec i 0); [lia|].
  destruct (Z.leb_spec (Z.of_nat (length pre + S (length post))) i); [lia|].
  simpl. replace (Z.to_nat i) with (length pre) by lia.
  by rewrite list_lookup_middle.
Qed.

Lemma getitem_out_of_range {A} (l : list A) (i : Z) :
  Z.of_nat (length l) ≤ i → getitem l i = Raise IndexError.
Proof.
  intros Hi. unfold getitem.
  destruct (Z.ltb_spec i 0); [lia|].
  destruct (Z.ltb_spec i 0); [lia|].
  destruct (Z.leb_spec (Z.of_nat (length l)) i); [|lia]. done.
Qed.

Lemma slice_middle {A} (pre mid post : list A) (lo hi : Z) :
  Z.of_nat (length pre) = lo →
  hi = lo + Z.of_nat (length mid) →
  slice (pre ++ mid ++ post) lo hi = mid.
Proof.
  intros Hlo Hhi. unfold slice, slice_bound.
  rewrite !length_app.
  destruct (Z.ltb_spec lo 0); [lia|].
  destruct (Z.ltb_spec hi 0); [lia|].
  rewrite !Z.min_l by lia.
  replace (Z.to_nat lo) with (length pre) by lia.
  replace (Z.to_nat (hi - lo)) with (length mid) by lia.
  rewrite drop_app_length. by rewrite take_app_length.
Qed.

Lemma mapR_snoc {A B} (f : A → result B) (l : list A) (x : A) :
  mapR f (l ++ [x]) = (ys ← mapR f l; y ← f x; Ok (ys ++ [y])).
Proof.
  induction l as [|a l IH]; simpl.
  - by destruct (f x).
  - destruct (f a); [|done]. simpl. rewrite IH.
    destruct (mapR f l); [|done]. simpl. by destruct (f x).
Qed.

End PyFacts.

(* ===================================================================== *)
(** * The signature codec *)
(* ===================================================================== *)

Module SignaturesFacts.
Import Signatures PyFacts Spec.

(** Splitting reads the chunk found at offset [65 * pos]. *)
Lemma signature_split_chunk (pre rb sb post : bytes) (v : byte) (pos : Z) :
  Z.of_nat (length pre) = 65 * pos →
  length rb = 32%nat → length sb = 32%nat →
  signature_split (Bytes (pre ++ rb ++ sb ++ [v] ++ post)) pos
  = Ok (byte_to_Z v, int_from_bytes rb, int_from_bytes sb).
Proof.
  intros Hpre Hr Hs. unfold signature_split. simpl.
  replace (pre ++ rb ++ sb ++ v :: post) with ((pre ++ rb ++ sb) ++ v :: post)
    by (by rewrite <- !app_assoc).
  rewrite getitem_middle by (rewrite !length_app; lia). simpl.
  replace ((pre ++ rb ++ sb) ++ v :: post) with (pre ++ rb ++ (sb ++ v :: post))
    by (by rewrite <- !app_assoc).
  rewrite slice_middle by lia.
  replace (pre ++ rb ++ sb ++ v :: post) with ((pre ++ rb) ++ sb ++ v :: post)
    by (by rewrite <- !app_assoc).
  rewrite slice_middle by (rewrite ?length_app; lia).
  done.
Qed.

Lemma signature_to_bytes_ok (v r s : Z) :
  valid_signature (v, r, s) →
  signature_to_bytes (v, r, s)
  = Ok (be_bytes 32 r ++ be_bytes 32 s ++ [byte_of_Z v]).
Proof.
  intros (Hv & Hr & Hs). unfold signature_to_bytes.
  rewrite (int_to_bytes_ok r 32) by (change (256 ^ Z.of_nat 32) with (2 ^ 256); lia).
  rewrite (int_to_bytes_ok s 32) by (change (256 ^ Z.of_nat 32) with (2 ^ 256); lia).
  rewrite (int_to_bytes_ok v 1) by (change (256 ^ Z.of_nat 1) with 256; lia).
  change (be_bytes 1 v) with [byte_of_Z (v mod 256)].
  rewrite (Z.mod_small v 256) by lia. done.
Qed.

(** Joined signatures: 65 bytes each, and position [i] gives back the
    [i]-th signature. *)
Lemma signatures_to_bytes_split (sigs : list (Z * Z * Z)) :
  Forall valid_signature sigs →
  ∃ b, signatures_to_bytes sigs = Ok b
       ∧ length b = (65 * length sigs)%nat
       ∧ ∀ (i : nat) vrs, sigs !! i = Some vrs →
           signature_split (Bytes b) (Z.of_nat i) = Ok vrs.
Proof.
  unfold signatures_to_bytes.
  induction sigs as [|[[v r] s] sigs IH] using rev_ind; intros Hvalid.
  - exists []. simpl. split_and!; [done..|]. intros i vrs Hi. by destruct i.
  - apply Forall_app in Hvalid as [Hsigs Hlast].
    apply Forall_inv in Hlast.
    destruct (IH Hsigs) as (b & Hb & Hlen & Hsplit).
    destruct (mapR signature_to_bytes sigs) as [chunks|] eqn:Hchunks; [|done].
    simpl in Hb. injection Hb as <-.
    rewrite mapR_snoc, Hchunks. unfold mbind, result_bind at 1 2.
    rewrite signature_to_bytes_ok by done. unfold mbind, result_bind.
    exists (concat chunks ++ be_bytes 32 r ++ be_bytes 32 s ++ [byte_of_Z v]).
    split; [rewrite concat_app; do 2 f_equal; exact (app_nil_r _)|].
    split.
    + rewrite !length_app, !be_bytes_length, Hlen. simpl. lia.
    + intros i vrs Hi.
      destruct (decide (i < length sigs)%nat) as [Hlt|Hge].
      * rewrite lookup_app_l in Hi by done.
        specialize (Hsplit i vrs Hi).
        (* the chunk lies inside the first [length sigs] signatures *)
        revert Hsplit. unfold signature_split. simpl.
        assert (∀ (l ext : bytes) (j : Z),
                  0 ≤ j < Z.of_nat (length l) →
                  getitem (l ++ ext) j = getitem l j) as Hget.
        { intros l ext j Hj. unfold getitem. rewrite length_app.
          destruct (Z.ltb_spec j 0); [lia|].
          destruct (Z.ltb_spec j 0); [lia|].
          destruct (Z.leb_spec (Z.of_nat (length l)) j); [lia|].
          destruct (Z.leb_spec (Z.of_nat (length l + length ext)) j); [lia|].
          simpl. by rewrite lookup_app_l by lia. }
        assert (∀ (l ext : bytes) (lo hi : Z),
                  0 ≤ lo → lo ≤ hi → hi ≤ Z.of_nat (length l) →
                  slice (l ++ ext) lo hi = slice l lo hi) as Hslice.
        { intros l ext lo hi Hlo Hlh Hhi. unfold slice, slice_bound.
          rewrite length_app.
          destruct (Z.ltb_spec lo 0); [lia|].
          destruct (Z.ltb_spec hi 0); [lia|].
          rewrite !Z.min_l by lia.
          rewrite drop_app_le by lia.
          rewrite take_app_le; [done|]. rewrite length_drop. lia. }
        rewrite Hget by lia.
        rewrite !Hslice by lia. done.
      * assert (i = length sigs) as ->.
        { apply lookup_lt_Some in Hi. rewrite length_app in Hi. simpl in Hi. lia. }
        rewrite list_lookup_middle in Hi by done. injection Hi as <-.
        destruct Hlast as (Hv & Hr & Hs).
        pose proof (signature_split_chunk (concat chunks) (be_bytes 32 r)
                      (be_bytes 32 s) [] (byte_of_Z v) (Z.of_nat (length sigs))) as Hc.
        change ([byte_of_Z v] ++ []) with [byte_of_Z v] in Hc. rewrite Hc.
        -- rewrite byte_to_of_Z by lia.
           rewrite !int_from_be_bytes
             by (change (256 ^ Z.of_nat 32) with (2 ^ 256); lia).
           done.
        -- lia.
        -- apply be_bytes_length.
        -- apply be_bytes_length.
Qed.

(** C4 (as amended).  For a position [pos >= 0]: a byte string shorter
    than [65 * (pos + 1)] makes [signature_split] raise [IndexError]; a
    byte string at least that long yields the [pos]-th 65-byte chunk read
    as (last byte, first 32 bytes big-endian, next 32 bytes big-endian). *)
Theorem signature_split_by_length (sigs : bytes) (pos : Z) :
  0 ≤ pos →
  (Z.of_nat (length sigs) < 65 * (pos + 1) →
   signature_split (Bytes sigs) pos = Raise IndexError)
  ∧ (65 * (pos + 1) ≤ Z.of_nat (length sigs) →
     let chunk := take 65 (drop (Z.to_nat (65 * pos)) sigs) in
     ∃ v, chunk !! 64%nat = Some v
          ∧ signature_split (Bytes sigs) pos
            = Ok (byte_to_Z v,
                  int_from_bytes (take 32 chunk),
                  int_from_bytes (take 32 (drop 32 chunk)))).
Proof.
  intros Hpos. split.
  - intros Hshort. unfold signature_split. simpl.
    rewrite getitem_out_of_range by lia. done.
  - intros Hlong chunk.
    assert (length chunk = 65%nat) as Hchunk.
    { unfold chunk. rewrite length_take, length_drop. lia. }
    destruct (chunk !! 64%nat) as [v|] eqn:Hv;
      [|apply lookup_ge_None in Hv; lia].
    exists v. split; [done|].
    pose proof (take_drop (Z.to_nat (65 * pos)) sigs) as Hsigs.
    pose proof (take_drop 65 (drop (Z.to_nat (65 * pos)) sigs)) as Hrest.
    fold chunk in Hrest.
    assert (chunk = take 32 chunk ++ take 32 (drop 32 chunk) ++ [v]) as Hsplit.
    { rewrite <- (take_drop 32 chunk) at 1. f_equal.
      rewrite <- (take_drop 32 (drop 32 chunk)) at 1. f_equal.
      rewrite drop_drop. simpl.
      apply list_eq. intros [|j].
      - rewrite lookup_drop. simpl. done.
      - rewrite lookup_drop. simpl. apply lookup_ge_None. lia. }
    rewrite <- Hsigs, <- Hrest, Hsplit at 1.
    rewrite <- !app_assoc.
    apply signature_split_chunk.
    + rewrite length_take. lia.
    + rewrite length_take. lia.
    + rewrite length_take, length_drop. lia.
Qed.

Lemma signature_split_by_length_witness :
  signature_split (Bytes (replicate 64 x00)) 0 = Raise IndexError
  ∧ ∃ v, take 65 (drop (Z.to_nat (65 * 0)) (replicate 65 x01)) !! 64%nat = Some v
         ∧ signature_split (Bytes (replicate 65 x01)) 0
           = Ok (byte_to_Z v,
                 int_from_bytes (take 32 (take 65 (drop (Z.to_nat (65 * 0)) (replicate 65 x01)))),
                 int_from_bytes
                   (take 32 (drop 32 (take 65 (drop (Z.to_nat (65 * 0)) (replicate 65 x01)))))).
Proof.
  split.
  - apply (signature_split_by_length (replicate 64 x00) 0); simpl; lia.
  - apply (signature_split_by_length (replicate 65 x01) 0); simpl; lia.
Defined.

(** C4, as stated, fails: on the empty byte string at position 0 the
    failure is an [IndexError], not a MalformedSignature. *)
Lemma signature_split_short_not_malformed :
  Z.of_nat (length ([] : bytes)) < 65 * (0 + 1)
  ∧ ∃ e, signature_split (Bytes []) 0 = Raise e
         ∧ exn_name e ≠ "MalformedSignature"%string.
Proof.
  split; [simpl; lia|]. exists IndexError. split; [reflexivity|]. discriminate.
Qed.

(** C9.  A valid signature survives encoding followed by splitting at
    position 0; three valid signatures join into exactly 195 bytes, and
    splitting the result at position i gives back the i-th of them. *)
Theorem signature_roundtrip (s1 s2 s3 : Z * Z * Z) :
  valid_signature s1 → valid_signature s2 → valid_signature s3 →
  (∃ b, signature_to_bytes s1 = Ok b ∧ signature_split (Bytes b) 0 = Ok s1)
  ∧ (∃ joined, signatures_to_bytes [s1; s2; s3] = Ok joined
               ∧ length joined = 195%nat
               ∧ signature_split (Bytes joined) 0 = Ok s1
               ∧ signature_split (Bytes joined) 1 = Ok s2
               ∧ signature_split (Bytes joined) 2 = Ok s3).
Proof.
  intros H1 H2 H3. split.
  - destruct (signatures_to_bytes_split [s1]) as (b & Hb & _ & Hsplit).
    { by apply Forall_singleton. }
    exists b. split; [|by apply (Hsplit 0%nat)].
    unfold signatures_to_bytes in Hb. simpl in Hb.
    destruct (signature_to_bytes s1); [|done]. simpl in Hb.
    injection Hb as <-. by rewrite app_nil_r.
  - destruct (signatures_to_bytes_split [s1; s2; s3]) as (b & Hb & Hlen & Hsplit).
    { by repeat constructor. }
    exists b. split_and!; [done|done|..].
    + by apply (Hsplit 0%nat).
    + by apply (Hsplit 1%nat).
    + by apply (Hsplit 2%nat).
Qed.

Lemma signature_roundtrip_witness :
  (∃ b, signature_to_bytes (27, 1, 2) = Ok b
        ∧ signature_split (Bytes b) 0 = Ok (27, 1, 2))
  ∧ (∃ joined, signatures_to_bytes [(27, 1, 2); (28, 2 ^ 256 - 1, 0); (0, 5, 6)] = Ok joined
               ∧ length joined = 195%nat
               ∧ signature_split (Bytes joined) 0 = Ok (27, 1, 2)
               ∧ signature_split (Bytes joined) 1 = Ok (28, 2 ^ 256 - 1, 0)
               ∧ signature_split (Bytes joined) 2 = Ok (0, 5, 6)).
Proof.
  apply (signature_roundtrip (27, 1, 2) (28, 2 ^ 256 - 1, 0) (0, 5, 6));
    unfold valid_signature; lia.
Defined.

End SignaturesFacts.

(* ===================================================================== *)
(** * Gas of call data *)
(* ===================================================================== *)

Module GasFacts.
Import EthereumClient.

Section Gas.
Context `{Constants}.

Lemma data_gas_fold (data : bytes) (gas : Z) :
  fold_left
    (λ gas byte,
       if byte_to_Z byte =? 0 then gas + GAS_CALL_DATA_ZERO_BYTE
       else gas + GAS_CALL_DATA_BYTE)
    data gas
  = gas
    + Z.of_nat (length (filter (λ b, byte_to_Z b = 0) data)) * GAS_CALL_DATA_ZERO_BYTE
    + Z.of_nat (length (filter (λ b, byte_to_Z b ≠ 0) data)) * GAS_CALL_DATA_BYTE.
Proof.
  revert gas. induction data as [|b data IH]; intros gas.
  - simpl. lia.
  - cbn [fold_left]. rewrite IH, !filter_cons.
    destruct (Z.eqb_spec (byte_to_Z b) 0) as [Hz|Hnz].
    + rewrite decide_True by done. rewrite decide_False by (intros Hn; by apply Hn).
      cbn [length]. lia.
    + rewrite decide_False by done. rewrite decide_True by done.
      cbn [length]. lia.
Qed.

(** C10.  On a byte string, [estimate_data_gas] returns the number of
    zero bytes times GAS_CALL_DATA_ZERO_BYTE plus the number of non-zero
    bytes times GAS_CALL_DATA_BYTE; it always returns, and returns 0 on
    the empty byte string. *)
Theorem estimate_data_gas_counts (data : bytes) :
  estimate_data_gas (Bytes data)
  = Ok (Z.of_nat (length (filter (λ b, byte_to_Z b = 0) data)) * GAS_CALL_DATA_ZERO_BYTE
        + Z.of_nat (length (filter (λ b, byte_to_Z b ≠ 0) data)) * GAS_CALL_DATA_BYTE)
  ∧ estimate_data_gas (Bytes []) = Ok 0.
Proof.
  split; [|done].
  unfold estimate_data_gas. cbn [mbind result_bind].
  rewrite data_gas_fold. f_equal; lia.
Qed.

End Gas.

End GasFacts.

(* ===================================================================== *)
(** * The error classifier *)
(* ===================================================================== *)

Module ClassifierFacts.
Import EthereumClient Spec.

Lemma append_cons (c : ascii) (p post : string) :
  (String c p ++ post)%string = String c (p ++ post)%string.
Proof. reflexivity. Qed.

Lemma append_nil (s : string) : (EmptyString ++ s)%string = s.
Proof. reflexivity. Qed.

Lemma prefix_occurs (p s : string) :
  String.prefix p s = true ↔ ∃ post, s = (p ++ post)%string.
Proof.
  revert s. induction p as [|a p IH]; intros s.
  - destruct s; simpl; split; eauto.
  - destruct s as [|b s]; simpl.
    + split; [done|]. by intros [post ?].
    + destruct (Ascii.ascii_dec a b) as [->|Hne].
      * rewrite IH. split; intros [post Hp]; exists post;
          rewrite append_cons in *; congruence.
      * split; [done|]. intros [post Hp]. rewrite append_cons in Hp. congruence.
Qed.

(** [str_in] decides occurrence as a substring. *)
Lemma str_in_occurs (sub s : string) :
  str_in sub s = true ↔ occurs_in sub s.
Proof.
  unfold occurs_in. induction s as [|c s IH].
  - cbn [str_in]. rewrite orb_false_r, prefix_occurs. split.
    + intros [post Hp]. by exists EmptyString, post.
    + intros ([|] & post & Hp); [by exists post|done].
  - cbn [str_in]. rewrite orb_true_iff, IH, prefix_occurs. split.
    + intros [[post Hp]|(pre & post & Hp)].
      * by exists EmptyString, post.
      * exists (String c pre), post. rewrite append_cons. by rewrite Hp.
    + intros ([|c' pre] & post & Hp).
      * left. by exists post.
      * right. rewrite append_cons in Hp. injection Hp as _ Hp. by exists pre, post.
Qed.

Lemma str_in_not_occurs (sub s : string) :
  str_in sub s = false ↔ ¬ occurs_in sub s.
Proof. rewrite <- str_in_occurs. by destruct (str_in sub s). Qed.

(** The loop stops at the first entry whose reason occurs. *)
Lemma first_reason_Some (str_exc : string) (table : list (string * client_error))
    (i : nat) (reason : string) (kind : client_error) :
  table !! i = Some (reason, kind) →
  occurs_in (lower reason) str_exc →
  (∀ j reason' kind', (j < i)%nat → table !! j = Some (reason', kind') →
                      ¬ occurs_in (lower reason') str_exc) →
  first_reason str_exc table = Some kind.
Proof.
  revert i. induction table as [|[r k] table IH]; intros i Hi Hocc Hfirst.
  - by destruct i.
  - cbn [first_reason]. destruct i as [|i].
    + injection Hi as -> ->. apply str_in_occurs in Hocc. by rewrite Hocc.
    + assert (str_in (lower r) str_exc = false) as ->.
      { apply str_in_not_occurs. apply (Hfirst 0%nat r k); [lia|done]. }
      apply (IH i); [done..|].
      intros j r' k' Hj Hl. apply (Hfirst (S j) r' k'); [lia|done].
Qed.

Lemma first_reason_None (str_exc : string) (table : list (string * client_error)) :
  first_reason str_exc table = None
  ↔ ∀ reason kind, (reason, kind) ∈ table → ¬ occurs_in (lower reason) str_exc.
Proof.
  induction table as [|[r k] table IH]; cbn [first_reason].
  - split; [|done]. intros _ reason kind Hin. by apply elem_of_nil in Hin.
  - destruct (str_in (lower r) str_exc) eqn:Hr.
    + split; [done|]. intros Hno. exfalso.
      apply (Hno r k); [left|]. by apply str_in_occurs.
    + rewrite IH. split.
      * intros Hno reason kind [[= -> ->]|Hin]%elem_of_cons; [|by eapply Hno].
        by apply str_in_not_occurs.
      * intros Hno reason kind Hin. apply (Hno reason kind). by right.
Qed.

(** C2 (as amended).  When the wrapped call fails with a [ValueError]
    of message [msg]: the wrapper raises the error kind of the first
    entry of [error_with_exception], in declaration order, whose reason
    occurs case-insensitively in [msg] (so a message containing
    "Transaction with the same hash was already imported" raises
    [TransactionAlreadyImported]); and when no reason occurs, the original
    failure propagates unchanged. *)
Theorem classifier_first_match {A} (func : M A) (log log' : list request)
    (msg : string) :
  func log = (Raise (ValueError msg), log') →
  (∀ i reason kind,
     error_with_exception !! i = Some (reason, kind) →
     occurs_in (lower reason) (lower msg) →
     (∀ j reason' kind', (j < i)%nat →
        error_with_exception !! j = Some (reason', kind') →
        ¬ occurs_in (lower reason') (lower msg)) →
     tx_with_exception_handling func log
     = (Raise (EthereumClientException kind msg), log'))
  ∧ (occurs_in (lower "Transaction with the same hash was already imported") (lower msg) →
     tx_with_exception_handling func log
     = (Raise (EthereumClientException TransactionAlreadyImported msg), log'))
  ∧ ((∀ reason kind, (reason, kind) ∈ error_with_exception →
        ¬ occurs_in (lower reason) (lower msg)) →
     tx_with_exception_handling func log = (Raise (ValueError msg), log')).
Proof.
  intros Hfail.
  assert (∀ i reason kind,
     error_with_exception !! i = Some (reason, kind) →
     occurs_in (lower reason) (lower msg) →
     (∀ j reason' kind', (j < i)%nat →
        error_with_exception !! j = Some (reason', kind') →
        ¬ occurs_in (lower reason') (lower msg)) →
     tx_with_exception_handling func log
     = (Raise (EthereumClientException kind msg), log')) as Hfirst.
  { intros i reason kind Hi Hocc Hearlier.
    unfold tx_with_exception_handling, try_except. rewrite Hfail.
    cbn [as_ValueError].
    by rewrite (first_reason_Some _ _ i reason kind Hi Hocc Hearlier). }
  split_and!.
  - exact Hfirst.
  - intros Hocc. apply (Hfirst 0%nat _ _ eq_refl Hocc). intros j ? ? Hj. lia.
  - intros Hnone. apply first_reason_None in Hnone.
    unfold tx_with_exception_handling, try_except. rewrite Hfail.
    cbn [as_ValueError]. by rewrite Hnone.
Qed.

Lemma classifier_first_match_witness :
  tx_with_exception_handling
    (raise (A := value) (ValueError "Nonce too low. The correct nonce is 5")) []
  = (Raise (EthereumClientException InvalidNonce "Nonce too low. The correct nonce is 5"), [])
  ∧ tx_with_exception_handling
      (raise (A := value) (ValueError "Transaction with the same hash was already imported.")) []
    = (Raise (EthereumClientException TransactionAlreadyImported
                "Transaction with the same hash was already imported."), [])
  ∧ tx_with_exception_handling (raise (A := value) (ValueError "connection reset")) []
    = (Raise (ValueError "connection reset"), []).
Proof.
  split_and!.
  - destruct (classifier_first_match
                (raise (A := value) (ValueError "Nonce too low. The correct nonce is 5"))
                [] [] _ eq_refl) as (Hfirst & _ & _).
    apply (Hfirst 4%nat "correct nonce"%string InvalidNonce eq_refl).
    + by exists "nonce too low. the "%string, " is 5"%string.
    + intros j reason' kind' Hj Hl. apply str_in_not_occurs.
      do 4 (destruct j as [|j]; [by injection Hl as <- <-|]). lia.
  - destruct (classifier_first_match
                (raise (A := value)
                   (ValueError "Transaction with the same hash was already imported."))
                [] [] _ eq_refl) as (_ & Himported & _).
    apply Himported. by exists ""%string, "."%string.
  - destruct (classifier_first_match
                (raise (A := value) (ValueError "connection reset"))
                [] [] _ eq_refl) as (_ & _ & Hnone).
    apply Hnone. by apply first_reason_None.
Defined.

(** C2, as stated, fails: a message that contains "already imported" but
    not the whole reason of the table is not classified. *)
Lemma already_imported_unclassified :
  occurs_in "already imported" (lower "Already imported")
  ∧ tx_with_exception_handling (raise (A := value) (ValueError "Already imported")) []
    = (Raise (ValueError "Already imported"), [])
  ∧ ∀ msg, tx_with_exception_handling (raise (A := value) (ValueError "Already imported")) []
           ≠ (Raise (EthereumClientException TransactionAlreadyImported msg), []).
Proof.
  split_and!.
  - by exists ""%string, ""%string.
  - reflexivity.
  - intros msg. vm_compute. discriminate.
Qed.

End ClassifierFacts.

(* ===================================================================== *)
(** * Decoding Transfer logs *)
(* ===================================================================== *)

Module TransferLogFacts.
Import EthereumClient Spec.

Lemma decode_address_word (a rest : bytes) :
  length a = 20%nat →
  EthAbi.decode_address (address_word a ++ rest) = Ok (normalized_address a).
Proof.
  intros Ha. unfold EthAbi.decode_address, address_word.
  rewrite !length_app, length_replicate, Ha.
  change (12 + 20 + length rest <? 32)%nat with false.
  rewrite <- app_assoc.
  rewrite take_app_length' by (by rewrite length_replicate).
  rewrite bool_decide_true by done.
  rewrite drop_app_length' by (by rewrite length_replicate).
  rewrite take_app_length' by done.
  done.
Qed.

Lemma decode_uint256_word (w rest : bytes) :
  length w = 32%nat →
  EthAbi.decode_uint256 (w ++ rest) = Ok (int_from_bytes w).
Proof.
  intros Hw. unfold EthAbi.decode_uint256.
  rewrite length_app, Hw.
  change (32 + length rest <? 32)%nat with false.
  by rewrite take_app_length' by done.
Qed.

Lemma address_word_length (a : bytes) :
  length a = 20%nat → length (address_word a) = 32%nat.
Proof. intros Ha. unfold address_word. by rewrite length_app, length_replicate, Ha. Qed.

Lemma decode_address_padding (w rest : bytes) :
  length w = 32%nat → take 12 w ≠ replicate 12 x00 →
  EthAbi.decode_address (w ++ rest) = Raise NonEmptyPaddingBytes.
Proof.
  intros Hw Hpad. unfold EthAbi.decode_address.
  rewrite length_app, Hw.
  change (32 + length rest <? 32)%nat with false.
  rewrite take_app_le by lia.
  by rewrite bool_decide_false by done.
Qed.

Section Logs.
Context `{Constants} `{Library}.

(** C8 (as amended).  For a log whose first topic is the Transfer
    signature: with exactly 3 topics, when [data] holds at least 32 bytes
    and topics 1 and 2 are 32-byte words that start with 12 zero bytes, the
    decoder returns an [Erc20Transfer] whose value is the first 32-byte
    word of [data] read big-endian, and this is the only shape a returned
    value can have; when [data] is shorter than 32 bytes it raises
    [InsufficientDataBytes], and when [data] holds at least 32 bytes and
    topic 1 is a 32-byte word with other padding,
    [NonEmptyPaddingBytes].  With exactly 4 topics, topics 1 and 2
    being such address words and topic 3 a 32-byte word, it returns an
    [Erc721Transfer] whose from, to and tokenId come from topics 1, 2 and
    3, and it raises [NonEmptyPaddingBytes] when topic 1 is a 32-byte word
    with other padding.  With any other number of topics, and for any log
    whose first topic is not the signature (or that has no topic), it
    returns absence. *)
Theorem decode_log_dispatch (data : bytes_or_str) (topics : list bytes) :
  (∀ a1 a2 d from to,
     topics = [TRANSFER_TOPIC; address_word a1; address_word a2] →
     length a1 = 20%nat → length a2 = 20%nat →
     HexBytes data = Ok d → (32 ≤ length d)%nat →
     toChecksumAddress (VStr (normalized_address a1)) = Ok from →
     toChecksumAddress (VStr (normalized_address a2)) = Ok to →
     _decode_erc20_or_erc721_log data topics
     = Ok (Some (Erc20Transfer from to (int_from_bytes (take 32 d)))))
  ∧ (∀ a1 a2 t from to,
       topics = [TRANSFER_TOPIC; address_word a1; address_word a2; t] →
       length a1 = 20%nat → length a2 = 20%nat → length t = 32%nat →
       toChecksumAddress (VStr (normalized_address a1)) = Ok from →
       toChecksumAddress (VStr (normalized_address a2)) = Ok to →
       _decode_erc20_or_erc721_log data topics
       = Ok (Some (Erc721Transfer from to (int_from_bytes t))))
  ∧ (topics !! 0%nat = Some TRANSFER_TOPIC → length topics = 3%nat →
     ∀ res, _decode_erc20_or_erc721_log data topics = Ok res →
            ∃ from to d, HexBytes data = Ok d
                         ∧ res = Some (Erc20Transfer from to (int_from_bytes (take 32 d))))
  ∧ (topics !! 0%nat = Some TRANSFER_TOPIC → length topics = 4%nat →
     ∀ res, _decode_erc20_or_erc721_log data topics = Ok res →
            ∃ from to token_id, res = Some (Erc721Transfer from to token_id))
  ∧ (topics !! 0%nat = Some TRANSFER_TOPIC →
     length topics ≠ 3%nat → length topics ≠ 4%nat →
     _decode_erc20_or_erc721_log data topics = Ok None)
  ∧ (topics !! 0%nat ≠ Some TRANSFER_TOPIC →
     _decode_erc20_or_erc721_log data topics = Ok None)
  ∧ (topics !! 0%nat = Some TRANSFER_TOPIC → length topics = 3%nat →
     ∀ d, HexBytes data = Ok d → (length d < 32)%nat →
          _decode_erc20_or_erc721_log data topics = Raise InsufficientDataBytes)
  ∧ (∀ w1 w2 d,
       topics = [TRANSFER_TOPIC; w1; w2] →
       HexBytes data = Ok d → (32 ≤ length d)%nat →
       length w1 = 32%nat → take 12 w1 ≠ replicate 12 x00 →
       _decode_erc20_or_erc721_log data topics = Raise NonEmptyPaddingBytes)
  ∧ (∀ w1 w2 w3,
       topics = [TRANSFER_TOPIC; w1; w2; w3] →
       length w1 = 32%nat → take 12 w1 ≠ replicate 12 x00 →
       _decode_erc20_or_erc721_log data topics = Raise NonEmptyPaddingBytes).
Proof.
  split_and!.
  - intros a1 a2 d from to -> Ha1 Ha2 Hd Hlen Hfrom Hto.
    unfold _decode_erc20_or_erc721_log, _decode_erc20_log.
    rewrite bool_decide_true by done. cbn [length Nat.eqb andb].
    rewrite Hd. cbn [mbind result_bind].
    unfold EthAbi.decode_uint256.
    destruct (Nat.ltb_spec (length d) 32); [lia|].
    cbn [drop concat EthAbi.decode_abi]. rewrite app_nil_r.
    rewrite decode_address_word by done. cbn [fmap result_fmap mbind result_bind].
    rewrite drop_app_length' by (symmetry; by apply address_word_length).
    rewrite <- (app_nil_r (address_word a2)).
    rewrite decode_address_word by done. cbn [fmap result_fmap mbind result_bind].
    by rewrite Hfrom, Hto.
  - intros a1 a2 t from to -> Ha1 Ha2 Ht Hfrom Hto.
    unfold _decode_erc20_or_erc721_log, _decode_erc20_log, _decode_erc721_log.
    rewrite bool_decide_true by done. cbn [length Nat.eqb andb mbind result_bind].
    cbn [drop concat EthAbi.decode_abi]. rewrite app_nil_r.
    rewrite decode_address_word by done. cbn [fmap result_fmap mbind result_bind].
    rewrite drop_app_length' by (symmetry; by apply address_word_length).
    rewrite decode_address_word by done. cbn [fmap result_fmap mbind result_bind].
    rewrite drop_app_length' by (symmetry; by apply address_word_length).
    rewrite <- (app_nil_r t).
    rewrite decode_uint256_word by done. cbn [fmap result_fmap mbind result_bind].
    rewrite Hfrom, Hto. cbn [mbind result_bind]. by rewrite app_nil_r.
  - intros Htopic Hlen res.
    destruct topics as [|topic0 rest]; [done|]. injection Htopic as ->.
    unfold _decode_erc20_or_erc721_log, _decode_erc20_log.
    rewrite bool_decide_true by done. rewrite Hlen. cbn [Nat.eqb andb].
    destruct (HexBytes data) as [d|]; [|done]. cbn [mbind result_bind].
    unfold EthAbi.decode_uint256. destruct (length d <? 32)%nat; [done|].
    cbn [mbind result_bind].
    destruct (EthAbi.decode_abi _ _) as [[|[a1|] [|[a2|] [|]]]|]; try done.
    cbn [mbind result_bind].
    destruct (toChecksumAddress (VStr a1)) as [from|]; [|done].
    destruct (toChecksumAddress (VStr a2)) as [to|]; [|done].
    cbn [mbind result_bind]. intros [= <-]. by exists from, to, d.
  - intros Htopic Hlen res.
    destruct topics as [|topic0 rest]; [done|]. injection Htopic as ->.
    unfold _decode_erc20_or_erc721_log, _decode_erc20_log, _decode_erc721_log.
    rewrite bool_decide_true by done. rewrite Hlen. cbn [Nat.eqb andb mbind result_bind].
    destruct (EthAbi.decode_abi _ _) as [[|[a1|] [|[a2|] [|[|token_id] [|]]]]|];
      cbn [mbind result_bind]; try done.
    destruct (toChecksumAddress (VStr a1)) as [from|]; [|done].
    destruct (toChecksumAddress (VStr a2)) as [to|]; [|done].
    cbn [mbind result_bind]. intros [= <-]. by exists from, to, token_id.
  - intros Htopic H3 H4.
    destruct topics as [|topic0 rest]; [done|].
    unfold _decode_erc20_or_erc721_log, _decode_erc20_log, _decode_erc721_log.
    destruct (Nat.eqb_spec (length (topic0 :: rest)) 3); [done|].
    destruct (Nat.eqb_spec (length (topic0 :: rest)) 4); [done|].
    by rewrite !andb_false_r.
  - intros Htopic.
    destruct topics as [|topic0 rest]; [done|].
    unfold _decode_erc20_or_erc721_log, _decode_erc20_log, _decode_erc721_log.
    rewrite bool_decide_false by (intros ->; by apply Htopic).
    done.
  - intros Htopic Hlen d Hd Hshort.
    destruct topics as [|topic0 rest]; [done|]. injection Htopic as ->.
    unfold _decode_erc20_or_erc721_log, _decode_erc20_log.
    rewrite bool_decide_true by done. rewrite Hlen. cbn [Nat.eqb andb].
    rewrite Hd. cbn [mbind result_bind]. unfold EthAbi.decode_uint256.
    by destruct (Nat.ltb_spec (length d) 32); [|lia].
  - intros w1 w2 d -> Hd Hlen Hw1 Hpad.
    unfold _decode_erc20_or_erc721_log, _decode_erc20_log.
    rewrite bool_decide_true by done. cbn [length Nat.eqb andb].
    rewrite Hd. cbn [mbind result_bind]. unfold EthAbi.decode_uint256.
    destruct (Nat.ltb_spec (length d) 32); [lia|]. cbn [mbind result_bind].
    cbn [drop concat EthAbi.decode_abi].
    by rewrite decode_address_padding by done.
  - intros w1 w2 w3 -> Hw1 Hpad.
    unfold _decode_erc20_or_erc721_log, _decode_erc20_log, _decode_erc721_log.
    rewrite bool_decide_true by done. cbn [length Nat.eqb andb mbind result_bind].
    cbn [drop concat EthAbi.decode_abi].
    by rewrite decode_address_padding by done.
Qed.

End Logs.

Lemma decode_log_dispatch_witness :
  Fixtures.decode_log (Bytes (be_bytes 32 9009360000000000))
    [Fixtures.topic; address_word Fixtures.alice; address_word Fixtures.bob]
  = Ok (Some (Erc20Transfer (normalized_address Fixtures.alice)
                (normalized_address Fixtures.bob)
                (int_from_bytes (take 32 (be_bytes 32 9009360000000000)))))
  ∧ Fixtures.decode_log (Str "0x")
      [Fixtures.topic; address_word Fixtures.alice; address_word Fixtures.bob;
       be_bytes 32 99]
    = Ok (Some (Erc721Transfer (normalized_address Fixtures.alice)
                  (normalized_address Fixtures.bob)
                  (int_from_bytes (be_bytes 32 99))))
  ∧ Fixtures.decode_log (Str "0x") [Fixtures.topic; address_word Fixtures.alice] = Ok None
  ∧ Fixtures.decode_log (Str "0x")
      [address_word Fixtures.alice; address_word Fixtures.alice; address_word Fixtures.bob]
    = Ok None
  ∧ (∃ from to d,
       HexBytes (Bytes (be_bytes 32 7)) = Ok d
       ∧ Some (Erc20Transfer (normalized_address Fixtures.alice)
                 (normalized_address Fixtures.bob) 7)
         = Some (Erc20Transfer from to (int_from_bytes (take 32 d))))
  ∧ (∃ from to token_id,
       Some (Erc721Transfer (normalized_address Fixtures.alice)
               (normalized_address Fixtures.bob) 99)
       = Some (Erc721Transfer from to token_id))
  ∧ Fixtures.decode_log (Bytes (replicate 31 x00))
      [Fixtures.topic; address_word Fixtures.alice; address_word Fixtures.bob]
    = Raise InsufficientDataBytes
  ∧ Fixtures.decode_log (Bytes (be_bytes 32 7))
      [Fixtures.topic; replicate 32 x01; address_word Fixtures.bob]
    = Raise NonEmptyPaddingBytes
  ∧ Fixtures.decode_log (Str "0x")
      [Fixtures.topic; replicate 32 x01; address_word Fixtures.bob; be_bytes 32 99]
    = Raise NonEmptyPaddingBytes.
Proof.
  split_and!.
  - destruct (@decode_log_dispatch Fixtures.constants Fixtures.library
                (Bytes (be_bytes 32 9009360000000000))
                [Fixtures.topic; address_word Fixtures.alice; address_word Fixtures.bob])
      as (Herc20 & _).
    apply (Herc20 Fixtures.alice Fixtures.bob (be_bytes 32 9009360000000000) _ _
             eq_refl eq_refl eq_refl eq_refl); [|reflexivity..].
    rewrite PyFacts.be_bytes_length. lia.
  - destruct (@decode_log_dispatch Fixtures.constants Fixtures.library (Str "0x")
                [Fixtures.topic; address_word Fixtures.alice; address_word Fixtures.bob;
                 be_bytes 32 99])
      as (_ & Herc721 & _).
    apply (Herc721 Fixtures.alice Fixtures.bob (be_bytes 32 99) _ _
             eq_refl eq_refl eq_refl);
      [apply PyFacts.be_bytes_length|reflexivity..].
  - destruct (@decode_log_dispatch Fixtures.constants Fixtures.library (Str "0x")
                [Fixtures.topic; address_word Fixtures.alice])
      as (_ & _ & _ & _ & Hother & _).
    apply Hother; [reflexivity|simpl; lia..].
  - destruct (@decode_log_dispatch Fixtures.constants Fixtures.library (Str "0x")
                [address_word Fixtures.alice; address_word Fixtures.alice;
                 address_word Fixtures.bob])
      as (_ & _ & _ & _ & _ & Hforeign).
    apply Hforeign. vm_compute. discriminate.
  - destruct (@decode_log_dispatch Fixtures.constants Fixtures.library
                (Bytes (be_bytes 32 7))
                [Fixtures.topic; address_word Fixtures.alice; address_word Fixtures.bob])
      as (_ & _ & Hshape & _).
    apply Hshape; reflexivity.
  - destruct (@decode_log_dispatch Fixtures.constants Fixtures.library (Str "0x")
                [Fixtures.topic; address_word Fixtures.alice; address_word Fixtures.bob;
                 be_bytes 32 99])
      as (_ & _ & _ & Hshape & _).
    apply Hshape; reflexivity.
  - destruct (@decode_log_dispatch Fixtures.constants Fixtures.library
                (Bytes (replicate 31 x00))
                [Fixtures.topic; address_word Fixtures.alice; address_word Fixtures.bob])
      as (_ & _ & _ & _ & _ & _ & Hshort & _).
    apply (Hshort eq_refl eq_refl (replicate 31 x00) eq_refl).
    rewrite length_replicate. lia.
  - destruct (@decode_log_dispatch Fixtures.constants Fixtures.library
                (Bytes (be_bytes 32 7))
                [Fixtures.topic; replicate 32 x01; address_word Fixtures.bob])
      as (_ & _ & _ & _ & _ & _ & _ & Hpadding & _).
    apply (Hpadding (replicate 32 x01) (address_word Fixtures.bob) (be_bytes 32 7)
             eq_refl eq_refl); [rewrite PyFacts.be_bytes_length; lia|reflexivity|].
    vm_compute. discriminate.
  - destruct (@decode_log_dispatch Fixtures.constants Fixtures.library (Str "0x")
                [Fixtures.topic; replicate 32 x01; address_word Fixtures.bob;
                 be_bytes 32 99])
      as (_ & _ & _ & _ & _ & _ & _ & _ & Hpadding).
    apply (Hpadding (replicate 32 x01) (address_word Fixtures.bob) (be_bytes 32 99)
             eq_refl); [reflexivity|].
    vm_compute. discriminate.
Defined.

(** C8, as stated, fails: a log with the Transfer topic and exactly 3
    topics whose data is empty is not decoded to an [Erc20Transfer]; the
    decoder raises. *)
Lemma decode_log_empty_data_raises :
  [Fixtures.topic; address_word Fixtures.alice; address_word Fixtures.bob] !! 0%nat
  = Some Fixtures.topic
  ∧ length [Fixtures.topic; address_word Fixtures.alice; address_word Fixtures.bob]
    = 3%nat
  ∧ Fixtures.decode_log (Str "0x")
      [Fixtures.topic; address_word Fixtures.alice; address_word Fixtures.bob]
    = Raise InsufficientDataBytes
  ∧ ∀ from to value,
      Fixtures.decode_log (Str "0x")
        [Fixtures.topic; address_word Fixtures.alice; address_word Fixtures.bob]
      ≠ Ok (Some (Erc20Transfer from to value)).
Proof.
  split_and!; [reflexivity..|].
  intros from to value. vm_compute. discriminate.
Qed.

End TransferLogFacts.

(* ===================================================================== *)
(** * Batched queries *)
(* ===================================================================== *)

Module BatchFacts.
Import EthereumClient.

Section Balances.
Context `{Library}.





(** How one entry of the answer is decoded: [0x] is 0, any other result
    goes through [int(_, 16)]. *)
Lemma result_0x_or_int (r : value) :
  (r = VStr "0x" ∧ match r with VStr "0x" => Ok 0 | _ => int_16 r end = Ok 0)
  ∨ (r ≠ VStr "0x" ∧ match r with VStr "0x" => Ok 0 | _ => int_16 r end = int_16 r).
Proof.
  destruct r as [| | |s| | |]; try (right; split; [discriminate|reflexivity]).
  destruct s as [|[b0 b1 b2 b3 b4 b5 b6 b7] s];
    [right; split; [discriminate|reflexivity]|].
  destruct b0, b1, b2, b3, b4, b5, b6, b7;
    try (right; split; [discriminate|reflexivity]).
  destruct s as [|[c0 c1 c2 c3 c4 c5 c6 c7] s];
    [right; split; [discriminate|reflexivity]|].
  destruct c0, c1, c2, c3, c4, c5, c6, c7;
    try (right; split; [discriminate|reflexivity]).
  destruct s; [left; split; reflexivity|right; split; [discriminate|reflexivity]].
Qed.

Lemma get_balances_body_spec (ta : option string) (data : value) :
  get_balances_body ta data
  = (r ← getkey data "result";
     balance ← match r with VStr "0x" => Ok 0 | _ => int_16 r end;
     Ok {| token_address := ta; balance := balance |}).
Proof. reflexivity. Qed.

Lemma get_balances_body_decoded (ta : option string) (data : value) (b : token_balance) :
  get_balances_body ta data = Ok b →
  token_address b = ta
  ∧ ∃ r, getkey data "result" = Ok r
         ∧ (r = VStr "0x" → balance b = 0)
         ∧ (r ≠ VStr "0x" → int_16 r = Ok (balance b)).
Proof.
  unfold get_balances_body.
  destruct (getkey data "result") as [r|]; [|done]. cbn [mbind result_bind].
  destruct (result_0x_or_int r) as [[-> _]|[Hne Heq]].
  - cbn [mbind result_bind]. intros [= <-]. split; [done|].
    exists (VStr "0x"). split_and!; done.
  - rewrite Heq. destruct (int_16 r) as [n|] eqn:Hn; [|done].
    cbn [mbind result_bind].
    intros [= <-]. split; [done|]. exists r. split_and!; done.
Qed.

Context (nd : node) (ethereum_node_url : string).

(** [get_balances] always sends its batch, then decodes the answer. *)
Lemma get_balances_outcome (address : string) (erc20_addresses : list string)
    (log : list request) :
  let request :=
    HttpPost ethereum_node_url (VList (balance_queries address erc20_addresses)) in
  get_balances nd ethereum_node_url address erc20_addresses log
  = (response ← nd log request;
     datas ← iter response;
     get_balances_loop (None :: (Some <$> erc20_addresses)) datas,
     log ++ [request]).
Proof.
  intros request.
  unfold get_balances, call, lift, mbind at 1, M_bind.
  fold request. by destruct (nd log request).
Qed.


(** C6 (as amended).  The accessors for transactions, receipts, blocks
    and traces return an empty list on an empty input without issuing a
    request.  [get_balances] on an empty token list still issues its
    request, which holds the [eth_getBalance] query alone, and returns at
    most one entry: when the answer is a non-empty list, the native-balance
    entry decoded from its first result (0 for [0x], [int(result, 16)]
    otherwise), and an empty list when the answer is an empty list. *)
Theorem empty_batches (log : list request) (address : string)
    (full_transactions : bool) :
  let request :=
    HttpPost ethereum_node_url
      (VList [VDict (dict [("jsonrpc", VStr "2.0");
                           ("method", VStr "eth_getBalance");
                           ("params", VList [VStr address; VStr "latest"]);
                           ("id", VInt 0)])])%string in
  let outcome := get_balances nd ethereum_node_url address [] log in
  get_transactions nd ethereum_node_url [] log = (Ok [], log)
  ∧ get_transaction_receipts nd ethereum_node_url [] log = (Ok [], log)
  ∧ get_blocks nd ethereum_node_url [] full_transactions log = (Ok [], log)
  ∧ trace_transactions nd ethereum_node_url [] log = (Ok [], log)
  ∧ outcome.2 = log ++ [request]
  ∧ (∀ balances, outcome.1 = Ok balances →
       balances = [] ∨ ∃ b, balances = [b] ∧ token_address b = None)
  ∧ (∀ data datas r, nd log request = Ok (VList (data :: datas)) →
       getkey data "result" = Ok r →
       (r = VStr "0x" →
        outcome.1 = Ok [ {| token_address := None; balance := 0 |} ])
       ∧ (r ≠ VStr "0x" →
          outcome.1 = (n ← int_16 r;
                       Ok [ {| token_address := None; balance := n |} ])))
  ∧ (nd log request = Ok (VList []) → outcome.1 = Ok []).
Proof.
  intros request outcome.
  pose proof (get_balances_outcome address [] log) as Hout.
  cbv zeta in Hout.
  change (HttpPost ethereum_node_url (VList (balance_queries address [])))
    with request in Hout.
  fold outcome in Hout.
  split_and!; [done..| | | |].
  - by rewrite Hout.
  - intros balances Hok. rewrite Hout in Hok. cbn [fst] in Hok.
    destruct (nd log request) as [response|]; [|done].
    cbn [mbind result_bind] in Hok.
    destruct (iter response) as [[|data datas]|]; [| |done].
    + injection Hok as <-. by left.
    + cbn [mbind result_bind fmap list_fmap get_balances_loop] in Hok.
      destruct (get_balances_body None data) as [b|] eqn:Hb; [|done].
      cbn [mbind result_bind] in Hok.
      replace (get_balances_loop [] datas) with (Ok [] : result (list token_balance))
        in Hok by (by destruct datas).
      injection Hok as <-. right. exists b. split; [done|].
      by destruct (get_balances_body_decoded _ _ _ Hb).
  - intros data datas r Hreply Hr. rewrite Hout. cbn [fst]. rewrite Hreply.
    cbn [mbind result_bind iter fmap list_fmap get_balances_loop].
    replace (get_balances_loop [] datas) with (Ok [] : result (list token_balance))
      by (by destruct datas).
    unfold get_balances_body. rewrite Hr. cbn [mbind result_bind].
    destruct (result_0x_or_int r) as [[-> _]|[Hne Heq]].
    + split; [done|]. by intros Hne.
    + split; [by intros ->|]. intros _. rewrite Heq.
      by destruct (int_16 r).
  - intros Hreply. rewrite Hout. cbn [fst]. by rewrite Hreply.
Qed.

End Balances.


Lemma empty_batches_witness :
  @get_balances Fixtures.library Fixtures.empty_balance_node Fixtures.url
    Fixtures.owner [] []
  = (Ok [ {| token_address := None; balance := 0 |} ],
     [] ++ [HttpPost Fixtures.url
              (VList [VDict (dict [("jsonrpc", VStr "2.0");
                                   ("method", VStr "eth_getBalance");
                                   ("params", VList [VStr Fixtures.owner; VStr "latest"]);
                                   ("id", VInt 0)]%string)])]).
Proof.
  destruct (@empty_batches Fixtures.library Fixtures.empty_balance_node
              Fixtures.url [] Fixtures.owner false)
    as (_ & _ & _ & _ & Hlog & _ & Hentry & _).
  destruct (Hentry (VDict (dict [("result", VStr "0x")]%string)) [] (VStr "0x")
              eq_refl eq_refl) as [Hzero _].
  specialize (Hzero eq_refl).
  destruct (get_balances _ _ _ _ _) as [r l]. cbn [fst snd] in Hzero, Hlog.
  by rewrite Hzero, Hlog.
Defined.

(** C6, as stated, fails for balances: on an empty token list
    [get_balances] issues a request and returns one entry. *)
Lemma get_balances_empty_list_requests :
  @get_balances Fixtures.library Fixtures.empty_balance_node Fixtures.url
    Fixtures.owner [] []
  = (Ok [ {| token_address := None; balance := 0 |} ],
     [HttpPost Fixtures.url
        (VList [VDict (dict [("jsonrpc", VStr "2.0");
                             ("method", VStr "eth_getBalance");
                             ("params", VList [VStr Fixtures.owner; VStr "latest"]);
                             ("id", VInt 0)]%string)])])
  ∧ @get_balances Fixtures.library Fixtures.empty_balance_node Fixtures.url
      Fixtures.owner [] []
    ≠ (Ok [], []).
Proof. split; [reflexivity|discriminate]. Qed.

End BatchFacts.

(* ===================================================================== *)
(** * Call traces *)
(* ===================================================================== *)

Module TraceFacts.
Import EthereumClient.

(** The digits ['%x'] prints are read back, in base 16, as the number
    printed. *)
Lemma hex_digits_acc (d : Hexadecimal.uint) :
  ∀ acc : positive,
    Fixtures.hex_digits_value (Z.pos acc) (NilEmpty.string_of_uint d)
    = Ok (Z.pos (Pos.of_hex_uint_acc d acc)).
Proof.
  induction d as [|d IH|d IH|d IH|d IH|d IH|d IH|d IH|d IH|d IH|d IH|d IH|d IH|d IH
                  |d IH|d IH|d IH]; intros acc;
    cbn [NilEmpty.string_of_uint Fixtures.hex_digits_value Pos.of_hex_uint_acc];
    try reflexivity;
    match goal with
    | |- context [hex_val ?c] =>
        let v := eval vm_compute in (hex_val c) in change (hex_val c) with v
    end; cbv iota; rewrite <- IH; f_equal; lia.
Qed.

Lemma hex_digits_uint (d : Hexadecimal.uint) :
  Fixtures.hex_digits_value 0 (NilEmpty.string_of_uint d)
  = Ok (Z.of_N (Pos.of_hex_uint d)).
Proof.
  induction d as [|d IH|d IH|d IH|d IH|d IH|d IH|d IH|d IH|d IH|d IH|d IH|d IH|d IH
                  |d IH|d IH|d IH];
    cbn [NilEmpty.string_of_uint Fixtures.hex_digits_value Pos.of_hex_uint];
    try reflexivity;
    match goal with
    | |- context [hex_val ?c] =>
        let v := eval vm_compute in (hex_val c) in change (hex_val c) with v
    end; cbv iota; [exact IH | apply (hex_digits_acc d _)..].
Qed.

Lemma format_x_reads_back (n : Z) :
  0 ≤ n → Fixtures.parse_hex ("0x" ++ format_x n) = Ok n.
Proof.
  intros Hn. unfold format_x. destruct (Z.ltb_spec n 0); [lia|].
  rewrite Z.abs_eq by done.
  pose proof (HexadecimalN.Unsigned.of_to (Z.to_N n)) as Hback. unfold N.of_hex_uint in Hback.
  pose proof (hex_digits_uint (N.to_hex_uint (Z.to_N n))) as Hdigits.
  rewrite Hback, Z2N.id in Hdigits by done.
  destruct (N.to_hex_uint (Z.to_N n)); exact Hdigits.
Qed.

Section Traces.
Context `{Library} (nd : node) (ethereum_node_url : string).

(** The shape shared by [trace_transaction] and [trace_filter]: one
    request, decoded; when that raises ParityTraceDecodeException, the
    same request is sent a second time and decoded, whatever comes out. *)
Lemma retry_outcome (req : request) (log : list request) :
  let attempt : M (list value) := raw ← call nd req; lift (_decode_traces raw) in
  try_except attempt
    (λ exc, if is_parity_decode_error exc then Some attempt else None) log
  = match nd log req ≫= _decode_traces with
    | Ok traces => (Ok traces, log ++ [req])
    | Raise exc =>
        if is_parity_decode_error exc
        then (nd (log ++ [req]) req ≫= _decode_traces, log ++ [req] ++ [req])
        else (Raise exc, log ++ [req])
    end.
Proof.
  intros attempt.
  assert (∀ l, attempt l = (nd l req ≫= _decode_traces, l ++ [req])) as Hattempt.
  { intros l. unfold attempt, call, lift, mbind at 1, M_bind.
    by destruct (nd l req). }
  unfold try_except. rewrite Hattempt.
  destruct (nd log req ≫= _decode_traces) as [traces|exc]; [done|].
  destruct (is_parity_decode_error exc); [|done].
  by rewrite Hattempt, <- app_assoc.
Qed.

Lemma trace_transaction_outcome (tx_hash : bytes_or_str) (log : list request) :
  let req := trace_transaction_request tx_hash in
  trace_transaction nd tx_hash log
  = match nd log req ≫= _decode_traces with
    | Ok traces => (Ok traces, log ++ [req])
    | Raise exc =>
        if is_parity_decode_error exc
        then (nd (log ++ [req]) req ≫= _decode_traces, log ++ [req] ++ [req])
        else (Raise exc, log ++ [req])
    end.
Proof. apply retry_outcome. Qed.

Lemma trace_filter_outcome (from_block : Z) (to_block : option Z)
    (from_address to_address : option (list string)) (after count : option Z)
    (log : list request) :
  opt_list_truthy from_address || opt_list_truthy to_address = true →
  let req := trace_filter_request
               (trace_filter_parameters from_block to_block from_address
                  to_address after count) in
  trace_filter nd from_block to_block from_address to_address after count log
  = match nd log req ≫= _decode_traces with
    | Ok traces => (Ok traces, log ++ [req])
    | Raise exc =>
        if is_parity_decode_error exc
        then (nd (log ++ [req]) req ≫= _decode_traces, log ++ [req] ++ [req])
        else (Raise exc, log ++ [req])
    end.
Proof.
  intros Hsupplied req. unfold trace_filter. rewrite Hsupplied. cbn [negb].
  apply retry_outcome.
Qed.

(** C5 (as amended).  When a non-empty [from_address] or [to_address]
    is supplied, every request [trace_filter] issues carries the
    [parameters] dictionary, in which a from-block other than 0 appears as
    the string "0x" followed by its hexadecimal digits, and a to-block
    other than 0 likewise (digits that read back, in base 16, as the block
    number); with a from-block of 0 the request is issued all the same,
    and the key [fromBlock] is absent from it. *)
Theorem trace_filter_from_block (from_block : Z) (to_block : option Z)
    (from_address to_address : option (list string)) (after count : option Z)
    (log : list request) :
  opt_list_truthy from_address || opt_list_truthy to_address = true →
  let parameters :=
    trace_filter_parameters from_block to_block from_address to_address after count in
  let outcome :=
    trace_filter nd from_block to_block from_address to_address after count log in
  (outcome.2 = log ++ [trace_filter_request parameters]
   ∨ outcome.2 = log ++ [trace_filter_request parameters; trace_filter_request parameters])
  ∧ (from_block ≠ 0 →
     parameters !! "fromBlock"%string = Some (VStr ("0x" ++ format_x from_block)))
  ∧ (from_block = 0 → parameters !! "fromBlock"%string = None)
  ∧ (∀ b, to_block = Some b → b ≠ 0 →
          parameters !! "toBlock"%string = Some (VStr ("0x" ++ format_x b)))
  ∧ (to_block = None ∨ to_block = Some 0 → parameters !! "toBlock"%string = None)
  ∧ (0 ≤ from_block → Fixtures.parse_hex ("0x" ++ format_x from_block) = Ok from_block).
Proof.
  intros Hsupplied parameters outcome.
  pose proof (trace_filter_outcome from_block to_block from_address to_address
                after count log Hsupplied) as Hout.
  cbv zeta in Hout. fold parameters in Hout. fold outcome in Hout.
  assert (∀ (b : bool) (k : string) (v : value) (m : gmap string value),
            k ≠ "fromBlock"%string →
            (if b then <[k := v]> m else m) !! "fromBlock"%string
            = m !! "fromBlock"%string) as Hfrom.
  { intros [] k v m Hk; [by rewrite lookup_insert_ne|done]. }
  assert (∀ (b : bool) (k : string) (v : value) (m : gmap string value),
            k ≠ "toBlock"%string →
            (if b then <[k := v]> m else m) !! "toBlock"%string
            = m !! "toBlock"%string) as Hto.
  { intros [] k v m Hk; [by rewrite lookup_insert_ne|done]. }
  split_and!.
  - rewrite Hout. destruct (nd log _ ≫= _decode_traces) as [traces|exc]; [by left|].
    destruct (is_parity_decode_error exc); [by right|by left].
  - intros Hnz. unfold parameters, trace_filter_parameters.
    rewrite !Hfrom by done.
    destruct (Z.eqb_spec from_block 0); [done|]. cbn [negb].
    by rewrite lookup_insert_eq.
  - intros ->. unfold parameters, trace_filter_parameters.
    rewrite !Hfrom by done. done.
  - intros b -> Hb. unfold parameters, trace_filter_parameters.
    rewrite !Hto by done. cbn [opt_int_truthy default].
    destruct (Z.eqb_spec b 0); [done|]. cbn [negb].
    by rewrite lookup_insert_eq.
  - intros Hnone. unfold parameters, trace_filter_parameters.
    rewrite !Hto by done.
    assert (opt_int_truthy to_block = false) as -> by (by destruct Hnone as [->| ->]).
    destruct (negb (from_block =? 0)); [by rewrite lookup_insert_ne|done].
  - apply format_x_reads_back.
Qed.

(** [trace_transactions] never sends a second request, and its
    [except] branch decodes the payload it already has: the outcome is that
    of a single decoding. *)
Lemma trace_transactions_single_request (tx_hashes : list bytes_or_str)
    (log : list request) :
  (∃ sent, (trace_transactions nd ethereum_node_url tx_hashes log).2 = log ++ sent
           ∧ (length sent ≤ 1)%nat)
  ∧ ∀ result,
      trace_transactions_body result
      = (raw_tx ← getkey result "result";
         if truthy raw_tx then Some <$> _decode_traces raw_tx else Ok None).
Proof.
  split.
  - unfold trace_transactions. destruct tx_hashes as [|h hs].
    + exists []. rewrite app_nil_r. split; [reflexivity|cbn [length]; lia].
    + unfold lift, call, mbind, M_bind.
      destruct (hash_payload _ _) as [payload|].
      * exists [HttpPost ethereum_node_url (VList payload)].
        split; [|done]. by destruct (nd log _).
      * exists []. rewrite app_nil_r. split; [reflexivity|cbn [length]; lia].
  - intros result. unfold trace_transactions_body.
    destruct (getkey result "result") as [raw_tx|]; [|done].
    cbn [mbind result_bind]. destruct (truthy raw_tx); [|done].
    destruct (_decode_traces raw_tx) as [traces|exc]; [done|].
    by destruct (is_parity_decode_error exc).
Qed.

End Traces.

Lemma trace_filter_from_block_witness :
  ((@trace_filter Fixtures.library Fixtures.flaky_trace_node 16 (Some 32)
      (Some [Fixtures.owner]) None None None []).2
   = [trace_filter_request
        (trace_filter_parameters 16 (Some 32) (Some [Fixtures.owner]) None None None)]
   ∨ (@trace_filter Fixtures.library Fixtures.flaky_trace_node 16 (Some 32)
        (Some [Fixtures.owner]) None None None []).2
     = [trace_filter_request
          (trace_filter_parameters 16 (Some 32) (Some [Fixtures.owner]) None None None);
        trace_filter_request
          (trace_filter_parameters 16 (Some 32) (Some [Fixtures.owner]) None None None)])
  ∧ trace_filter_parameters 16 (Some 32) (Some [Fixtures.owner]) None None None
      !! "fromBlock"%string = Some (VStr "0x10")
  ∧ trace_filter_parameters 0 None None (Some [Fixtures.owner]) None None
      !! "fromBlock"%string = None
  ∧ trace_filter_parameters 16 (Some 32) (Some [Fixtures.owner]) None None None
      !! "toBlock"%string = Some (VStr "0x20")
  ∧ trace_filter_parameters 0 None None (Some [Fixtures.owner]) None None
      !! "toBlock"%string = None
  ∧ Fixtures.parse_hex ("0x" ++ format_x 16) = Ok 16.
Proof.
  destruct (@trace_filter_from_block Fixtures.library Fixtures.flaky_trace_node
              16 (Some 32) (Some [Fixtures.owner]) None None None [] eq_refl)
    as (Hlog & Hfrom & _ & Hto & _ & Hread).
  destruct (@trace_filter_from_block Fixtures.library Fixtures.flaky_trace_node
              0 None None (Some [Fixtures.owner]) None None [] eq_refl)
    as (_ & _ & Hzero & _ & Hnone & _).
  split_and!.
  - exact Hlog.
  - apply Hfrom. lia.
  - apply Hzero. reflexivity.
  - apply (Hto 32 eq_refl). lia.
  - apply Hnone. by left.
  - apply Hread. lia.
Defined.

(** C5, as stated, fails: with a from-block of 0 the request goes out
    without any [fromBlock]. *)
Lemma trace_filter_drops_zero_from_block :
  opt_list_truthy (Some [Fixtures.owner]) || opt_list_truthy None = true
  ∧ ∃ parameters,
      (@trace_filter Fixtures.library Fixtures.flaky_trace_node 0 None
         (Some [Fixtures.owner]) None None None []).2
      = [Rpc Slow "trace_filter" [VDict parameters];
         Rpc Slow "trace_filter" [VDict parameters]]
      ∧ parameters !! "fromBlock"%string = None
      ∧ parameters !! "fromAddress"%string = Some (VList [VStr Fixtures.owner]).
Proof.
  split; [reflexivity|].
  exists (trace_filter_parameters 0 None (Some [Fixtures.owner]) None None None).
  split_and!; reflexivity.
Qed.

(** C3: what the code does on the failing input.  The node's first
    answer holds a malformed trace and every later answer is well formed.
    [trace_transaction] sends its request a second time and succeeds;
    [trace_transactions] sends one request only, decodes the same payload
    twice and propagates the failure. *)
Theorem trace_transactions_retry_sends_nothing :
  @trace_transactions Fixtures.library Fixtures.flaky_trace_node Fixtures.url
    [Str "0x01"] []
  = (Raise (EthereumClientException ParityTraceDecodeException
              "Expected dictionary, but found unexpected trace"),
     [HttpPost Fixtures.url
        (VList [batch_query "trace_transaction" 0 [VStr "0x01"]])])
  ∧ @trace_transaction Fixtures.library Fixtures.flaky_trace_node (Str "0x01") []
    = (Ok [VDict (dict [("action", VDict ∅); ("subtraces", VInt 0)])],
       [Rpc Slow "trace_transaction" [VStr "0x01"];
        Rpc Slow "trace_transaction" [VStr "0x01"]])%string.
Proof. split; reflexivity. Qed.

End TraceFacts.

(* ===================================================================== *)
(** * Submitting transactions *)
(* ===================================================================== *)

Module SubmissionFacts.
Import EthereumClient.

Section Underpriced.
Context `{Library}.

Lemma send_transaction_underpriced (tx : gmap string value) (log : list request) :
  send_transaction Fixtures.underpriced_node tx log
  = (Raise (EthereumClientException ReplacementTransactionUnderpriced
              "replacement transaction underpriced"),
     log ++ [Rpc Default "eth_sendTransaction" [VDict tx]]).
Proof. reflexivity. Qed.

Lemma get_nonce_rejecting (address : string) (log : list request) :
  get_nonce_for_account Fixtures.underpriced_node address Fixtures.pending log
  = (Ok (VInt 7),
     log ++ [Rpc Default "eth_getTransactionCount" [VStr address; VStr "pending"]]).
Proof. reflexivity. Qed.

(** One pass of the loop against that node: the nonce moves, the budget
    does not. *)
Lemma send_iteration_underpriced (tx : gmap string value) (n : Z)
    (log : list request) :
  tx !! "nonce"%string = Some (VInt n) →
  ∃ log',
    send_iteration Fixtures.underpriced_node None (Some Fixtures.owner) true
      Fixtures.pending Fixtures.owner tx 5 log
    = (Ok (Again (<["nonce"%string := VInt (Z.max (n + 1) 7)]>
                    (<["from"%string := VStr Fixtures.owner]> tx)) 5), log').
Proof.
  intros Hnonce. eexists.
  unfold send_iteration. cbn [str_truthy Fixtures.owner].
  unfold try_except at 1.
  unfold mbind at 1, M_bind. rewrite send_transaction_underpriced.
  cbn [negb orb Z.eqb].
  unfold mbind, M_bind, lift, getkey.
  rewrite lookup_insert_ne by done. rewrite Hnonce. cbn [add_one].
  rewrite get_nonce_rejecting. cbn [max_with]. reflexivity.
Qed.

Lemma send_loop_underpriced (fuel : nat) :
  ∀ (tx : gmap string value) (n : Z) (log : list request),
    tx !! "nonce"%string = Some (VInt n) →
    send_loop Fixtures.underpriced_node fuel None (Some Fixtures.owner) true
      Fixtures.pending Fixtures.owner tx 5 log
    = None.
Proof.
  induction fuel as [|fuel IH]; intros tx n log Hnonce; [done|].
  cbn [send_loop]. change (5 >=? 0) with true. cbv iota.
  destruct (send_iteration_underpriced tx n log Hnonce) as [log' ->].
  apply (IH _ (Z.max (n + 1) 7)). apply lookup_insert_eq.
Qed.

(** C1: what the code does on the failing input.  With [retry] set and
    a node that answers every submission with "replacement transaction
    underpriced", the loop is still running after any number of passes;
    with a node that answers "correct nonce" instead, the sibling branch
    gives up after the sixth submission and raises [InvalidNonce]. *)
Theorem underpriced_retries_forever :
  (∀ fuel,
     send_unsigned_transaction Fixtures.underpriced_node fuel Fixtures.eth_transfer
       None (Some Fixtures.owner) true Fixtures.pending [] = None)
  ∧ ∃ log,
      send_unsigned_transaction Fixtures.invalid_nonce_node 7
        Fixtures.eth_transfer None (Some Fixtures.owner) true Fixtures.pending []
      = Some (Raise (EthereumClientException InvalidNonce "correct nonce"), log)
      ∧ length (filter (λ r, Fixtures.method_of r = "eth_sendTransaction"%string) log)
        = 6%nat.
Proof.
  split.
  - intros fuel. unfold send_unsigned_transaction.
    cbn [str_truthy Fixtures.owner].
    change (Fixtures.eth_transfer !! "nonce"%string) with (@None value).
    cbv iota. unfold mbind at 1, M_bind. rewrite get_nonce_rejecting.
    apply (send_loop_underpriced fuel _ 7). apply lookup_insert_eq.
  - eexists. split; [vm_compute; reflexivity|]. vm_compute. reflexivity.
Qed.

End Underpriced.

End SubmissionFacts.

(* ===================================================================== *)
(** * More on the signature codec and on call-data gas *)
(* ===================================================================== *)

Module CodecFacts.
Import Signatures EthereumClient PyFacts Spec.

Lemma hex_val_digit (n : N) : (n < 16)%N → hex_val (hex_digit n) = Some n.
Proof.
  intros Hn. destruct n as [|p]; [reflexivity|].
  do 5 (destruct p as [p|p|]; try lia; try reflexivity).
Qed.

Lemma unhexlify_bytes_hex (b : bytes) : unhexlify (bytes_hex b) = Ok b.
Proof.
  induction b as [|x b IH]; [reflexivity|].
  cbn [bytes_hex unhexlify].
  pose proof (Byte.to_N_bounded x) as Hx.
  rewrite !hex_val_digit
    by (try apply N.mod_lt; try apply N.Div0.div_lt_upper_bound; lia).
  rewrite IH. cbn [mbind result_bind]. f_equal. f_equal.
  rewrite <- N.div_mod by lia.
  unfold byte_of_Z. rewrite N2Z.id, Byte.of_to_N. reflexivity.
Qed.

Lemma bytes_hex_length (b : bytes) :
  String.length (bytes_hex b) = (2 * length b)%nat.
Proof. induction b as [|x b IH]; [done|]. cbn [bytes_hex String.length length]. lia. Qed.

(** [HexBytes(HexBytes(b).hex())] is [b]. *)
Lemma HexBytes_hex_roundtrip (b : bytes) : HexBytes (Str (HexBytes_hex b)) = Ok b.
Proof.
  unfold HexBytes, HexBytes_hex, hexstr_to_bytes.
  change ("0x" ++ bytes_hex b)%string with (String "0" (String "x" (bytes_hex b))).
  cbn [String.length]. rewrite bytes_hex_length.
  replace (Nat.odd (S (S (2 * length b)))) with false.
  - apply unhexlify_bytes_hex.
  - symmetry. rewrite <- Nat.negb_even. apply negb_false_iff.
    apply Nat.even_spec. exists (S (length b)). lia.
Qed.

Lemma int_to_bytes_inv (n : Z) (len : nat) (b : bytes) :
  int_to_bytes n len = Ok b → 0 ≤ n < 256 ^ Z.of_nat len ∧ b = be_bytes len n.
Proof.
  unfold int_to_bytes.
  destruct (Z.ltb_spec n 0); [done|].
  destruct (Z.leb_spec (256 ^ Z.of_nat len) n); [done|].
  intros [= <-]. split; [lia|done].
Qed.

Lemma int_to_bytes_overflow (n : Z) (len : nat) :
  ¬ (0 ≤ n < 256 ^ Z.of_nat len) → int_to_bytes n len = Raise OverflowError.
Proof.
  intros Hn. unfold int_to_bytes.
  destruct (Z.ltb_spec n 0); [done|].
  destruct (Z.leb_spec (256 ^ Z.of_nat len) n); [done|lia].
Qed.

(** X1.  [signature_to_bytes] returns exactly 65 bytes when v fits one
    byte and r and s fit 32 bytes each, and raises [OverflowError] in
    every other case. *)
Theorem signature_to_bytes_total (v r s : Z) :
  (valid_signature (v, r, s) →
   ∃ b, signature_to_bytes (v, r, s) = Ok b ∧ length b = 65%nat)
  ∧ (¬ valid_signature (v, r, s) →
     signature_to_bytes (v, r, s) = Raise OverflowError).
Proof.
  split.
  - intros Hvalid. rewrite SignaturesFacts.signature_to_bytes_ok by done.
    eexists. split; [done|]. rewrite !length_app, !be_bytes_length. done.
  - intros Hinvalid. unfold signature_to_bytes.
    destruct (int_to_bytes r 32) as [rb|e] eqn:Hr.
    + cbn [mbind result_bind].
      destruct (int_to_bytes s 32) as [sb|e] eqn:Hs.
      * cbn [mbind result_bind].
        destruct (int_to_bytes v 1) as [vb|e] eqn:Hv.
        -- exfalso. apply Hinvalid.
           apply int_to_bytes_inv in Hr as [Hr _].
           apply int_to_bytes_inv in Hs as [Hs _].
           apply int_to_bytes_inv in Hv as [Hv _].
           change (256 ^ Z.of_nat 32) with (2 ^ 256) in *.
           change (256 ^ Z.of_nat 1) with 256 in *.
           unfold valid_signature. lia.
        -- cbn [mbind result_bind]. revert Hv. unfold int_to_bytes.
           repeat case_match; congruence.
      * cbn [mbind result_bind]. revert Hs. unfold int_to_bytes.
        repeat case_match; congruence.
    + cbn [mbind result_bind]. revert Hr. unfold int_to_bytes.
      repeat case_match; congruence.
Qed.

Lemma signature_to_bytes_total_witness :
  (∃ b, signature_to_bytes (27, 1, 2) = Ok b ∧ length b = 65%nat)
  ∧ signature_to_bytes (256, 1, 2) = Raise OverflowError.
Proof.
  split.
  - apply (signature_to_bytes_total 27 1 2). unfold valid_signature. lia.
  - apply (signature_to_bytes_total 256 1 2). unfold valid_signature. lia.
Defined.

Lemma signatures_to_bytes_cons (vrs : Z * Z * Z) (l : list (Z * Z * Z)) :
  signatures_to_bytes (vrs :: l)
  = (b ← signature_to_bytes vrs; bs ← signatures_to_bytes l; Ok (b ++ bs)).
Proof.
  unfold signatures_to_bytes. cbn [mapR].
  destruct (signature_to_bytes vrs) as [b|]; [|done]. cbn [mbind result_bind].
  by destruct (mapR signature_to_bytes l).
Qed.

(** X2.  Joining a concatenation of two lists of signatures gives the
    concatenation of the two joined byte strings (and fails when either
    part fails); whenever joining succeeds, the result has 65 bytes per
    signature. *)
Theorem signatures_to_bytes_app (l1 l2 : list (Z * Z * Z)) :
  signatures_to_bytes (l1 ++ l2)
  = (b1 ← signatures_to_bytes l1; b2 ← signatures_to_bytes l2; Ok (b1 ++ b2))
  ∧ (∀ b, signatures_to_bytes l1 = Ok b → length b = (65 * length l1)%nat).
Proof.
  split.
  - induction l1 as [|vrs l1 IH].
    + cbn [app]. change (signatures_to_bytes []) with (Ok ([] : bytes)).
      cbn [mbind result_bind]. by destruct (signatures_to_bytes l2).
    + cbn [app]. rewrite !signatures_to_bytes_cons, IH.
      destruct (signature_to_bytes vrs) as [b|]; [|done]. cbn [mbind result_bind].
      destruct (signatures_to_bytes l1) as [b1|]; [|done]. cbn [mbind result_bind].
      destruct (signatures_to_bytes l2) as [b2|]; [|done]. cbn [mbind result_bind].
      by rewrite app_assoc.
  - induction l1 as [|[[v r] s] l1 IH]; intros b.
    + by intros [= <-].
    + rewrite signatures_to_bytes_cons.
      destruct (signature_to_bytes (v, r, s)) as [b0|] eqn:Hb0; [|done].
      cbn [mbind result_bind].
      destruct (signatures_to_bytes l1) as [b1|]; [|done]. cbn [mbind result_bind].
      intros [= <-]. rewrite length_app, (IH b1 eq_refl). cbn [length].
      unfold signature_to_bytes in Hb0.
      destruct (int_to_bytes r 32) as [rb|] eqn:Hr; [|done].
      destruct (int_to_bytes s 32) as [sb|] eqn:Hs; [|done].
      destruct (int_to_bytes v 1) as [vb|] eqn:Hv; [|done].
      cbn [mbind result_bind] in Hb0. injection Hb0 as <-.
      apply int_to_bytes_inv in Hr as [_ ->].
      apply int_to_bytes_inv in Hs as [_ ->].
      apply int_to_bytes_inv in Hv as [_ ->].
      rewrite !length_app, !be_bytes_length. lia.
Qed.

Lemma signatures_to_bytes_app_witness :
  signatures_to_bytes ([(27, 1, 2)] ++ [(28, 3, 4)])
  = (b1 ← signatures_to_bytes [(27, 1, 2)];
     b2 ← signatures_to_bytes [(28, 3, 4)];
     Ok (b1 ++ b2))
  ∧ length (be_bytes 32 1 ++ be_bytes 32 2 ++ be_bytes 1 27 ++ []) = (65 * 1)%nat.
Proof.
  split.
  - apply (signatures_to_bytes_app [(27, 1, 2)] [(28, 3, 4)]).
  - apply (signatures_to_bytes_app [(27, 1, 2)] [(28, 3, 4)]). reflexivity.
Defined.

(** X3.  [signature_split] reads the hexadecimal text of a byte string
    ("0x" followed by two digits per byte) exactly as it reads the byte
    string itself. *)
Theorem signature_split_hex_text (b : bytes) (pos : Z) :
  signature_split (Str (HexBytes_hex b)) pos = signature_split (Bytes b) pos.
Proof.
  unfold signature_split. rewrite HexBytes_hex_roundtrip. reflexivity.
Qed.

(** X4.  On a byte string of exactly n chunks of 65 bytes, a negative
    position -k (1 <= k <= n) counts from the end: it reads the same
    chunk as position n - k, without any error. *)
Theorem signature_split_negative (b : bytes) (n k : Z) :
  Z.of_nat (length b) = 65 * n → 1 ≤ k ≤ n →
  signature_split (Bytes b) (- k) = signature_split (Bytes b) (n - k).
Proof.
  intros Hlen Hk. unfold signature_split. cbn [HexBytes mbind result_bind].
  assert (getitem b (64 + 65 * - k) = getitem b (64 + 65 * (n - k))) as ->.
  { unfold getitem. rewrite Hlen.
    destruct (Z.ltb_spec (64 + 65 * - k) 0); [|lia].
    destruct (Z.ltb_spec (64 + 65 * (n - k)) 0); [lia|].
    by replace (64 + 65 * - k + 65 * n) with (64 + 65 * (n - k)) by lia. }
  assert (∀ lo hi, lo < 0 → hi < 0 → - (65 * n) ≤ lo →  - (65 * n) ≤ hi →
            slice b lo hi = slice b (lo + 65 * n) (hi + 65 * n)) as Hslice.
  { intros lo hi Hlo Hhi Hlo' Hhi'. unfold slice, slice_bound. rewrite Hlen.
    destruct (Z.ltb_spec lo 0); [|lia]. destruct (Z.ltb_spec hi 0); [|lia].
    destruct (Z.ltb_spec (lo + 65 * n) 0); [lia|].
    destruct (Z.ltb_spec (hi + 65 * n) 0); [lia|].
    by rewrite !Z.max_l, !Z.min_l by lia. }
  rewrite (Hslice (65 * - k) (32 + 65 * - k)) by lia.
  rewrite (Hslice (32 + 65 * - k) (64 + 65 * - k)) by lia.
  replace (65 * - k + 65 * n) with (65 * (n - k)) by lia.
  replace (32 + 65 * - k + 65 * n) with (32 + 65 * (n - k)) by lia.
  replace (64 + 65 * - k + 65 * n) with (64 + 65 * (n - k)) by lia.
  done.
Qed.

Lemma signature_split_negative_witness :
  signature_split (Bytes (replicate 65 x01 ++ replicate 65 x02)) (- 1)
  = signature_split (Bytes (replicate 65 x01 ++ replicate 65 x02)) (2 - 1).
Proof.
  apply (signature_split_negative (replicate 65 x01 ++ replicate 65 x02) 2 1);
    [reflexivity|lia].
Defined.

Lemma zero_nonzero_length (data : bytes) :
  Nat.add (length (filter (λ b, byte_to_Z b = 0) data))
          (length (filter (λ b, byte_to_Z b ≠ 0) data)) = length data.
Proof.
  induction data as [|x data IH]; [done|].
  rewrite !filter_cons. destruct (decide (byte_to_Z x = 0)) as [Hz|Hnz].
  - rewrite decide_False by (intros Hn; by apply Hn). cbn [length]. lia.
  - rewrite decide_True by done. cbn [length]. lia.
Qed.

Section Gas.
Context `{Constants}.

(** X5.  [estimate_data_gas] charges the hexadecimal text of a byte
    string ("0x" followed by two digits per byte) exactly as it charges
    the byte string itself. *)
Theorem estimate_data_gas_hex_text (data : bytes) :
  estimate_data_gas (Str (HexBytes_hex data)) = estimate_data_gas (Bytes data).
Proof.
  unfold estimate_data_gas. rewrite HexBytes_hex_roundtrip. reflexivity.
Qed.

(** X6.  The gas of a concatenation is the sum of the gas of its parts. *)
Theorem estimate_data_gas_app (a b : bytes) :
  ∃ ga gb,
    estimate_data_gas (Bytes a) = Ok ga
    ∧ estimate_data_gas (Bytes b) = Ok gb
    ∧ estimate_data_gas (Bytes (a ++ b)) = Ok (ga + gb).
Proof.
  unfold estimate_data_gas. cbn [mbind result_bind].
  eexists _, _. split_and!; [done..|].
  rewrite fold_left_app. rewrite (GasFacts.data_gas_fold b (fold_left _ a 0)).
  rewrite (GasFacts.data_gas_fold b 0). f_equal. lia.
Qed.

(** X7.  When the zero-byte price is between 0 and the non-zero-byte
    price, the estimate lies between the two prices times the number of
    bytes. *)
Theorem estimate_data_gas_bounds (data : bytes) :
  0 ≤ GAS_CALL_DATA_ZERO_BYTE ≤ GAS_CALL_DATA_BYTE →
  ∃ gas, estimate_data_gas (Bytes data) = Ok gas
         ∧ GAS_CALL_DATA_ZERO_BYTE * Z.of_nat (length data) ≤ gas
           ≤ GAS_CALL_DATA_BYTE * Z.of_nat (length data).
Proof.
  intros Hprices. unfold estimate_data_gas. cbn [mbind result_bind].
  eexists. split; [done|].
  rewrite GasFacts.data_gas_fold.
  pose proof (zero_nonzero_length data) as Hsplit.
  nia.
Qed.

End Gas.

Lemma estimate_data_gas_bounds_witness :
  ∃ gas, @estimate_data_gas Fixtures.constants (Bytes [x00; x01; x00]) = Ok gas
         ∧ 4 * 3 ≤ gas ≤ 68 * 3.
Proof.
  apply (@estimate_data_gas_bounds Fixtures.constants [x00; x01; x00]).
  simpl. lia.
Defined.

End CodecFacts.

(* ===================================================================== *)
(** * More on the error classifier, and the network enumeration *)
(* ===================================================================== *)

Module ClassifierMoreFacts.
Import EthereumClient EthereumClientRest Spec ClassifierFacts.

Lemma wrapper_outcome {A} (func : M A) (log : list request) :
  tx_with_exception_handling func log
  = match func log with
    | (Ok a, log') => (Ok a, log')
    | (Raise exc, log') =>
        match as_ValueError exc with
        | Some msg =>
            match first_reason (lower msg) error_with_exception with
            | Some kind => (Raise (EthereumClientException kind msg), log')
            | None => (Raise exc, log')
            end
        | None => (Raise exc, log')
        end
    end.
Proof.
  unfold tx_with_exception_handling, try_except.
  destruct (func log) as [[a|exc] log']; [done|].
  destruct (as_ValueError exc) as [msg|]; [|done].
  by destruct (first_reason (lower msg) error_with_exception).
Qed.

Lemma first_reason_inv (str_exc : string) (table : list (string * client_error))
    (kind : client_error) :
  first_reason str_exc table = Some kind →
  ∃ i reason,
    table !! i = Some (reason, kind)
    ∧ occurs_in (lower reason) str_exc
    ∧ ∀ j reason' kind', (j < i)%nat → table !! j = Some (reason', kind') →
                         ¬ occurs_in (lower reason') str_exc.
Proof.
  induction table as [|[r k] table IH]; cbn [first_reason]; [done|].
  destruct (str_in (lower r) str_exc) eqn:Hr.
  - intros [= ->]. exists 0%nat, r. split_and!; [done|by apply str_in_occurs|].
    intros j ? ? Hj. lia.
  - intros Hk. destruct (IH Hk) as (i & reason & Hi & Hocc & Hearlier).
    exists (S i), reason. split_and!; [done..|].
    intros [|j] reason' kind' Hj Hl.
    + injection Hl as <- <-. by apply str_in_not_occurs.
    + apply (Hearlier j reason' kind'); [lia|done].
Qed.

(** X8.  The wrapper issues no request of its own and lets pass what it
    does not classify: the log is the wrapped call's log, a result is
    returned unchanged, and a failure that is not a [ValueError] is
    re-raised unchanged; a [ValueError] failure stays a [ValueError] with
    the same message, whatever its new class. *)
Theorem wrapper_pass_through {A} (func : M A) (log : list request) :
  (tx_with_exception_handling func log).2 = (func log).2
  ∧ (∀ a, (func log).1 = Ok a → (tx_with_exception_handling func log).1 = Ok a)
  ∧ (∀ exc, (func log).1 = Raise exc → as_ValueError exc = None →
            (tx_with_exception_handling func log).1 = Raise exc)
  ∧ (∀ exc msg, (func log).1 = Raise exc → as_ValueError exc = Some msg →
       ∃ exc', (tx_with_exception_handling func log).1 = Raise exc'
               ∧ as_ValueError exc' = Some msg).
Proof.
  rewrite wrapper_outcome. destruct (func log) as [[a|exc] log']; cbn [fst snd].
  - split_and!; [done|by intros ? [= <-]|done..].
  - split_and!.
    + destruct (as_ValueError exc) as [msg|]; [|done].
      by destruct (first_reason _ _).
    + done.
    + intros ? [= <-] ->. done.
    + intros ? msg [= <-] Hmsg. rewrite Hmsg.
      destruct (first_reason _ _) as [kind|] eqn:Hk; cbn [fst]; eauto.
Qed.

Lemma wrapper_pass_through_witness :
  (tx_with_exception_handling (mret (M := M) (VInt 1)) []).1 = Ok (VInt 1)
  ∧ (tx_with_exception_handling (raise (A := value) (TransportError "ReadTimeout")) []).1
    = Raise (TransportError "ReadTimeout")
  ∧ ∃ exc', (tx_with_exception_handling (raise (A := value) (ValueError "nonce too low")) []).1
            = Raise exc'
            ∧ as_ValueError exc' = Some "nonce too low"%string.
Proof.
  split_and!.
  - apply (wrapper_pass_through (mret (M := M) (VInt 1)) []). reflexivity.
  - apply (wrapper_pass_through (raise (A := value) (TransportError "ReadTimeout")) []);
      reflexivity.
  - destruct (wrapper_pass_through (raise (A := value) (ValueError "nonce too low")) [])
      as (_ & _ & _ & Hmessage).
    apply (Hmessage (ValueError "nonce too low")); reflexivity.
Defined.

(** X9.  Decorating twice changes nothing: a function wrapped in the
    handler and wrapped again has the outcome of the function wrapped
    once. *)
Theorem wrapper_idempotent {A} (func : M A) (log : list request) :
  tx_with_exception_handling (tx_with_exception_handling func) log
  = tx_with_exception_handling func log.
Proof.
  rewrite (wrapper_outcome (tx_with_exception_handling func)).
  rewrite wrapper_outcome.
  destruct (func log) as [[a|exc] log']; [done|].
  destruct (as_ValueError exc) as [msg|] eqn:Hmsg.
  - destruct (first_reason (lower msg) error_with_exception) as [kind|] eqn:Hk.
    + cbn [as_ValueError]. by rewrite Hk.
    + by rewrite Hmsg, Hk.
  - by rewrite Hmsg.
Qed.

(** X10.  The handler never classifies without cause: when a
    [ValueError] of message [msg] comes out as the error kind [kind], some
    entry of the table carries [kind], its reason occurs in [msg] up to
    case, and no earlier entry's reason does. *)
Theorem classifier_sound {A} (func : M A) (log log' log'' : list request)
    (msg msg' : string) (kind : client_error) :
  func log = (Raise (ValueError msg), log') →
  tx_with_exception_handling func log
  = (Raise (EthereumClientException kind msg'), log'') →
  msg' = msg ∧ log'' = log'
  ∧ ∃ i reason,
      error_with_exception !! i = Some (reason, kind)
      ∧ occurs_in (lower reason) (lower msg)
      ∧ ∀ j reason' kind', (j < i)%nat →
          error_with_exception !! j = Some (reason', kind') →
          ¬ occurs_in (lower reason') (lower msg).
Proof.
  intros Hfail. rewrite wrapper_outcome, Hfail. cbn [as_ValueError].
  destruct (first_reason (lower msg) error_with_exception) as [k|] eqn:Hk; [|done].
  intros [= -> -> ->]. split_and!; [done..|]. by apply first_reason_inv.
Qed.

Lemma classifier_sound_witness :
  "insufficient funds for gas * price + value"%string
  = "insufficient funds for gas * price + value"%string
  ∧ ([] : list request) = []
  ∧ ∃ i reason,
      error_with_exception !! i = Some (reason, InsufficientFunds)
      ∧ occurs_in (lower reason) (lower "insufficient funds for gas * price + value")
      ∧ ∀ j reason' kind', (j < i)%nat →
          error_with_exception !! j = Some (reason', kind') →
          ¬ occurs_in (lower reason') (lower "insufficient funds for gas * price + value").
Proof.
  apply (classifier_sound
           (raise (A := value) (ValueError "insufficient funds for gas * price + value"))
           [] [] [] _ _ InsufficientFunds eq_refl eq_refl).
Defined.

(** X11.  [EthereumNetwork(value)] never fails: it gives back each
    member from its own value, and answers UNKNOWN for every integer that
    is not the value of a member. *)
Theorem network_of_value_total (value : Z) :
  (∀ network, EthereumNetwork_of (network_value network) = network)
  ∧ (value ∉ [-1; 0; 1; 3; 4; 5; 42] → EthereumNetwork_of value = UNKNOWN)
  ∧ (EthereumNetwork_of value ≠ UNKNOWN →
     network_value (EthereumNetwork_of value) = value).
Proof.
  split_and!.
  - by intros [].
  - intros Hnot. rewrite !elem_of_cons, elem_of_nil in Hnot.
    unfold EthereumNetwork_of, networks. cbn [List.find network_value].
    repeat match goal with
           | |- context [?a =? value] =>
               destruct (Z.eqb_spec a value) as [Heq|_]; [lia|]
           end.
    done.
  - unfold EthereumNetwork_of, networks. cbn [List.find network_value].
    repeat match goal with
           | |- context [?a =? value] =>
               destruct (Z.eqb_spec a value) as [Heq|_]; [by rewrite <- Heq|]
           end.
    done.
Qed.

Lemma network_of_value_total_witness :
  EthereumNetwork_of 1337 = UNKNOWN
  ∧ network_value (EthereumNetwork_of 42) = 42.
Proof.
  split.
  - apply (network_of_value_total 1337).
    rewrite !elem_of_cons, elem_of_nil. lia.
  - apply (network_of_value_total 42). discriminate.
Defined.

End ClassifierMoreFacts.

(* ===================================================================== *)
(** * More on call traces *)
(* ===================================================================== *)

Module TraceMoreFacts.
Import EthereumClient.

#[local] Set Warnings "-clear-no-such-hyp".

Lemma mapR_lookup {A B} (f : A → result B) (l : list A) (ys : list B) :
  mapR f l = Ok ys →
  length ys = length l
  ∧ ∀ i y, ys !! i = Some y → ∃ x, l !! i = Some x ∧ f x = Ok y.
Proof.
  revert ys. induction l as [|x l IH]; intros ys; cbn [mapR].
  - intros [= <-]. split; [done|]. intros i y Hi. by destruct i.
  - destruct (f x) as [y0|] eqn:Hx; [|done]. cbn [mbind result_bind].
    destruct (mapR f l) as [ys0|]; [|done]. cbn [mbind result_bind].
    intros [= <-]. destruct (IH ys0 eq_refl) as [Hlen Hall].
    split; [cbn [length]; lia|].
    intros [|i] y Hi; [injection Hi as <-; eauto|by apply Hall].
Qed.

Section Decoders.
Context `{Library}.

(** What one [if k in src: decoded[k] = f(src[k])] does to the keys. *)
Lemma copy_field_dict (d : gmap string value) (k : string)
    (f : value → result value) (m m' : gmap string value) :
  copy_field (VDict d) k f m = Ok m' →
  dom m' = dom m ∪ ({[k]} ∩ dom d)
  ∧ (∀ j, j ≠ k → m' !! j = m !! j)
  ∧ (∀ x, d !! k = Some x → ∃ y, f x = Ok y ∧ m' !! k = Some y).
Proof.
  unfold copy_field. cbn [contains getkey mbind result_bind].
  destruct (d !! k) as [x|] eqn:Hk.
  - rewrite bool_decide_true by done. cbn [mbind result_bind].
    destruct (f x) as [y|] eqn:Hy; [|done]. cbn [mbind result_bind].
    intros [= <-]. split_and!.
    + rewrite dom_insert_L. apply elem_of_dom_2 in Hk. set_solver.
    + intros j Hj. by rewrite lookup_insert_ne.
    + intros ? [= <-]. exists y. by rewrite lookup_insert_eq.
  - rewrite bool_decide_false by (by intros [? ?]).
    intros [= <-]. split_and!; [|done..].
    apply not_elem_of_dom in Hk. set_solver.
Qed.

(** X12.  The decoded action of a dictionary has exactly the keys of
    the action that are among the ten the decoder knows: a field absent
    from the input is absent from the output, nothing is defaulted and an
    unknown field is dropped; [callType] is copied as it is. *)
Theorem decode_trace_action_keys (action decoded : gmap string value) :
  _decode_trace_action (VDict action) = Ok decoded →
  dom decoded
  = dom action ∩ list_to_set ["from"; "gas"; "value"; "callType"; "input"; "to";
                              "init"; "address"; "balance"; "refundAddress"]%string
  ∧ decoded !! "callType"%string = action !! "callType"%string.
Proof.
  unfold _decode_trace_action. intros Hdec.
  repeat match type of Hdec with
         | (copy_field ?src ?k ?f ?m ≫= _) = _ =>
             let m' := fresh "m" in
             let Hm := fresh "Hm" in
             destruct (copy_field src k f m) as [m'|] eqn:Hm; [|done];
             cbn [mbind result_bind] in Hdec;
             apply copy_field_dict in Hm
         end.
  injection Hdec as <-.
  destruct Hm as (D1 & _ & _), Hm0 as (D2 & _ & _), Hm1 as (D3 & _ & _),
    Hm2 as (D4 & _ & C4), Hm3 as (D5 & K5 & _), Hm4 as (D6 & K6 & _),
    Hm5 as (D7 & K7 & _), Hm6 as (D8 & K8 & _), Hm7 as (D9 & K9 & _),
    Hm8 as (D10 & K10 & _).
  split.
  - rewrite D10, D9, D8, D7, D6, D5, D4, D3, D2, D1, dom_empty_L.
    set_solver.
  - rewrite K10, K9, K8, K7, K6, K5 by done.
    destruct (action !! "callType"%string) as [x|] eqn:Hc.
    + destruct (C4 x eq_refl) as (y & [= <-] & ->). done.
    + apply not_elem_of_dom. rewrite D4, D3, D2, D1, dom_empty_L.
      apply not_elem_of_dom in Hc. set_solver.
Qed.

(** X13.  A result without [gasUsed] cannot be decoded (KeyError); a
    decoded result has [gasUsed] and, of [output], [code] and [address],
    exactly those the input has. *)
Theorem decode_trace_result_keys (r : gmap string value) :
  (r !! "gasUsed"%string = None →
   _decode_trace_result (VDict r) = Raise (KeyError "gasUsed"))
  ∧ (∀ decoded, _decode_trace_result (VDict r) = Ok decoded →
       dom decoded
       = {["gasUsed"%string]}
         ∪ dom r ∩ list_to_set ["output"; "code"; "address"]%string
       ∧ ∃ gas_used x, r !! "gasUsed"%string = Some x
                       ∧ int_16 x = Ok gas_used
                       ∧ decoded !! "gasUsed"%string = Some (VInt gas_used)).
Proof.
  unfold _decode_trace_result. cbn [getkey]. split.
  - by intros ->.
  - intros decoded Hdec.
    destruct (r !! "gasUsed"%string) as [x|]; [|done]. cbn [mbind result_bind] in Hdec.
    destruct (int_16 x) as [gas_used|] eqn:Hgas; [|done].
    cbn [mbind result_bind] in Hdec.
    repeat match type of Hdec with
           | (copy_field ?src ?k ?f ?m ≫= _) = _ =>
               let m' := fresh "m" in
               let Hm := fresh "Hm" in
               destruct (copy_field src k f m) as [m'|] eqn:Hm; [|done];
               cbn [mbind result_bind] in Hdec;
               apply copy_field_dict in Hm
           end.
    injection Hdec as <-.
    destruct Hm as (D1 & K1 & _), Hm0 as (D2 & K2 & _), Hm1 as (D3 & K3 & _).
    split.
    + rewrite D3, D2, D1, dom_singleton_L. set_solver.
    + exists gas_used, x. split_and!; [done..|].
      rewrite K3, K2, K1 by done. apply lookup_singleton_eq.
Qed.

(** X14.  When a list of traces decodes, the output has one
    dictionary per input entry, in order, and every input entry is a
    dictionary; each output keeps every key other than [result] and
    [action] as it was, always has an [action], and a [result] that is
    missing or [None] (as for type suicide) is left as it is. *)
Theorem decode_traces_preserves (traces out : list value) :
  _decode_traces (VList traces) = Ok out →
  length out = length traces
  ∧ ∀ i t', out !! i = Some t' →
      ∃ d d', traces !! i = Some (VDict d) ∧ t' = VDict d'
        ∧ (∀ k, k ≠ "result"%string → k ≠ "action"%string → d' !! k = d !! k)
        ∧ is_Some (d' !! "action"%string)
        ∧ (d !! "result"%string = None → d' !! "result"%string = None)
        ∧ (d !! "result"%string = Some VNone → d' !! "result"%string = Some VNone).
Proof.
  unfold _decode_traces. cbn [iter mbind result_bind]. intros Hdec.
  destruct (mapR_lookup _ _ _ Hdec) as [Hlen Hall]. split; [done|].
  intros i t' Hi. destruct (Hall i t' Hi) as (t & Ht & Hbody).
  unfold _decode_traces_body in Hbody.
  destruct t as [| | | | | |d]; try done.
  exists d.
  destruct (d !! "result"%string) as [r|] eqn:Hr.
  - destruct (truthy r) eqn:Htruthy.
    + destruct (_decode_trace_result r) as [r'|]; [|done].
      cbn [mbind result_bind] in Hbody.
      destruct (getkey (VDict d) "action") as [a|]; [|done].
      cbn [mbind result_bind] in Hbody.
      destruct (_decode_trace_action a) as [a'|]; [|done].
      cbn [mbind result_bind] in Hbody. injection Hbody as <-.
      eexists. split_and!; [done|done|..].
      * intros k Hk1 Hk2. by rewrite !lookup_insert_ne.
      * rewrite lookup_insert_eq. eauto.
      * done.
      * intros [= ->]. done.
    + cbn [mbind result_bind] in Hbody.
      destruct (getkey (VDict d) "action") as [a|]; [|done].
      cbn [mbind result_bind] in Hbody.
      destruct (_decode_trace_action a) as [a'|]; [|done].
      cbn [mbind result_bind] in Hbody. injection Hbody as <-.
      eexists. split_and!; [done|done|..].
      * intros k Hk1 Hk2. by rewrite lookup_insert_ne.
      * rewrite lookup_insert_eq. eauto.
      * done.
      * intros [= ->]. by rewrite lookup_insert_ne.
  - cbn [mbind result_bind] in Hbody.
    destruct (getkey (VDict d) "action") as [a|]; [|done].
    cbn [mbind result_bind] in Hbody.
    destruct (_decode_trace_action a) as [a'|]; [|done].
    cbn [mbind result_bind] in Hbody. injection Hbody as <-.
    eexists. split_and!; [done|done|..].
    + intros k Hk1 Hk2. by rewrite lookup_insert_ne.
    + rewrite lookup_insert_eq. eauto.
    + intros _. by rewrite lookup_insert_ne.
    + done.
Qed.

Context (nd : node) (ethereum_node_url : string).

(** X15.  Without a non-empty [from_address] or [to_address]
    (missing, or given as an empty list) [trace_filter] fails with an
    AssertionError and issues no request. *)
Theorem trace_filter_requires_address (from_block : Z) (to_block : option Z)
    (from_address to_address : option (list string)) (after count : option Z)
    (log : list request) :
  from_address = None ∨ from_address = Some [] →
  to_address = None ∨ to_address = Some [] →
  trace_filter nd from_block to_block from_address to_address after count log
  = (Raise (AssertionError "You must provide at least `from_address` or `to_address`"),
     log).
Proof. by intros [-> | ->] [-> | ->]. Qed.

(** X16.  [trace_transaction] sends its request once or twice, never
    more; it sends it twice exactly when decoding the first answer raises
    ParityTraceDecodeException, and what it then returns or raises is the
    decoding of the second answer, whatever that is. *)
Theorem trace_transaction_retries_once (tx_hash : bytes_or_str)
    (log : list request) :
  let req := trace_transaction_request tx_hash in
  let first := nd log req ≫= _decode_traces in
  let outcome := trace_transaction nd tx_hash log in
  (outcome.2 = log ++ [req] ∨ outcome.2 = log ++ [req; req])
  ∧ (outcome.2 = log ++ [req; req]
     ↔ ∃ exc, first = Raise exc ∧ is_parity_decode_error exc = true)
  ∧ (∀ exc, first = Raise exc → is_parity_decode_error exc = true →
            outcome.1 = nd (log ++ [req]) req ≫= _decode_traces)
  ∧ (∀ traces, first = Ok traces → outcome.1 = Ok traces).
Proof.
  intros req first outcome.
  pose proof (TraceFacts.retry_outcome nd req log) as Hout.
  cbv zeta in Hout. fold first in Hout.
  change (trace_transaction nd tx_hash log = match first with
            | Ok traces => (Ok traces, log ++ [req])
            | Raise exc =>
                if is_parity_decode_error exc
                then (nd (log ++ [req]) req ≫= _decode_traces, log ++ [req] ++ [req])
                else (Raise exc, log ++ [req])
            end) in Hout.
  fold outcome in Hout. rewrite Hout.
  assert (log ++ [req] ≠ log ++ [req; req]) as Hne.
  { intros Heq. apply app_inv_head in Heq. done. }
  destruct first as [traces|exc].
  - split_and!; [by left| |done|by intros ? [= <-]].
    split; [done|]. by intros (? & ? & _).
  - destruct (is_parity_decode_error exc) eqn:Hexc.
    + split_and!; [by right| |by intros ? [= <-]|done].
      split; [eauto|done].
    + split_and!; [by left| | |done].
      * split; [done|]. intros (? & [= <-] & ?). congruence.
      * intros ? [= <-] ?. congruence.
Qed.

End Decoders.

Lemma decode_trace_result_keys_witness :
  @_decode_trace_result Fixtures.library (VDict (dict [("output", VStr "0x")]%string))
  = Raise (KeyError "gasUsed")
  ∧ dom (dict [("gasUsed", VInt 0); ("output", VBytes [])]%string)
    = {["gasUsed"%string]}
      ∪ dom (dict [("gasUsed", VStr "0x0"); ("output", VStr "0x")]%string)
        ∩ list_to_set ["output"; "code"; "address"]%string.
Proof.
  split.
  - apply (@decode_trace_result_keys Fixtures.library). reflexivity.
  - apply (@decode_trace_result_keys Fixtures.library
             (dict [("gasUsed", VStr "0x0"); ("output", VStr "0x")]%string)).
    reflexivity.
Defined.

Lemma trace_transaction_retries_once_witness :
  (@trace_transaction Fixtures.library Fixtures.flaky_trace_node (Str "0x01") []).1
  = Fixtures.flaky_trace_node [trace_transaction_request (Str "0x01")]
      (trace_transaction_request (Str "0x01"))
    ≫= @_decode_traces Fixtures.library.
Proof.
  destruct (@trace_transaction_retries_once Fixtures.library Fixtures.flaky_trace_node
              (Str "0x01") []) as (_ & _ & Hretry & _).
  apply (Hretry _ eq_refl eq_refl).
Defined.

Lemma decode_trace_action_keys_witness :
  dom (dict [("callType", VStr "call"); ("gas", VInt 16)]%string)
  = dom (dict [("callType", VStr "call"); ("gas", VStr "0x10"); ("error", VStr "x")]%string)
    ∩ list_to_set ["from"; "gas"; "value"; "callType"; "input"; "to";
                   "init"; "address"; "balance"; "refundAddress"]%string
  ∧ dict [("callType", VStr "call"); ("gas", VInt 16)]%string !! "callType"%string
    = dict [("callType", VStr "call"); ("gas", VStr "0x10"); ("error", VStr "x")]%string
        !! "callType"%string.
Proof.
  apply (@decode_trace_action_keys Fixtures.library
           (dict [("callType", VStr "call"); ("gas", VStr "0x10"); ("error", VStr "x")]%string)).
  vm_compute. reflexivity.
Defined.

Lemma decode_traces_preserves_witness :
  length [VDict (dict [("action", VDict ∅); ("result", VNone); ("type", VStr "suicide")]%string)]
  = length [VDict (dict [("action", VDict ∅); ("result", VNone); ("type", VStr "suicide")]%string)]
  ∧ ∀ i t',
      [VDict (dict [("action", VDict ∅); ("result", VNone); ("type", VStr "suicide")]%string)]
        !! i = Some t' →
      ∃ d d',
        [VDict (dict [("action", VDict ∅); ("result", VNone); ("type", VStr "suicide")]%string)]
          !! i = Some (VDict d)
        ∧ t' = VDict d'
        ∧ (∀ k, k ≠ "result"%string → k ≠ "action"%string → d' !! k = d !! k)
        ∧ is_Some (d' !! "action"%string)
        ∧ (d !! "result"%string = None → d' !! "result"%string = None)
        ∧ (d !! "result"%string = Some VNone → d' !! "result"%string = Some VNone).
Proof.
  apply (@decode_traces_preserves Fixtures.library
           [VDict (dict [("action", VDict ∅); ("result", VNone); ("type", VStr "suicide")]%string)]).
  vm_compute. reflexivity.
Defined.

Lemma trace_filter_requires_address_witness :
  @trace_filter Fixtures.library Fixtures.flaky_trace_node 1 None (Some []) None None None []
  = (Raise (AssertionError "You must provide at least `from_address` or `to_address`"), []).
Proof.
  apply (@trace_filter_requires_address Fixtures.library Fixtures.flaky_trace_node);
    [by right|by left].
Defined.

End TraceMoreFacts.

(* ===================================================================== *)
(** * More on the batched accessors *)
(* ===================================================================== *)

Module BatchMoreFacts.
Import EthereumClient TraceMoreFacts.

Lemma imap_cons_shift {A B} (f : nat → A → B) (x : A) (l : list A) :
  imap f (x :: l) = f 0%nat x :: imap (λ i, f (S i)) l.
Proof. reflexivity. Qed.

(** The payload of a batch over hashes: one query per hash, numbered
    from 0, or the failure of the first hash that is not hexadecimal. *)
Lemma hash_payload_spec (method : string) (tx_hashes : list bytes_or_str) :
  hash_payload method tx_hashes
  = (hashes ← mapR HexBytes tx_hashes;
     Ok (imap (λ i h, batch_query method i [VStr (HexBytes_hex h)]) hashes)).
Proof.
  unfold hash_payload.
  assert (∀ (l : list bytes_or_str) (n : nat),
            mapR (λ '(i, tx_hash),
                    h ← HexBytes tx_hash;
                    Ok (batch_query method i [VStr (HexBytes_hex h)]))
                 (imap (λ i, pair (n + i)%nat) l)
            = (hashes ← mapR HexBytes l;
               Ok (imap (λ i h, batch_query method (n + i) [VStr (HexBytes_hex h)])
                     hashes))) as Hgen.
  { induction l as [|x l IH]; intros n; [done|].
    rewrite imap_cons_shift. cbn [mapR].
    destruct (HexBytes x) as [h|]; [|done]. cbn [mbind result_bind].
    rewrite (imap_ext _ (λ i, pair (S n + i)%nat) l)
      by (intros; f_equal; lia).
    rewrite (IH (S n)).
    destruct (mapR HexBytes l) as [hs|]; [|done]. cbn [mbind result_bind].
    rewrite imap_cons_shift. do 2 f_equal.
    apply imap_ext. intros i y _. f_equal. lia. }
  apply (Hgen tx_hashes 0%nat).
Qed.

Section Batches.
Context `{Library} (nd : node) (ethereum_node_url : string).

(** What each accessor over hashes does on a non-empty input: nothing
    is sent when a hash is not hexadecimal; otherwise the batch is sent
    and the answer decoded entry by entry. *)
Lemma get_transactions_outcome (tx_hashes : list bytes_or_str) (log : list request) :
  tx_hashes ≠ [] →
  get_transactions nd ethereum_node_url tx_hashes log
  = match hash_payload "eth_getTransactionByHash" tx_hashes with
    | Raise e => (Raise e, log)
    | Ok payload =>
        (reply ← nd log (HttpPost ethereum_node_url (VList payload));
         results ← iter reply;
         mapR get_transactions_body results,
         log ++ [HttpPost ethereum_node_url (VList payload)])
    end.
Proof.
  intros Hne. unfold get_transactions. destruct tx_hashes as [|h hs]; [done|].
  unfold lift, call, mbind at 1 2, M_bind.
  destruct (hash_payload _ _) as [payload|]; [|done].
  by destruct (nd log _).
Qed.

Lemma get_transaction_receipts_outcome (tx_hashes : list bytes_or_str)
    (log : list request) :
  tx_hashes ≠ [] →
  get_transaction_receipts nd ethereum_node_url tx_hashes log
  = match hash_payload "eth_getTransactionReceipt" tx_hashes with
    | Raise e => (Raise e, log)
    | Ok payload =>
        (reply ← nd log (HttpPost ethereum_node_url (VList payload));
         results ← iter reply;
         mapR get_transaction_receipts_body results,
         log ++ [HttpPost ethereum_node_url (VList payload)])
    end.
Proof.
  intros Hne. unfold get_transaction_receipts. destruct tx_hashes as [|h hs]; [done|].
  unfold lift, call, mbind at 1 2, M_bind.
  destruct (hash_payload _ _) as [payload|]; [|done].
  by destruct (nd log _).
Qed.

Lemma trace_transactions_outcome (tx_hashes : list bytes_or_str) (log : list request) :
  tx_hashes ≠ [] →
  trace_transactions nd ethereum_node_url tx_hashes log
  = match hash_payload "trace_transaction" tx_hashes with
    | Raise e => (Raise e, log)
    | Ok payload =>
        (reply ← nd log (HttpPost ethereum_node_url (VList payload));
         results ← iter reply;
         mapR trace_transactions_body results,
         log ++ [HttpPost ethereum_node_url (VList payload)])
    end.
Proof.
  intros Hne. unfold trace_transactions. destruct tx_hashes as [|h hs]; [done|].
  unfold lift, call, mbind at 1 2, M_bind.
  destruct (hash_payload _ _) as [payload|]; [|done].
  by destruct (nd log _).
Qed.

(** X17.  On a non-empty list of hashes, [get_transactions],
    [get_transaction_receipts] and [trace_transactions] each send exactly
    one batch, whose i-th query is the JSON-RPC 2.0 call of their method
    ([eth_getTransactionByHash], [eth_getTransactionReceipt],
    [trace_transaction]) with id i and, as its one parameter, the "0x"
    hexadecimal text of the i-th hash; when some hash is not hexadecimal
    they fail with that ValueError and send nothing. *)
Theorem hash_batches_request (tx_hashes : list bytes_or_str) (log : list request) :
  tx_hashes ≠ [] →
  let payload (method : string) (hashes : list bytes) :=
    VList (imap (λ (i : nat) (h : bytes),
                   VDict (dict [("id", VInt (Z.of_nat i));
                                ("jsonrpc", VStr "2.0");
                                ("method", VStr method);
                                ("params", VList [VStr (HexBytes_hex h)])]%string))
                hashes) in
  (∀ hashes, mapR HexBytes tx_hashes = Ok hashes →
     (get_transactions nd ethereum_node_url tx_hashes log).2
     = log ++ [HttpPost ethereum_node_url (payload "eth_getTransactionByHash" hashes)]
     ∧ (get_transaction_receipts nd ethereum_node_url tx_hashes log).2
       = log ++ [HttpPost ethereum_node_url (payload "eth_getTransactionReceipt" hashes)]
     ∧ (trace_transactions nd ethereum_node_url tx_hashes log).2
       = log ++ [HttpPost ethereum_node_url (payload "trace_transaction" hashes)])
  ∧ (∀ e, mapR HexBytes tx_hashes = Raise e →
       get_transactions nd ethereum_node_url tx_hashes log = (Raise e, log)
       ∧ get_transaction_receipts nd ethereum_node_url tx_hashes log = (Raise e, log)
       ∧ trace_transactions nd ethereum_node_url tx_hashes log = (Raise e, log)).
Proof.
  intros Hne payload.
  rewrite get_transactions_outcome, get_transaction_receipts_outcome,
    trace_transactions_outcome by done.
  rewrite !hash_payload_spec. split.
  - intros hashes ->. done.
  - intros e ->. done.
Qed.

(** X18.  The list [get_transactions] returns follows the answer of
    the node entry by entry: as many entries, in the same order, [None]
    where the node's result is null (or otherwise false), and the
    formatted transaction elsewhere. *)
Theorem get_transactions_aligned (tx_hashes : list bytes_or_str) (log : list request)
    (hashes : list bytes) (results txs : list value) :
  tx_hashes ≠ [] →
  mapR HexBytes tx_hashes = Ok hashes →
  nd log (HttpPost ethereum_node_url
            (VList (imap (λ i h, batch_query "eth_getTransactionByHash" i
                                   [VStr (HexBytes_hex h)]) hashes)))
  = Ok (VList results) →
  (get_transactions nd ethereum_node_url tx_hashes log).1 = Ok txs →
  length txs = length results
  ∧ ∀ i tx, txs !! i = Some tx →
      ∃ r raw_tx, results !! i = Some r
        ∧ getkey r "result" = Ok raw_tx
        ∧ (truthy raw_tx = false → tx = VNone)
        ∧ (truthy raw_tx = true → transaction_formatter raw_tx = Ok tx).
Proof.
  intros Hne Hhashes Hreply.
  rewrite get_transactions_outcome, hash_payload_spec, Hhashes by done.
  cbn [mbind result_bind fst]. rewrite Hreply. cbn [mbind result_bind iter].
  intros Htxs. destruct (mapR_lookup _ _ _ Htxs) as [Hlen Hall].
  split; [done|]. intros i tx Hi.
  destruct (Hall i tx Hi) as (r & Hr & Hbody). exists r.
  unfold get_transactions_body in Hbody.
  destruct (getkey r "result") as [raw_tx|]; [|done]. cbn [mbind result_bind] in Hbody.
  exists raw_tx. split_and!; [done..| |].
  - intros Hfalse. rewrite Hfalse in Hbody. by injection Hbody as <-.
  - intros Htrue. by rewrite Htrue in Hbody.
Qed.

(** X19.  In [get_transaction_receipts], a receipt that the node
    returns for a transaction still pending (its [blockNumber] is [None])
    is reported as [None], like a missing receipt, and is never handed to
    the formatter; only mined receipts are formatted. *)
Theorem get_transaction_receipts_pending (r : value) :
  (∀ tx_receipt, getkey r "result" = Ok tx_receipt → truthy tx_receipt = false →
     get_transaction_receipts_body r = Ok VNone)
  ∧ (∀ tx_receipt, getkey r "result" = Ok tx_receipt → truthy tx_receipt = true →
       getkey tx_receipt "blockNumber" = Ok VNone →
       get_transaction_receipts_body r = Ok VNone)
  ∧ (∀ tx_receipt block_number,
       getkey r "result" = Ok tx_receipt → truthy tx_receipt = true →
       getkey tx_receipt "blockNumber" = Ok block_number → block_number ≠ VNone →
       get_transaction_receipts_body r = receipt_formatter tx_receipt)
  ∧ (∀ tx_hashes log hashes results receipts,
       tx_hashes ≠ [] →
       mapR HexBytes tx_hashes = Ok hashes →
       nd log (HttpPost ethereum_node_url
                 (VList (imap (λ i h, batch_query "eth_getTransactionReceipt" i
                                        [VStr (HexBytes_hex h)]) hashes)))
       = Ok (VList results) →
       (get_transaction_receipts nd ethereum_node_url tx_hashes log).1 = Ok receipts →
       length receipts = length results
       ∧ ∀ i receipt, receipts !! i = Some receipt →
           ∃ r', results !! i = Some r'
                 ∧ get_transaction_receipts_body r' = Ok receipt).
Proof.
  unfold get_transaction_receipts_body. split_and!.
  - intros tx_receipt -> Hfalse. cbn [mbind result_bind]. by rewrite Hfalse.
  - intros tx_receipt -> Htrue Hbn. cbn [mbind result_bind].
    by rewrite Htrue, Hbn.
  - intros tx_receipt block_number -> Htrue Hbn Hmined. cbn [mbind result_bind].
    rewrite Htrue, Hbn. cbn [mbind result_bind]. by destruct block_number.
  - intros tx_hashes log hashes results receipts Hne Hhashes Hreply.
    rewrite get_transaction_receipts_outcome, hash_payload_spec, Hhashes by done.
    cbn [mbind result_bind fst]. rewrite Hreply. cbn [mbind result_bind iter].
    intros Hout. destruct (mapR_lookup _ _ _ Hout) as [Hlen Hall].
    split; [done|]. intros i receipt Hi.
    destruct (Hall i receipt Hi) as (r' & Hr' & Hbody). eauto.
Qed.


End Batches.

Lemma hash_batches_request_witness :
  ((@get_transactions Fixtures.library Fixtures.empty_balance_node Fixtures.url
      [Str "0x0a"; Bytes [x0b]] []).2
   = [HttpPost Fixtures.url
        (VList [VDict (dict [("id", VInt 0); ("jsonrpc", VStr "2.0");
                              ("method", VStr "eth_getTransactionByHash");
                              ("params", VList [VStr "0x0a"])]%string);
                VDict (dict [("id", VInt 1); ("jsonrpc", VStr "2.0");
                              ("method", VStr "eth_getTransactionByHash");
                              ("params", VList [VStr "0x0b"])]%string)])]
   ∧ (@get_transaction_receipts Fixtures.library Fixtures.empty_balance_node Fixtures.url
        [Str "0x0a"; Bytes [x0b]] []).2
     = [HttpPost Fixtures.url
        (VList [VDict (dict [("id", VInt 0); ("jsonrpc", VStr "2.0");
                              ("method", VStr "eth_getTransactionReceipt");
                              ("params", VList [VStr "0x0a"])]%string);
                VDict (dict [("id", VInt 1); ("jsonrpc", VStr "2.0");
                              ("method", VStr "eth_getTransactionReceipt");
                              ("params", VList [VStr "0x0b"])]%string)])]
   ∧ (@trace_transactions Fixtures.library Fixtures.empty_balance_node Fixtures.url
        [Str "0x0a"; Bytes [x0b]] []).2
     = [HttpPost Fixtures.url
        (VList [VDict (dict [("id", VInt 0); ("jsonrpc", VStr "2.0");
                              ("method", VStr "trace_transaction");
                              ("params", VList [VStr "0x0a"])]%string);
                VDict (dict [("id", VInt 1); ("jsonrpc", VStr "2.0");
                              ("method", VStr "trace_transaction");
                              ("params", VList [VStr "0x0b"])]%string)])])
  ∧ @get_transactions Fixtures.library Fixtures.empty_balance_node Fixtures.url
      [Str "0xzz"] []
    = (Raise (ValueError "Non-hexadecimal digit found"), []).
Proof.
  split.
  - destruct (@hash_batches_request Fixtures.library Fixtures.empty_balance_node
                Fixtures.url [Str "0x0a"; Bytes [x0b]] []) as [Hsent _]; [done|].
    exact (Hsent [[x0a]; [x0b]] eq_refl).
  - destruct (@hash_batches_request Fixtures.library Fixtures.empty_balance_node
                Fixtures.url [Str "0xzz"] []) as [_ Hfails]; [done|].
    apply Hfails. reflexivity.
Defined.

Lemma get_transactions_aligned_witness :
  length [VNone] = length [VDict (dict [("id", VInt 0); ("result", VNone)]%string)]
  ∧ ∀ i tx, [VNone] !! i = Some tx →
      ∃ r raw_tx,
        [VDict (dict [("id", VInt 0); ("result", VNone)]%string)] !! i = Some r
        ∧ getkey r "result" = Ok raw_tx
        ∧ (truthy raw_tx = false → tx = VNone)
        ∧ (truthy raw_tx = true
           → @transaction_formatter Fixtures.library raw_tx = Ok tx).
Proof.
  apply (@get_transactions_aligned Fixtures.library
           (λ _ _, Ok (VList [VDict (dict [("id", VInt 0); ("result", VNone)]%string)]))
           Fixtures.url [Str "0x0a"] [] [[x0a]]); [done|reflexivity..].
Defined.

Lemma get_transaction_receipts_pending_witness :
  @get_transaction_receipts_body Fixtures.library
    (VDict (dict [("result", VDict (dict [("blockNumber", VNone); ("status", VInt 1)]))]%string))
  = Ok VNone
  ∧ @get_transaction_receipts_body Fixtures.library
      (VDict (dict [("result", VDict (dict [("blockNumber", VInt 7)]))]%string))
    = @receipt_formatter Fixtures.library (VDict (dict [("blockNumber", VInt 7)]%string))
  ∧ @get_transaction_receipts_body Fixtures.library
      (VDict (dict [("result", VNone)]%string))
    = Ok VNone.
Proof.
  split_and!.
  - destruct (@get_transaction_receipts_pending Fixtures.library
                Fixtures.empty_balance_node Fixtures.url
                (VDict (dict [("result",
                               VDict (dict [("blockNumber", VNone); ("status", VInt 1)]))]%string)))
      as (_ & Hpending & _).
    apply (Hpending _ eq_refl); reflexivity.
  - destruct (@get_transaction_receipts_pending Fixtures.library
                Fixtures.empty_balance_node Fixtures.url
                (VDict (dict [("result", VDict (dict [("blockNumber", VInt 7)]))]%string)))
      as (_ & _ & Hmined & _).
    apply (Hmined _ (VInt 7) eq_refl); [reflexivity..|discriminate].
  - destruct (@get_transaction_receipts_pending Fixtures.library
                Fixtures.empty_balance_node Fixtures.url
                (VDict (dict [("result", VNone)]%string)))
      as (Hmissing & _).
    apply (Hmissing _ eq_refl). reflexivity.
Defined.


End BatchMoreFacts.

(* ===================================================================== *)
(** * More on send_unsigned_transaction *)
(* ===================================================================== *)

Module SubmissionMoreFacts.
Import EthereumClient EthereumClientRest Spec ClassifierMoreFacts.

Section Loop.
Context `{Library} (nd : node).

Lemma bind_run {A B} (m : M A) (f : A → M B) (log : list request) :
  (m ≫= f) log
  = match m log with
    | (Ok a, log') => f a log'
    | (Raise e, log') => (Raise e, log')
    end.
Proof. reflexivity. Qed.

Lemma bind_lift {A B} (r : result A) (f : A → M B) (log : list request) :
  (lift r ≫= f) log
  = match r with
    | Ok a => f a log
    | Raise e => (Raise e, log)
    end.
Proof. unfold mbind, M_bind, lift. by destruct r. Qed.

(** A wrapped request: one request, and the failure classified. *)
Lemma wrapped_call (r : request) (log : list request) :
  tx_with_exception_handling (call nd r) log
  = match nd log r with
    | Ok v => (Ok v, log ++ [r])
    | Raise exc => (Raise (classified exc), log ++ [r])
    end.
Proof.
  rewrite wrapper_outcome. unfold call, classified.
  destruct (nd log r) as [v|exc]; [done|].
  destruct (as_ValueError exc) as [msg|]; [|done].
  by destruct (first_reason _ _).
Qed.

Lemma getkey_not_underpriced (v : value) (k : string) (exc : exn) :
  getkey v k = Raise exc → is_underpriced exc = false.
Proof.
  destruct v as [| | | | | |d]; cbn [getkey]; try by intros [= <-].
  destruct (d !! k); [done|]. by intros [= <-].
Qed.

Lemma raise_outcome (tx : gmap string value) (retry : bool) (number_errors : Z)
    (exc : exn) (extra : list request) :
  (length extra ≤ 2)%nat →
  (retry = false ∨ number_errors = 0 → (length extra ≤ 1)%nat) →
  pass_outcome nd tx retry number_errors (Raise exc) extra.
Proof. intros Hextra Hone. right. left. eauto. Qed.

(** What the two [except] clauses of the loop do with a failure. *)
Lemma handlers_outcome (retry : bool) (block_identifier : option string)
    (address : string) (tx tx' : gmap string value) (number_errors : Z)
    (exc : exn) (log log0 extra0 : list request) :
  log0 = log ++ extra0 →
  (length extra0 ≤ 1)%nat →
  (∃ key, sign_transaction tx key = Raise exc)
  ∨ (∃ l q exc0, nd l q = Raise exc0 ∧ exc = classified exc0)
  ∨ is_underpriced exc = false →
  ∃ r extra,
    match
      match exc with
      | EthereumClientException ReplacementTransactionUnderpriced _ =>
          Some (if negb retry || (number_errors =? 0) then raise exc
                else
                  current_nonce ← lift (getkey (VDict tx') "nonce");
                  next_nonce ← lift (add_one current_nonce);
                  fresh ← get_nonce_for_account nd address block_identifier;
                  nonce ← lift (max_with next_nonce fresh);
                  mret (Again (<["nonce"%string := nonce]> tx') number_errors))
      | EthereumClientException InvalidNonce _ =>
          Some (if negb retry || (number_errors =? 0) then raise exc
                else
                  _ ← lift (getkey (VDict tx') "nonce");
                  fresh ← get_nonce_for_account nd address block_identifier;
                  mret (Again (<["nonce"%string := fresh]> tx') (number_errors - 1)))
      | _ => None
      end
    with
    | Some handler => handler log0
    | None => (Raise exc, log0)
    end = (r, log ++ extra)
    ∧ pass_outcome nd tx retry number_errors r extra.
Proof.
  intros -> Hextra0 Horigin.
  assert (∀ e : exn,
            ∃ r extra,
              (Raise e : result iteration, log ++ extra0) = (r, log ++ extra)
              ∧ pass_outcome nd tx retry number_errors r extra) as Hraise.
  { intros e. exists (Raise e), extra0. split; [done|].
    apply raise_outcome; [lia|done]. }
  destruct exc as [ | | | | | |kind msg| | | | ]; try apply Hraise.
  destruct kind; try apply Hraise.
  - (* ReplacementTransactionUnderpriced *)
    destruct retry; [|apply Hraise]. cbn [negb orb].
    destruct (Z.eqb_spec number_errors 0) as [Hz|Hnz]; [apply Hraise|].
    rewrite bind_lift.
    destruct (getkey (VDict tx') "nonce") as [current|e]; [|apply Hraise].
    rewrite bind_lift.
    destruct (add_one current) as [next|e]; [|apply Hraise].
    rewrite bind_run. unfold get_nonce_for_account, call.
    destruct (nd _ _) as [fresh|e].
    2:{ eexists (Raise e), _. rewrite <- app_assoc. split; [done|].
        apply raise_outcome; [rewrite length_app; cbn; lia|].
        by intros [?|?]. }
    rewrite bind_lift.
    destruct (max_with next fresh) as [nonce|e].
    2:{ eexists (Raise e), _. rewrite <- app_assoc. split; [done|].
        apply raise_outcome; [rewrite length_app; cbn; lia|].
        by intros [?|?]. }
    eexists _, _. rewrite <- app_assoc. split; [done|].
    do 3 right.
    eexists _, (EthereumClientException ReplacementTransactionUnderpriced msg).
    split_and!; [done..|].
    destruct Horigin as [Hs|[Hn|Hf]]; [by left|by right|done].
  - (* InvalidNonce *)
    destruct retry; [|apply Hraise]. cbn [negb orb].
    destruct (Z.eqb_spec number_errors 0) as [Hz|Hnz]; [apply Hraise|].
    rewrite bind_lift.
    destruct (getkey (VDict tx') "nonce") as [current|e]; [|apply Hraise].
    rewrite bind_run. unfold get_nonce_for_account, call.
    destruct (nd _ _) as [fresh|e].
    2:{ eexists (Raise e), _. rewrite <- app_assoc. split; [done|].
        apply raise_outcome; [rewrite length_app; cbn; lia|].
        by intros [?|?]. }
    eexists _, _. rewrite <- app_assoc. split; [done|].
    right. right. left. eexists. split_and!; [done..|].
    rewrite length_app. cbn. lia.
Qed.

(** One pass of the loop, whatever the node and the signer do. *)
Lemma send_iteration_outcome (private_key public_key : option string) (retry : bool)
    (block_identifier : option string) (address : string)
    (tx : gmap string value) (number_errors : Z) (log : list request) :
  str_truthy private_key || str_truthy public_key = true →
  ∃ r extra,
    send_iteration nd private_key public_key retry block_identifier address tx
      number_errors log = (r, log ++ extra)
    ∧ pass_outcome nd tx retry number_errors r extra.
Proof.
  intros Hkey.
  unfold send_iteration, try_except at 1.
  destruct (str_truthy private_key) eqn:Hpk.
  - (* signed locally *)
    rewrite bind_lift.
    destruct (sign_transaction tx (default EmptyString private_key))
      as [[raw h]|exc] eqn:Hsign.
    + rewrite bind_lift.
      destruct (getkey (VDict tx) "value") as [v|exc] eqn:Hvalue.
      2:{ apply (handlers_outcome _ _ _ _ _ _ _ _ _ []);
            [by rewrite app_nil_r|cbn; lia|].
          right. right. by eapply getkey_not_underpriced. }
      rewrite bind_lift.
      destruct (getkey (VDict tx) "to") as [t|exc] eqn:Hto.
      2:{ apply (handlers_outcome _ _ _ _ _ _ _ _ _ []);
            [by rewrite app_nil_r|cbn; lia|].
          right. right. by eapply getkey_not_underpriced. }
      rewrite bind_run. unfold try_except at 1, send_raw_transaction.
      rewrite wrapped_call. cbn [fst snd].
      destruct (nd log _) as [reply|exc0] eqn:Hnd.
      * eexists _, _. split; [done|]. left. eexists. split; [done|]. cbn; lia.
      * destruct (classified exc0) as [ | | | | | |kind msg| | | | ] eqn:Hclass;
          try (eexists _, _; split; [done|]; apply raise_outcome; cbn; lia).
        destruct kind;
          try (match type of Hclass with
               | _ = ?exc =>
                   match type of Hnd with
                   | nd _ ?q = _ =>
                       apply (handlers_outcome retry block_identifier address
                                tx tx number_errors exc log (log ++ [q]) [q])
                   end
               end;
               [done|cbn; lia|]; right; left;
               eexists _, _, _; split; [done|by rewrite Hclass]);
          try (eexists _, _; split; [done|]; apply raise_outcome; cbn; lia).
        eexists _, _. split; [done|]. left. eexists. split; [done|]. cbn; lia.
    + apply (handlers_outcome _ _ _ _ _ _ _ _ _ []);
        [by rewrite app_nil_r|cbn; lia|]. left. eauto.
  - (* signed by the node *)
    cbn [orb] in Hkey. rewrite Hkey.
    rewrite bind_run. unfold send_transaction.
    rewrite wrapped_call.
    destruct (nd log _) as [reply|exc0] eqn:Hnd.
    + eexists _, _. split; [done|]. left. eexists. split; [done|]. cbn; lia.
    + eapply handlers_outcome; [done|cbn; lia|]. right. left.
      eexists _, _, _. split; [done|done].
Qed.

(** Without [retry] the loop is left in its first pass. *)
Lemma send_loop_no_retry (fuel : nat) (private_key public_key : option string)
    (block_identifier : option string) (address : string)
    (tx : gmap string value) (number_errors : Z) (log : list request) :
  str_truthy private_key || str_truthy public_key = true →
  0 ≤ number_errors →
  ∃ r extra,
    send_loop nd (S fuel) private_key public_key false block_identifier
      address tx number_errors log = Some (r, log ++ extra)
    ∧ (length extra ≤ 1)%nat.
Proof.
  intros Hkey Hn. cbn [send_loop].
  replace (number_errors >=? 0) with true by lia.
  destruct (send_iteration_outcome private_key public_key false block_identifier
              address tx number_errors log Hkey) as (r & extra & -> & Hout).
  destruct Hout as [(h & -> & Hlen)|[(exc & -> & _ & Hlen)
                   |[(tx' & _ & [=] & _)|(tx' & exc & _ & [=] & _)]]].
  - by eexists _, _.
  - eexists _, _. split; [done|]. apply Hlen. by left.
Qed.

(** With a node and a signer that never report an underpriced
    replacement, [k] errors are used up in at most [k + 1] passes. *)
Lemma send_loop_bounded (private_key public_key : option string) (retry : bool)
    (block_identifier : option string) (address : string) :
  never_underpriced nd →
  (∀ tx key exc, sign_transaction tx key = Raise exc → is_underpriced exc = false) →
  str_truthy private_key || str_truthy public_key = true →
  ∀ (k fuel : nat) (tx : gmap string value) (log : list request),
    (k < fuel)%nat →
    ∃ r extra,
      send_loop nd fuel private_key public_key retry block_identifier
        address tx (Z.of_nat k) log = Some (r, log ++ extra)
      ∧ (length extra ≤ 2 * k + 1)%nat.
Proof.
  intros Hnode Hsigner Hkey k.
  assert (∀ n : nat, (Z.of_nat n >=? 0) = true) as Hge
    by (intros n; apply Z.geb_le; lia).
  assert (∀ (n : Z) tx exc,
            is_underpriced exc = true →
            (∃ key, sign_transaction tx key = Raise exc)
            ∨ (∃ log request exc0,
                 nd log request = Raise exc0 ∧ exc = classified exc0) →
            False) as Hnever.
  { intros n tx exc Hunder [[key Hs]|(l & q & exc0 & Hnd & ->)].
    - apply Hsigner in Hs. congruence.
    - apply Hnode in Hnd. congruence. }
  induction k as [|k IH]; intros fuel tx log Hfuel;
    (destruct fuel as [|fuel]; [lia|]); cbn [send_loop]; rewrite Hge.
  - destruct (send_iteration_outcome private_key public_key retry
                block_identifier address tx (Z.of_nat 0) log Hkey)
      as (r & extra & -> & Hout).
    destruct Hout as [(h & -> & Hlen)|[(exc & -> & Hlen & Hone)
                     |[(tx' & -> & _ & Hnz & Hlen)
                      |(tx' & exc & _ & _ & _ & Hunder & Horigin)]]].
    + exists (Ok h), extra. split; [done|lia].
    + exists (Raise exc), extra. split; [done|].
      rewrite Nat.mul_0_r. apply Hone. by right.
    + done.
    + by destruct (Hnever 0 tx exc).
  - destruct (send_iteration_outcome private_key public_key retry
                block_identifier address tx (Z.of_nat (S k)) log Hkey)
      as (r & extra & -> & Hout).
    destruct Hout as [(h & -> & Hlen)|[(exc & -> & Hlen & Hone)
                     |[(tx' & -> & _ & Hnz & Hlen)
                      |(tx' & exc & _ & _ & _ & Hunder & Horigin)]]].
    + exists (Ok h), extra. split; [done|lia].
    + exists (Raise exc), extra. split; [done|lia].
    + replace (Z.of_nat (S k) - 1) with (Z.of_nat k) by lia.
      destruct (IH fuel tx' (log ++ extra) ltac:(lia))
        as (r & extra' & -> & Hlen').
      exists r, (extra ++ extra'). rewrite app_assoc. split; [done|].
      rewrite length_app. lia.
    + by destruct (Hnever 0 tx exc).
Qed.

(** [send_unsigned_transaction] up to its loop: it fails with at most
    one request issued, or enters the loop with a key, five errors left
    and at most one request issued. *)
Lemma send_unsigned_prelude (fuel : nat) (tx : gmap string value)
    (private_key public_key : option string) (retry : bool)
    (block_identifier : option string) (log : list request) :
  (∃ exc extra,
     send_unsigned_transaction nd fuel tx private_key public_key retry
       block_identifier log = Some (Raise exc, log ++ extra)
     ∧ (length extra ≤ 1)%nat)
  ∨ (∃ address tx' extra,
       str_truthy private_key || str_truthy public_key = true
       ∧ (length extra ≤ 1)%nat
       ∧ send_unsigned_transaction nd fuel tx private_key public_key retry
           block_identifier log
         = send_loop nd fuel private_key public_key retry block_identifier
             address tx' 5 (log ++ extra)).
Proof.
  assert (∀ address,
            ∃ r extra,
              (nonce ← get_nonce_for_account nd address block_identifier;
               mret (<["nonce"%string := nonce]> tx)) log = (r, log ++ extra)
              ∧ (length extra ≤ 1)%nat) as Hquery.
  { intros address. rewrite bind_run. unfold get_nonce_for_account, call.
    destruct (nd _ _); by eexists _, _. }
  assert (∀ address,
            str_truthy private_key || str_truthy public_key = true →
            (∃ exc extra,
               match
                 match tx !! "nonce"%string with
                 | None | Some VNone =>
                     nonce ← get_nonce_for_account nd address block_identifier;
                     mret (<["nonce"%string := nonce]> tx)
                 | Some _ => mret tx
                 end log
               with
               | (Raise e, log') => Some (Raise e, log')
               | (Ok tx, log') =>
                   send_loop nd fuel private_key public_key retry
                     block_identifier address tx 5 log'
               end = Some (Raise exc, log ++ extra)
               ∧ (length extra ≤ 1)%nat)
            ∨ (∃ address' tx' extra,
                 str_truthy private_key || str_truthy public_key = true
                 ∧ (length extra ≤ 1)%nat
                 ∧ match
                     match tx !! "nonce"%string with
                     | None | Some VNone =>
                         nonce ← get_nonce_for_account nd address block_identifier;
                         mret (<["nonce"%string := nonce]> tx)
                     | Some _ => mret tx
                     end log
                   with
                   | (Raise e, log') => Some (Raise e, log')
                   | (Ok tx, log') =>
                       send_loop nd fuel private_key public_key retry
                         block_identifier address tx 5 log'
                   end
                   = send_loop nd fuel private_key public_key retry
                       block_identifier address' tx' 5 (log ++ extra))) as Hloop.
  { intros address Hkey.
    destruct (Hquery address) as (rq & extraq & Hq & Hlenq).
    destruct (tx !! "nonce"%string) as [[]|] eqn:Hnonce.
    all: try (rewrite Hq; destruct rq as [tx'|exc];
              [right; by exists address, tx', extraq
              |left; by exists exc, extraq]).
    all: right; exists address, tx, []; rewrite app_nil_r; split_and!;
      [done|cbn; lia|done]. }
  unfold send_unsigned_transaction. cbv zeta.
  destruct (str_truthy private_key) eqn:Hpk.
  - destruct (private_key_to_address (default EmptyString private_key))
      as [address|exc].
    + apply Hloop. reflexivity.
    + left. exists exc, []. rewrite app_nil_r. split; [done|cbn; lia].
  - destruct (str_truthy public_key) eqn:Hpub.
    + apply Hloop. reflexivity.
    + left. exists (ValueError
        "Ethereum account was not configured or unlocked in the node"), [].
      rewrite app_nil_r. split; [done|cbn; lia].
Qed.

(** X21.  Without [retry], [send_unsigned_transaction] never loops: for
    every node, signer, transaction and keys it returns or raises within
    the first pass, having issued at most two requests (the nonce query and
    one submission). *)
Theorem no_retry_single_pass (fuel : nat) (tx : gmap string value)
    (private_key public_key : option string)
    (block_identifier : option string) (log : list request) :
  ∃ r extra,
    send_unsigned_transaction nd (S fuel) tx private_key public_key false
      block_identifier log = Some (r, log ++ extra)
    ∧ (length extra ≤ 2)%nat.
Proof.
  destruct (send_unsigned_prelude (S fuel) tx private_key public_key false
              block_identifier log)
    as [(exc & extra & -> & Hlen)|(address & tx' & extra & Hkey & Hlen & ->)].
  - exists (Raise exc), extra. split; [done|lia].
  - destruct (send_loop_no_retry fuel private_key public_key block_identifier
                address tx' 5 (log ++ extra) Hkey ltac:(lia))
      as (r & extra' & -> & Hlen').
    exists r, (extra ++ extra'). rewrite app_assoc. split; [done|].
    rewrite length_app. lia.
Qed.

(** X22.  With a private key, when the node's answer to the raw
    submission is classified as TransactionAlreadyImported, the hash of the
    locally signed transaction is returned, whatever [retry] is, after that
    one request. *)
Theorem already_imported_returns_signed_hash (fuel : nat) (tx : gmap string value)
    (private_key public_key : option string) (retry : bool)
    (block_identifier : option string) (log : list request)
    (address msg : string) (nonce amount recipient : value)
    (raw tx_hash : bytes) (exc : exn) :
  str_truthy private_key = true →
  private_key_to_address (default EmptyString private_key) = Ok address →
  tx !! "nonce"%string = Some nonce →
  nonce ≠ VNone →
  tx !! "value"%string = Some amount →
  tx !! "to"%string = Some recipient →
  sign_transaction tx (default EmptyString private_key) = Ok (raw, tx_hash) →
  nd log (Rpc Default "eth_sendRawTransaction" [VBytes raw]) = Raise exc →
  classified exc = EthereumClientException TransactionAlreadyImported msg →
  send_unsigned_transaction nd (S fuel) tx private_key public_key retry
    block_identifier log
  = Some (Ok (VBytes tx_hash),
          log ++ [Rpc Default "eth_sendRawTransaction" [VBytes raw]]).
Proof.
  intros Hpk Haddress Hnonce Hset Hvalue Hto Hsign Hnd Hclass.
  unfold send_unsigned_transaction. rewrite Hpk, Haddress, Hnonce.
  assert (match nonce with
          | VNone => nonce ← get_nonce_for_account nd address block_identifier;
                     mret (<["nonce"%string := nonce]> tx)
          | _ => mret tx
          end = mret tx) as -> by by destruct nonce.
  cbv zeta. unfold mret at 1, M_ret. cbn [send_loop].
  change (5 >=? 0) with true. cbv iota.
  unfold send_iteration. rewrite Hpk. unfold try_except at 1.
  rewrite bind_lift, Hsign, bind_lift. unfold getkey at 1. rewrite Hvalue.
  rewrite bind_lift. unfold getkey at 1. rewrite Hto.
  rewrite bind_run. unfold try_except at 1, send_raw_transaction.
  rewrite wrapped_call. cbn [fst]. rewrite Hnd, Hclass. reflexivity.
Qed.

(** X23.  When no answer of the node is classified as
    ReplacementTransactionUnderpriced and the signer raises no such
    exception, [send_unsigned_transaction] ends within six passes of its
    loop, with or without [retry]: it returns or raises after at most
    twelve requests. *)
Theorem retries_bounded (fuel : nat) (tx : gmap string value)
    (private_key public_key : option string) (retry : bool)
    (block_identifier : option string) (log : list request) :
  never_underpriced nd →
  (∀ tx key exc, sign_transaction tx key = Raise exc → is_underpriced exc = false) →
  (6 ≤ fuel)%nat →
  ∃ r extra,
    send_unsigned_transaction nd fuel tx private_key public_key retry
      block_identifier log = Some (r, log ++ extra)
    ∧ (length extra ≤ 12)%nat.
Proof.
  intros Hnode Hsigner Hfuel.
  destruct (send_unsigned_prelude fuel tx private_key public_key retry
              block_identifier log)
    as [(exc & extra & -> & Hlen)|(address & tx' & extra & Hkey & Hlen & ->)].
  - exists (Raise exc), extra. split; [done|lia].
  - destruct (send_loop_bounded private_key public_key retry block_identifier
                address Hnode Hsigner Hkey 5 fuel tx' (log ++ extra) ltac:(lia))
      as (r & extra' & Hloop & Hlen').
    change (Z.of_nat 5) with 5 in Hloop. rewrite Hloop.
    exists r, (extra ++ extra'). rewrite app_assoc. split; [done|].
    rewrite length_app. lia.
Qed.

End Loop.

Lemma already_imported_returns_signed_hash_witness :
  @send_unsigned_transaction Fixtures.library Fixtures.already_imported_node
    1 (<["nonce"%string := VInt 0]> Fixtures.eth_transfer)
    (Some "1"%string) None true Fixtures.pending []
  = Some (Ok (VBytes [x02]),
          [] ++ [Rpc Default "eth_sendRawTransaction" [VBytes [x01]]]).
Proof.
  apply (@already_imported_returns_signed_hash Fixtures.library
           Fixtures.already_imported_node 0
           (<["nonce"%string := VInt 0]> Fixtures.eth_transfer)
           (Some "1"%string) None true Fixtures.pending []
           "0x1" "Transaction with the same hash was already imported."
           (VInt 0) (VInt 1) (VStr Fixtures.token1) [x01] [x02]
           (ValueError "Transaction with the same hash was already imported.")).
  - reflexivity.
  - reflexivity.
  - reflexivity.
  - discriminate.
  - reflexivity.
  - reflexivity.
  - reflexivity.
  - reflexivity.
  - vm_compute. reflexivity.
Defined.

Lemma retries_bounded_witness :
  ∃ r extra,
    @send_unsigned_transaction Fixtures.library Fixtures.invalid_nonce_node
      6 Fixtures.eth_transfer (Some "1"%string) None true Fixtures.pending []
    = Some (r, [] ++ extra)
    ∧ (length extra ≤ 12)%nat.
Proof.
  apply (@retries_bounded Fixtures.library Fixtures.invalid_nonce_node
           6 Fixtures.eth_transfer (Some "1"%string) None true Fixtures.pending []).
  - intros log r exc. unfold Fixtures.invalid_nonce_node, Fixtures.rejecting_node.
    destruct (String.eqb _ _); [discriminate|].
    intros [= <-]. vm_compute. reflexivity.
  - intros tx key exc. discriminate.
  - lia.
Defined.

End SubmissionMoreFacts.

(* ===================================================================== *)
(** * The transfer history *)
(* ===================================================================== *)

Module HistoryFacts.
Import EthereumClient EthereumClientRest Spec SubmissionMoreFacts.
#[local] Set Warnings "-clear-no-such-hyp".

Lemma insert_by_block_perm (e : event) (l : list event) :
  insert_by_block e l ≡ₚ e :: l.
Proof.
  induction l as [|x l IH]; cbn [insert_by_block]; [done|].
  destruct (_ <=? _); [done|]. rewrite IH. apply Permutation_swap.
Qed.

Lemma sort_by_block_perm (l : list event) : sort_by_block l ≡ₚ l.
Proof.
  induction l as [|x l IH]; [done|].
  change (sort_by_block (x :: l)) with (insert_by_block x (sort_by_block l)).
  rewrite insert_by_block_perm. by f_equiv.
Qed.

Lemma insert_by_block_sorted (e : event) (l : list event) :
  StronglySorted (λ a b, event_blockNumber a ≤ event_blockNumber b) l →
  StronglySorted (λ a b, event_blockNumber a ≤ event_blockNumber b)
    (insert_by_block e l).
Proof.
  induction 1 as [|x l Hsorted IH Hall]; cbn [insert_by_block].
  - repeat constructor.
  - destruct (Z.leb_spec (event_blockNumber e) (event_blockNumber x)).
    + constructor; [by constructor|].
      constructor; [done|]. eapply Forall_impl; [exact Hall|].
      intros y Hy. cbn in Hy |- *. lia.
    + constructor; [done|]. rewrite insert_by_block_perm.
      constructor; [lia|done].
Qed.

Lemma sort_by_block_sorted (l : list event) :
  StronglySorted (λ a b, event_blockNumber a ≤ event_blockNumber b)
    (sort_by_block l).
Proof.
  induction l as [|x l IH]; [constructor|].
  change (sort_by_block (x :: l)) with (insert_by_block x (sort_by_block l)).
  by apply insert_by_block_sorted.
Qed.

Lemma insert_by_block_same_block (n : Z) (e : event) (l : list event) :
  List.filter (λ x, event_blockNumber x =? n) (insert_by_block e l)
  = List.filter (λ x, event_blockNumber x =? n) (e :: l).
Proof.
  induction l as [|x l IH]; cbn [insert_by_block]; [done|].
  destruct (Z.leb_spec (event_blockNumber e) (event_blockNumber x)); [done|].
  cbn [List.filter] in IH |- *. rewrite IH.
  destruct (Z.eqb_spec (event_blockNumber e) n),
           (Z.eqb_spec (event_blockNumber x) n); try done.
  lia.
Qed.

(** The sort is stable: the entries of one block keep their order. *)
Lemma sort_by_block_stable (n : Z) (l : list event) :
  List.filter (λ x, event_blockNumber x =? n) (sort_by_block l)
  = List.filter (λ x, event_blockNumber x =? n) l.
Proof.
  induction l as [|x l IH]; [done|].
  change (sort_by_block (x :: l)) with (insert_by_block x (sort_by_block l)).
  rewrite insert_by_block_same_block. cbn [List.filter]. by rewrite IH.
Qed.

Section History.
Context `{Constants} `{Library} `{Imports} (nd : node).

Lemma getLogs_outcome (parameters : gmap string value) (log : list request) :
  getLogs nd parameters log
  = (reply ← nd log (Rpc Slow "eth_getLogs" [VDict parameters]);
     entries ← iter reply;
     mapR log_entry_formatter entries,
     log ++ [Rpc Slow "eth_getLogs" [VDict parameters]]).
Proof.
  unfold getLogs. rewrite bind_run. unfold call.
  destruct (nd _ _) as [reply|e]; [|done]. cbn [mbind result_bind].
  unfold lift. by destruct (iter reply ≫= _).
Qed.

(** X24.  The list [get_total_transfer_history] returns is sorted by
    block number and every entry of it carries [args]: it holds the
    decodable entries of the answer to the `to` query followed by those of
    the answer to the `from` query, an entry that both queries report being
    kept twice, and entries of one block stay in that order. *)
Theorem transfer_history_sorted (addresses : list string) (from_block : Z)
    (to_block : option Z) (token_address : option string)
    (log log' : list request) (events : list event) :
  get_total_transfer_history nd addresses from_block to_block token_address log
  = (Ok events, log') →
  StronglySorted (λ a b, event_blockNumber a ≤ event_blockNumber b) events
  ∧ Forall (λ e, is_Some (event_args e)) events
  ∧ ∃ query_to query_from log1 events_to events_from decoded,
      getLogs nd query_to log = (Ok events_to, log1)
      ∧ getLogs nd query_from log1 = (Ok events_from, log')
      ∧ mapR decode_event (events_to ++ events_from) = Ok decoded
      ∧ events ≡ₚ List.filter (λ e, is_Some_bool (event_args e)) decoded
      ∧ ∀ n, List.filter (λ e, event_blockNumber e =? n) events
             = List.filter (λ e, event_blockNumber e =? n)
                 (List.filter (λ e, is_Some_bool (event_args e)) decoded).
Proof.
  unfold get_total_transfer_history. rewrite bind_lift.
  destruct (mapR _ addresses) as [encoded|e]; [|done].
  cbv zeta. rewrite bind_run.
  destruct (getLogs nd _ log) as [[events_to|e] log1] eqn:Hto; [|done].
  rewrite bind_run.
  destruct (getLogs nd _ log1) as [[events_from|e] log2] eqn:Hfrom; [|done].
  rewrite bind_lift.
  destruct (mapR decode_event (events_to ++ events_from)) as [decoded|e] eqn:Hdec;
    [|done].
  intros [= <- <-]. split_and!.
  - apply sort_by_block_sorted.
  - rewrite sort_by_block_perm. apply Forall_forall. intros e He.
    apply list_elem_of_In, filter_In in He as [_ He].
    by destruct (event_args e).
  - eexists _, _, _, _, _, _. split_and!; [done..| |].
    + apply sort_by_block_perm.
    + intros n. apply sort_by_block_stable.
Qed.

(** X25.  [get_total_transfer_history] queries [eth_getLogs] on the slow
    provider, for transfers to the addresses first and from them second,
    and does nothing else: the two queries differ in [topics] only, carry
    [fromBlock], carry [toBlock] unless [to_block] is [None] or 0 and
    [address] unless [token_address] is [None] or empty.  When the first
    query fails, that failure is the outcome and the second query is not
    sent; when it succeeds, both have been sent, whatever follows; when an
    address cannot be encoded, none is sent. *)
Theorem transfer_history_requests (addresses : list string) (from_block : Z)
    (to_block : option Z) (token_address : option string) (log : list request) :
  let outcome :=
    get_total_transfer_history nd addresses from_block to_block token_address log in
  match mapR (λ address, encoded ← encode_address address;
                         Ok (VStr (HexBytes_hex encoded))) addresses with
  | Raise e => outcome = (Raise e, log)
  | Ok addresses_encoded =>
      ∃ query_to query_from,
        query_to !! "topics"%string
        = Some (VList [VStr (HexBytes_hex TRANSFER_TOPIC); VNone;
                       VList addresses_encoded])
        ∧ query_from !! "topics"%string
          = Some (VList [VStr (HexBytes_hex TRANSFER_TOPIC);
                         VList addresses_encoded])
        ∧ (∀ k, k ≠ "topics"%string → query_to !! k = query_from !! k)
        ∧ dom query_to ⊆ list_to_set ["fromBlock"; "toBlock"; "address"; "topics"]%string
        ∧ query_to !! "fromBlock"%string = Some (VInt from_block)
        ∧ (to_block = None ∨ to_block = Some 0 → query_to !! "toBlock"%string = None)
        ∧ (∀ n, to_block = Some n → n ≠ 0 →
             query_to !! "toBlock"%string = Some (VInt n))
        ∧ (token_address = None ∨ token_address = Some EmptyString →
           query_to !! "address"%string = None)
        ∧ (∀ a, token_address = Some a → a ≠ EmptyString →
             query_to !! "address"%string = Some (VStr a))
        ∧ (∀ e, (getLogs nd query_to log).1 = Raise e →
             outcome = (Raise e, log ++ [Rpc Slow "eth_getLogs" [VDict query_to]]))
        ∧ (∀ events_to, (getLogs nd query_to log).1 = Ok events_to →
             outcome.2 = log ++ [Rpc Slow "eth_getLogs" [VDict query_to];
                                 Rpc Slow "eth_getLogs" [VDict query_from]])
  end.
Proof.
  cbv zeta. unfold get_total_transfer_history. rewrite bind_lift.
  destruct (mapR _ addresses) as [encoded|e]; [|done].
  cbv zeta.
  set (parameters := transfer_history_parameters from_block to_block token_address).
  assert (parameters !! "topics"%string = None
          ∧ dom parameters ⊆ list_to_set ["fromBlock"; "toBlock"; "address"]%string
          ∧ parameters !! "fromBlock"%string = Some (VInt from_block)
          ∧ (to_block = None ∨ to_block = Some 0 →
             parameters !! "toBlock"%string = None)
          ∧ (∀ n, to_block = Some n → n ≠ 0 →
               parameters !! "toBlock"%string = Some (VInt n))
          ∧ (token_address = None ∨ token_address = Some EmptyString →
             parameters !! "address"%string = None)
          ∧ (∀ a, token_address = Some a → a ≠ EmptyString →
               parameters !! "address"%string = Some (VStr a)))
    as (Htopics & Hdom & Hfrom & Hto0 & Hto & Haddr0 & Haddr).
  { subst parameters. unfold transfer_history_parameters.
    destruct to_block as [n|]; cbn [opt_int_truthy default];
      [destruct (Z.eqb_spec n 0) as [->|Hn]; cbn [negb]|];
      (destruct token_address as [[|c a]|]; cbn [str_truthy default];
       cbn [String.length Nat.eqb negb]).
    all: split_and!;
      [by simplify_map_eq|set_solver|by simplify_map_eq
      |intros [?|?]; by simplify_map_eq|intros ? ? ?; by simplify_map_eq
      |intros [?|?]; by simplify_map_eq|intros ? ? ?; by simplify_map_eq]. }
  exists (<["topics"%string := VList [VStr (HexBytes_hex TRANSFER_TOPIC); VNone;
                                      VList encoded]]> parameters),
         (<["topics"%string := VList [VStr (HexBytes_hex TRANSFER_TOPIC);
                                      VList encoded]]> parameters).
  split_and!.
  - by simplify_map_eq.
  - by simplify_map_eq.
  - intros k Hk. by rewrite !lookup_insert_ne.
  - rewrite dom_insert. set_solver.
  - by simplify_map_eq.
  - intros Hcase. rewrite lookup_insert_ne by done. by apply Hto0.
  - intros n Hn Hnz. rewrite lookup_insert_ne by done. by apply Hto.
  - intros Hcase. rewrite lookup_insert_ne by done. by apply Haddr0.
  - intros a Ha Hnz. rewrite lookup_insert_ne by done. by apply Haddr.
  - intros e. rewrite bind_run, !getLogs_outcome. cbn [fst].
    by intros ->.
  - intros events_to. rewrite bind_run, !getLogs_outcome. cbn [fst].
    intros ->.
    rewrite bind_run, getLogs_outcome.
    destruct (_ ≫= _) as [events_from|e] in |- *.
    2:{ cbn [snd]. by rewrite <- app_assoc. }
    rewrite bind_lift. cbn [snd].
    destruct (mapR decode_event _); cbn [snd]; by rewrite <- app_assoc.
Qed.

End History.

Lemma transfer_history_sorted_witness :
  ∃ events,
    (@get_total_transfer_history Fixtures.constants Fixtures.library
       Fixtures.imports Fixtures.history_node [Fixtures.owner] 0 None None []).1
    = Ok events
    ∧ event_blockNumber <$> events = [3; 3; 5; 7]
    ∧ StronglySorted (λ a b, event_blockNumber a ≤ event_blockNumber b) events.
Proof.
  eexists. split; [vm_compute; reflexivity|]. split; [reflexivity|].
  eapply (@transfer_history_sorted Fixtures.constants Fixtures.library
            Fixtures.imports Fixtures.history_node [Fixtures.owner] 0 None None
            [] _ _).
  vm_compute. reflexivity.
Defined.

Lemma transfer_history_requests_witness :
  (∃ query_to query_from : gmap string value,
     query_to !! "topics"%string
     = Some (VList [VStr (HexBytes_hex Fixtures.topic); VNone;
                    VList [VStr ("0x000000000000000000000000"
                                 ++ lower (remove_0x Fixtures.owner))]])
     ∧ query_to !! "toBlock"%string = None
     ∧ (@get_total_transfer_history Fixtures.constants Fixtures.library
          Fixtures.imports Fixtures.history_node [Fixtures.owner] 0 (Some 0)
          None []).2
       = [] ++ [Rpc Slow "eth_getLogs" [VDict query_to];
                Rpc Slow "eth_getLogs" [VDict query_from]])
  ∧ (∃ query_to : gmap string value,
       query_to !! "fromBlock"%string = Some (VInt 0)
       ∧ @get_total_transfer_history Fixtures.constants Fixtures.library
           Fixtures.imports Fixtures.null_node [Fixtures.owner] 0 (Some 0) None []
         = (Raise TypeError, [] ++ [Rpc Slow "eth_getLogs" [VDict query_to]])).
Proof.
  split.
  - destruct (@transfer_history_requests Fixtures.constants Fixtures.library
                Fixtures.imports Fixtures.history_node [Fixtures.owner] 0 (Some 0)
                None [])
      as (query_to & query_from & Htopics & _ & _ & _ & _ & Hto & _ & _ & _ & _
          & Hsent).
    exists query_to, query_from. split_and!.
    + exact Htopics.
    + apply Hto. by right.
    + eapply Hsent. reflexivity.
  - destruct (@transfer_history_requests Fixtures.constants Fixtures.library
                Fixtures.imports Fixtures.null_node [Fixtures.owner] 0 (Some 0)
                None [])
      as (query_to & query_from & _ & _ & _ & _ & Hfrom & _ & _ & _ & _ & Hfailed
          & _).
    exists query_to. split; [exact Hfrom|]. apply Hfailed. reflexivity.
Defined.

End HistoryFacts.

(* ===================================================================== *)
(** * Receipts, confirmations, gas estimation and [send_eth_to] *)
(* ===================================================================== *)

Module ClientMoreFacts.
Import EthereumClient EthereumClientRest Spec SubmissionMoreFacts.
#[local] Set Warnings "-clear-no-such-hyp".

Section Client.
Context `{Library} `{Imports} (nd : node) (ethereum_node_url : string).

Lemma get_transaction_receipt_outcome (tx_hash : bytes_or_str) (log : list request) :
  get_transaction_receipt nd tx_hash log
  = (reply ← nd log (Rpc Default "eth_getTransactionReceipt" [value_of_hash tx_hash]);
     match reply with
     | VNone => Ok VNone
     | _ =>
         tx_receipt ← receipt_formatter reply;
         if truthy tx_receipt then
           block_number ← getkey tx_receipt "blockNumber";
           match block_number with
           | VNone => Ok VNone
           | _ => Ok tx_receipt
           end
         else Ok VNone
     end,
     log ++ [Rpc Default "eth_getTransactionReceipt" [value_of_hash tx_hash]]).
Proof.
  unfold get_transaction_receipt. rewrite bind_run. unfold call.
  destruct (nd _ _) as [reply|e]; [|done]. cbn [mbind result_bind].
  assert ((tx_receipt ← lift (receipt_formatter reply);
           if truthy tx_receipt
           then block_number ← lift (getkey tx_receipt "blockNumber");
                match block_number with
                | VNone => mret (M := M) VNone
                | _ => mret tx_receipt
                end
           else mret VNone)
            (log ++ [Rpc Default "eth_getTransactionReceipt" [value_of_hash tx_hash]])
          = (tx_receipt ← receipt_formatter reply;
             if truthy tx_receipt then
               block_number ← getkey tx_receipt "blockNumber";
               match block_number with
               | VNone => Ok VNone
               | _ => Ok tx_receipt
               end
             else Ok VNone,
             log ++ [Rpc Default "eth_getTransactionReceipt" [value_of_hash tx_hash]]))
    as Hrest.
  { rewrite bind_lift.
    destruct (receipt_formatter reply) as [tx_receipt|e]; [|done].
    cbn [mbind result_bind]. destruct (truthy tx_receipt); [|done].
    rewrite bind_lift.
    destruct (getkey tx_receipt "blockNumber") as [block_number|e]; [|done].
    by destruct block_number. }
  by destruct reply.
Qed.

(** X26.  [get_transaction_receipt] (without [timeout]) sends one
    request, and what it returns is [None] or a receipt that has a
    [blockNumber] other than [None]: a receipt of a pending transaction is
    never returned. *)
Theorem get_transaction_receipt_mined_only (tx_hash : bytes_or_str)
    (log : list request) :
  let outcome := get_transaction_receipt nd tx_hash log in
  outcome.2 = log ++ [Rpc Default "eth_getTransactionReceipt" [value_of_hash tx_hash]]
  ∧ ∀ tx_receipt, outcome.1 = Ok tx_receipt →
      tx_receipt = VNone
      ∨ (truthy tx_receipt = true
         ∧ ∃ block_number, getkey tx_receipt "blockNumber" = Ok block_number
                           ∧ block_number ≠ VNone).
Proof.
  cbv zeta. rewrite get_transaction_receipt_outcome. cbn [fst snd].
  split; [done|]. intros tx_receipt.
  destruct (nd _ _) as [reply|e]; [|done]. cbn [mbind result_bind].
  assert ((tx_receipt' ← receipt_formatter reply;
           if truthy tx_receipt' then
             block_number ← getkey tx_receipt' "blockNumber";
             match block_number with
             | VNone => Ok VNone
             | _ => Ok tx_receipt'
             end
           else Ok VNone) = Ok tx_receipt →
          tx_receipt = VNone
          ∨ (truthy tx_receipt = true
             ∧ ∃ block_number, getkey tx_receipt "blockNumber" = Ok block_number
                               ∧ block_number ≠ VNone)) as Hrest.
  { destruct (receipt_formatter reply) as [tx_receipt'|e]; [|done].
    cbn [mbind result_bind].
    destruct (truthy tx_receipt') eqn:Htruthy; [|intros [= <-]; by left].
    destruct (getkey tx_receipt' "blockNumber") as [block_number|e] eqn:Hblock;
      [|done].
    cbn [mbind result_bind].
    destruct block_number; intros [= <-]; first [by left|right];
      (split; [done|]); by eexists. }
  destruct reply; try exact Hrest. intros [= <-]. by left.
Qed.

(** X27.  [check_tx_with_confirmations] answers [True] only for a mined
    transaction whose block is at least [confirmations] blocks behind the
    block number the node reports, after exactly two requests; for a
    transaction without a mined receipt it answers [False] without asking
    for the block number, whatever [confirmations] is. *)
Theorem check_tx_with_confirmations_sound (tx_hash : string) (confirmations : Z)
    (log : list request) :
  let outcome := check_tx_with_confirmations nd tx_hash confirmations log in
  let receipt_query := Rpc Default "eth_getTransactionReceipt" [VStr tx_hash] in
  let block_query := Rpc Default "eth_blockNumber" [] in
  (outcome.1 = Ok true →
   ∃ tx_receipt mined current,
     (get_transaction_receipt nd (Str tx_hash) log).1 = Ok tx_receipt
     ∧ getkey tx_receipt "blockNumber" = Ok (VInt mined)
     ∧ nd (log ++ [receipt_query]) block_query = Ok (VInt current)
     ∧ confirmations ≤ current - mined
     ∧ outcome.2 = log ++ [receipt_query; block_query])
  ∧ ((get_transaction_receipt nd (Str tx_hash) log).1 = Ok VNone →
     outcome = (Ok false, log ++ [receipt_query])).
Proof.
  cbv zeta. unfold check_tx_with_confirmations. rewrite bind_run.
  rewrite get_transaction_receipt_outcome. cbn [fst snd value_of_hash].
  destruct (_ ≫= _) as [tx_receipt|e] in |- *; [|done].
  split.
  - destruct (truthy tx_receipt); [|done]. cbn [negb].
    rewrite bind_lift.
    destruct (getkey tx_receipt "blockNumber") as [block_number|e] eqn:Hblock;
      [|done].
    destruct block_number as [| |mined| | | |]; try done;
      try (rewrite bind_run; unfold call; by destruct (nd _ _) as [[]|]).
    rewrite bind_run. unfold call.
    destruct (nd _ _) as [current|e] eqn:Hcurrent; [|done].
    destruct current as [| |current| | | |]; try done.
    cbn [fst snd]. intros [= Hle].
    exists tx_receipt, mined, current. split_and!; [done..|lia|].
    by rewrite <- app_assoc.
  - by intros [= ->].
Qed.

Lemma getkey_contains (response v : value) (k : string) :
  getkey response k = Ok v → contains k response = Ok true.
Proof.
  destruct response as [| | | | | |d]; try done. cbn [getkey contains].
  destruct (d !! k) eqn:Hk; [|done]. intros _.
  by rewrite bool_decide_eq_true_2.
Qed.

Lemma estimate_gas_outcome (from_ to : string) (value : Z) (data : option bytes)
    (block_identifier : option string) (log : list request) :
  let fallback :=
    Rpc Default "eth_estimateGas"
      [VDict (dict [("from", VStr from_); ("to", VStr to);
                    ("data", VBytes (default [] data)); ("value", VInt value)]%string)] in
  ∃ payload,
    let post := HttpPost ethereum_node_url payload in
    (∃ transaction,
       getkey payload "params"
       = Ok (VList (transaction :: match block_identifier with
                                   | Some (String c s) => [VStr (String c s)]
                                   | _ => []
                                   end)))
    ∧ estimate_gas nd ethereum_node_url from_ to value data block_identifier log
    = match nd log post with
      | Raise e => (Raise e, log ++ [post])
      | Ok response =>
          match contains "error" response with
          | Raise e => (Raise e, log ++ [post])
          | Ok false =>
              (r ← getkey response "result"; VInt <$> int_16 r, log ++ [post])
          | Ok true =>
              match getkey response "error" with
              | Raise e => (Raise e, log ++ [post])
              | Ok error =>
                  match getkey error "code" with
                  | Raise e => (Raise e, log ++ [post])
                  | Ok (VInt (-32602)) =>
                      (nd (log ++ [post]) fallback, log ++ [post; fallback])
                  | Ok _ => (Raise (ValueError (str_of error)), log ++ [post])
                  end
              end
          end
      end.
Proof.
  cbv zeta. unfold estimate_gas. cbv zeta.
  match goal with
  | |- context [call nd (HttpPost ethereum_node_url ?p)] => exists p
  end.
  split.
  { eexists. cbn [getkey]. unfold dict at 1. cbn [list_to_map foldr].
    rewrite lookup_insert_ne by done. rewrite lookup_insert_eq.
    by destruct block_identifier as [[|c s]|]. }
  rewrite bind_run. unfold call at 1.
  destruct (nd log _) as [response|e]; [|done].
  rewrite bind_lift.
  destruct (contains "error" response) as [[]|e]; [| |done].
  - rewrite bind_lift.
    destruct (getkey response "error") as [error|e]; [|done].
    rewrite bind_lift.
    destruct (getkey error "code") as [code|e]; [|done].
    destruct code as [| |c| | | |]; try done.
    destruct c as [|p|p]; try done.
    repeat (destruct p as [p|p|]; try done).
    unfold call. by rewrite <- app_assoc.
  - rewrite bind_lift.
    destruct (getkey response "result") as [r|e]; [|done].
    cbn [mbind result_bind]. unfold lift. done.
Qed.

(** X28.  [estimate_gas] posts one query, whose parameters end with
    the block identifier unless that is [None] or empty, and, at most,
    falls back to one [eth_estimateGas] request through web3, which carries
    the raw data and value and no block identifier; it falls back exactly
    when the answer has an error of code -32602, and then returns whatever
    that request gives.  An error of another code is raised as a
    [ValueError] of the text of the error, whatever else the answer
    holds. *)
Theorem estimate_gas_fallback (from_ to : string) (value : Z) (data : option bytes)
    (block_identifier : option string) (log : list request) :
  let outcome :=
    estimate_gas nd ethereum_node_url from_ to value data block_identifier log in
  let fallback :=
    Rpc Default "eth_estimateGas"
      [VDict (dict [("from", VStr from_); ("to", VStr to);
                    ("data", VBytes (default [] data)); ("value", VInt value)]%string)] in
  ∃ payload,
    let post := HttpPost ethereum_node_url payload in
    (∃ transaction,
       getkey payload "params"
       = Ok (VList (transaction :: match block_identifier with
                                   | Some (String c s) => [VStr (String c s)]
                                   | _ => []
                                   end)))
    ∧ (outcome.2 = log ++ [post] ∨ outcome.2 = log ++ [post; fallback])
    ∧ (outcome.2 = log ++ [post; fallback]
       ↔ ∃ response error,
           nd log post = Ok response
           ∧ getkey response "error" = Ok error
           ∧ getkey error "code" = Ok (VInt (-32602)))
    ∧ (outcome.2 = log ++ [post; fallback] →
       outcome.1 = nd (log ++ [post]) fallback)
    ∧ (∀ response error code,
         nd log post = Ok response →
         getkey response "error" = Ok error →
         getkey error "code" = Ok code →
         code ≠ VInt (-32602) →
         outcome = (Raise (ValueError (str_of error)), log ++ [post])).
Proof.
  cbv zeta.
  destruct (estimate_gas_outcome from_ to value data block_identifier log)
    as (payload & Hparams & ->).
  exists payload. cbv zeta. split; [exact Hparams|]. clear Hparams.
  set (post := HttpPost ethereum_node_url payload).
  set (fallback := Rpc Default "eth_estimateGas" _).
  assert (∀ l : list request, l ++ [post] ≠ l ++ [post; fallback]) as Hneq.
  { intros l Heq. apply app_inv_head in Heq. discriminate. }
  destruct (nd log post) as [response|e].
  2:{ cbn [fst snd]. split_and!; [by left| |by intros ?%Hneq|done].
      split; [by intros ?%Hneq|]. by intros (? & ? & ? & _). }
  destruct (contains "error" response) as [[]|e] eqn:Hcontains.
  - destruct (getkey response "error") as [error|e] eqn:Herror.
    2:{ cbn [fst snd]. split_and!; [by left| |by intros ?%Hneq|].
        - split; [by intros ?%Hneq|].
          intros (? & ? & [= <-] & Herr & _). congruence.
        - intros ? ? ? [= <-] Herr. congruence. }
    destruct (getkey error "code") as [code|e] eqn:Hcode.
    2:{ cbn [fst snd]. split_and!; [by left| |by intros ?%Hneq|].
        - split; [by intros ?%Hneq|].
          intros (? & ? & [= <-] & Herr & Hc). congruence.
        - intros ? ? ? [= <-] Herr Hc. congruence. }
    assert (code = VInt (-32602) ∨ code ≠ VInt (-32602)) as [->|Hother].
    { destruct code as [| |c| | | |]; try (by right).
      destruct (Z.eq_dec c (-32602)) as [->|Hc]; [by left|].
      right. congruence. }
    + cbn [fst snd]. split_and!; [by right| |done|].
      * split; [|done]. intros _. by exists response, error.
      * intros ? ? ? [= <-] Herr Hc. congruence.
    + assert (match code with
              | VInt (-32602) =>
                  (nd (log ++ [post]) fallback, log ++ [post; fallback])
              | _ => (Raise (ValueError (str_of error)), log ++ [post])
              end = (Raise (ValueError (str_of error)), log ++ [post])) as ->.
      { destruct code as [| |c| | | |]; try done.
        destruct c as [|p|p]; try done.
        repeat (destruct p as [p|p|]; try done). }
      cbn [fst snd]. split_and!; [by left| |by intros ?%Hneq|].
      * split; [by intros ?%Hneq|].
        intros (? & ? & [= <-] & Herr & Hc). congruence.
      * intros ? ? ? [= <-] Herr Hc. congruence.
  - cbn [fst snd]. split_and!; [by left| |by intros ?%Hneq|].
    + split; [by intros ?%Hneq|].
      intros (? & ? & [= <-] & Herr%getkey_contains & _). congruence.
    + intros ? ? ? [= <-] Herr%getkey_contains. congruence.
  - cbn [fst snd]. split_and!; [by left| |by intros ?%Hneq|].
    + split; [by intros ?%Hneq|].
      intros (? & ? & [= <-] & Herr%getkey_contains & _). congruence.
    + intros ? ? ? [= <-] Herr%getkey_contains. congruence.
Qed.

(** Without [retry] both [except] clauses of the loop raise again. *)
Lemma handlers_no_retry (block_identifier : option string) (address : string)
    (tx' : gmap string value) (number_errors : Z) (exc : exn)
    (log0 : list request) :
  match
    match exc with
    | EthereumClientException ReplacementTransactionUnderpriced _ =>
        Some (if negb false || (number_errors =? 0) then raise exc
              else
                current_nonce ← lift (getkey (VDict tx') "nonce");
                next_nonce ← lift (add_one current_nonce);
                fresh ← get_nonce_for_account nd address block_identifier;
                nonce ← lift (max_with next_nonce fresh);
                mret (Again (<["nonce"%string := nonce]> tx') number_errors))
    | EthereumClientException InvalidNonce _ =>
        Some (if negb false || (number_errors =? 0) then raise exc
              else
                _ ← lift (getkey (VDict tx') "nonce");
                fresh ← get_nonce_for_account nd address block_identifier;
                mret (Again (<["nonce"%string := fresh]> tx') (number_errors - 1)))
    | _ => None
    end
  with
  | Some handler => handler log0
  | None => (Raise exc, log0)
  end = (Raise exc : result iteration, log0).
Proof. destruct exc as [ | | | | | |kind msg| | | | ]; try done. by destruct kind. Qed.

(** One pass with a private key and without [retry]: the only request
    is the submission of the signed transaction. *)
Lemma send_iteration_signed_once (private_key public_key : option string)
    (block_identifier : option string) (address : string)
    (tx : gmap string value) (number_errors : Z) (log : list request)
    (amount recipient : value) :
  str_truthy private_key = true →
  tx !! "value"%string = Some amount →
  tx !! "to"%string = Some recipient →
  ∃ r extra,
    send_iteration nd private_key public_key false block_identifier address tx
      number_errors log = (r, log ++ extra)
    ∧ ((∃ tx_hash, r = Ok (Done tx_hash)) ∨ ∃ exc, r = Raise exc)
    ∧ (extra = []
       ∨ ∃ raw tx_hash,
           sign_transaction tx (default EmptyString private_key) = Ok (raw, tx_hash)
           ∧ extra = [Rpc Default "eth_sendRawTransaction" [VBytes raw]]).
Proof.
  intros Hpk Hvalue Hto.
  unfold send_iteration, try_except at 1. rewrite Hpk.
  rewrite bind_lift.
  destruct (sign_transaction tx (default EmptyString private_key))
    as [[raw h]|exc] eqn:Hsign.
  2:{ rewrite handlers_no_retry. exists (Raise exc), [].
      rewrite app_nil_r. split_and!; [done|right; by eexists|by left]. }
  rewrite bind_lift. cbn [getkey]. rewrite Hvalue.
  rewrite bind_lift. rewrite Hto.
  rewrite bind_run. unfold try_except at 1, send_raw_transaction.
  rewrite wrapped_call.
  destruct (nd log _) as [reply|exc0] eqn:Hnd.
  - eexists _, _. split_and!; [done|left; by eexists|right; by eexists _, _].
  - destruct (classified exc0) as [ | | | | | |kind msg| | | | ] eqn:Hclass;
      try (eexists _, _; split_and!;
           [done|right; by eexists|right; by eexists _, _]).
    destruct kind;
      try (eexists _, _; split_and!;
           [done|right; by eexists|right; by eexists _, _]).
    eexists _, _. split_and!; [done|left; by eexists|right; by eexists _, _].
Qed.

(** X29.  [send_eth_to] refuses before anything is signed or sent: a
    recipient that fails the checksum test gives an AssertionError, a
    recipient on which the test itself raises gives that exception, and an
    empty private key the ValueError of a missing account; in all three
    cases no request is issued. *)
Theorem send_eth_to_refuses (fuel : nat) (private_key to : string)
    (gas_price value gas : Z) (nonce : option Z) (retry : bool)
    (block_identifier : option string) (log : list request) :
  (check_checksum to = Ok false →
   send_eth_to nd fuel private_key to gas_price value gas nonce retry
     block_identifier log
   = Some (Raise (AssertionError EmptyString), log))
  ∧ (∀ exc, check_checksum to = Raise exc →
       send_eth_to nd fuel private_key to gas_price value gas nonce retry
         block_identifier log
       = Some (Raise exc, log))
  ∧ (check_checksum to = Ok true → private_key = EmptyString →
     send_eth_to nd fuel private_key to gas_price value gas nonce retry
       block_identifier log
     = Some (Raise (ValueError
                      "Ethereum account was not configured or unlocked in the node"),
             log)).
Proof.
  unfold send_eth_to. split_and!.
  - by intros ->.
  - by intros exc ->.
  - by intros -> ->.
Qed.

(** X30.  With an explicit nonce, 0 included, and without [retry],
    [send_eth_to] never asks the node for a nonce: it returns or raises
    after at most one request, the submission of the signed transaction,
    and the transaction it signs has the given nonce. *)
Theorem send_eth_to_explicit_nonce (fuel : nat) (private_key to : string)
    (gas_price value gas nonce : Z)
    (block_identifier : option string) (log : list request) :
  check_checksum to = Ok true →
  ∃ r extra,
    send_eth_to nd (S fuel) private_key to gas_price value gas (Some nonce)
      false block_identifier log = Some (r, log ++ extra)
    ∧ (extra = []
       ∨ ∃ tx raw tx_hash,
           tx !! "nonce"%string = Some (VInt nonce)
           ∧ sign_transaction tx private_key = Ok (raw, tx_hash)
           ∧ extra = [Rpc Default "eth_sendRawTransaction" [VBytes raw]]).
Proof.
  intros Hto. unfold send_eth_to. rewrite Hto.
  unfold send_unsigned_transaction.
  destruct (str_truthy (Some private_key)) eqn:Hpk.
  2:{ cbn [str_truthy]. exists (Raise (ValueError
        "Ethereum account was not configured or unlocked in the node")), [].
      rewrite app_nil_r. split; [done|by left]. }
  change (default EmptyString (Some private_key)) with private_key.
  destruct (private_key_to_address private_key) as [address|exc].
  2:{ exists (Raise exc), []. rewrite app_nil_r. split; [done|by left]. }
  rewrite lookup_insert_eq. cbv zeta. unfold mret at 1, M_ret.
  cbn [send_loop]. change (5 >=? 0) with true. cbv iota.
  match goal with
  | |- context [send_iteration _ _ _ _ _ _ ?tx _ _] =>
      destruct (send_iteration_signed_once (Some private_key) None
                  block_identifier address tx 5 log (VInt value) (VStr to) Hpk)
        as (r & extra & -> & Hr & Hextra)
  end.
  - rewrite lookup_insert_ne by done. unfold dict. by simplify_map_eq.
  - rewrite lookup_insert_ne by done. unfold dict. by simplify_map_eq.
  - assert (extra = []
            ∨ ∃ tx raw tx_hash,
                tx !! "nonce"%string = Some (VInt nonce)
                ∧ sign_transaction tx private_key = Ok (raw, tx_hash)
                ∧ extra = [Rpc Default "eth_sendRawTransaction" [VBytes raw]])
      as Hextra'.
    { destruct Hextra as [->|(raw & tx_hash & Hsign & ->)]; [by left|].
      right. eexists _, raw, tx_hash. split_and!; [|exact Hsign|done].
      apply lookup_insert_eq. }
    destruct Hr as [[tx_hash ->]|[exc ->]]; by eexists _, _.
Qed.

End Client.

Lemma get_transaction_receipt_mined_only_witness :
  (@get_transaction_receipt Fixtures.library Fixtures.mined_node (Str "0x01") []).1
  = Ok (VDict (dict [("blockNumber", VInt 10)]%string))
  ∧ truthy (VDict (dict [("blockNumber", VInt 10)]%string)) = true.
Proof.
  split; [reflexivity|].
  destruct (@get_transaction_receipt_mined_only Fixtures.library
              Fixtures.mined_node (Str "0x01") []) as [_ Hmined].
  destruct (Hmined (VDict (dict [("blockNumber", VInt 10)]%string)) eq_refl)
    as [Hnone|[Htruthy _]]; [discriminate Hnone|exact Htruthy].
Defined.

Lemma check_tx_with_confirmations_sound_witness :
  (@check_tx_with_confirmations Fixtures.library Fixtures.mined_node "0x01" 5 []).1
  = Ok true
  ∧ (@check_tx_with_confirmations Fixtures.library Fixtures.mined_node "0x01" 5 []).2
    = [] ++ [Rpc Default "eth_getTransactionReceipt" [VStr "0x01"];
             Rpc Default "eth_blockNumber" []]
  ∧ @check_tx_with_confirmations Fixtures.library Fixtures.null_node "0x01" 0 []
    = (Ok false, [] ++ [Rpc Default "eth_getTransactionReceipt" [VStr "0x01"]]).
Proof.
  split; [reflexivity|]. split.
  - destruct (@check_tx_with_confirmations_sound Fixtures.library
                Fixtures.mined_node "0x01" 5 []) as [Htrue _].
    destruct (Htrue eq_refl) as (? & ? & ? & _ & _ & _ & _ & Hlog).
    exact Hlog.
  - destruct (@check_tx_with_confirmations_sound Fixtures.library
                Fixtures.null_node "0x01" 0 []) as [_ Hfalse].
    apply Hfalse. reflexivity.
Defined.

Lemma estimate_gas_fallback_witness :
  (@estimate_gas Fixtures.library Fixtures.imports Fixtures.geth_node Fixtures.url
     Fixtures.owner Fixtures.token1 1 None Fixtures.pending []).1
  = Ok (VInt 21000).
Proof.
  destruct (@estimate_gas_fallback Fixtures.library Fixtures.imports
              Fixtures.geth_node Fixtures.url Fixtures.owner Fixtures.token1 1
              None Fixtures.pending [])
    as (payload & _ & _ & [_ Hiff] & Hfallback & _).
  rewrite Hfallback; [reflexivity|].
  apply Hiff. eexists _, _. split_and!; reflexivity.
Defined.

Lemma send_eth_to_refuses_witness :
  @send_eth_to Fixtures.library Fixtures.imports Fixtures.null_node 0
    "1" (lower Fixtures.token1) 1 1 22000 None false Fixtures.pending []
  = Some (Raise (AssertionError EmptyString), [])
  ∧ @send_eth_to Fixtures.library Fixtures.imports Fixtures.null_node 0
      "1" "0x00" 1 1 22000 None false Fixtures.pending []
    = Some (Raise (Exception "Invalid address format: '0x00'"), [])
  ∧ @send_eth_to Fixtures.library Fixtures.imports Fixtures.null_node 0
      "" Fixtures.token1 1 1 22000 None false Fixtures.pending []
    = Some (Raise (ValueError
                     "Ethereum account was not configured or unlocked in the node"),
            []).
Proof.
  destruct (@send_eth_to_refuses Fixtures.library Fixtures.imports
              Fixtures.null_node 0 "1" (lower Fixtures.token1) 1 1 22000 None false
              Fixtures.pending []) as (Hchecksum & _ & _).
  destruct (@send_eth_to_refuses Fixtures.library Fixtures.imports
              Fixtures.null_node 0 "1" "0x00" 1 1 22000 None false
              Fixtures.pending []) as (_ & Hraise & _).
  destruct (@send_eth_to_refuses Fixtures.library Fixtures.imports
              Fixtures.null_node 0 "" Fixtures.token1 1 1 22000 None
              false Fixtures.pending []) as (_ & _ & Hkey).
  split_and!; [apply Hchecksum|apply Hraise|apply Hkey]; reflexivity.
Defined.

Lemma send_eth_to_explicit_nonce_witness :
  ∃ r extra,
    @send_eth_to Fixtures.library Fixtures.imports Fixtures.invalid_nonce_node 1
      "1" Fixtures.token1 1 1 22000 (Some 0) false Fixtures.pending []
    = Some (r, [] ++ extra)
    ∧ (extra = []
       ∨ ∃ tx raw tx_hash,
           tx !! "nonce"%string = Some (VInt 0)
           ∧ @sign_transaction Fixtures.library tx "1" = Ok (raw, tx_hash)
           ∧ extra = [Rpc Default "eth_sendRawTransaction" [VBytes raw]]).
Proof.
  apply (@send_eth_to_explicit_nonce Fixtures.library Fixtures.imports
           Fixtures.invalid_nonce_node 0 "1" Fixtures.token1 1 1 22000 0
           Fixtures.pending []).
  reflexivity.
Defined.

End ClientMoreFacts.
